(** * Verification of [assets/js/download.js]

    A shallow embedding of the client-side download helper of the
    "Awesome Econ AI Stuff" site: base-prefix detection, the
    primary/secondary content resolver, the bulk zip download and the
    single-file download, together with the properties stated about them.

    JavaScript strings are embedded as [string]; a character stands for one
    UTF-16 code unit in the range U+0000..U+00FF.  The browser is a state
    record threaded through a small state-and-exception monad; the network,
    the URL parser and the zip serializer are parameters of the model. *)

From Stdlib Require Import Ascii String Bool Arith Lia List Permutation.
From stdpp Require Import base option list strings gmap fin_maps.

(* ===================================================================== *)
(** * JavaScript string primitives *)
(* ===================================================================== *)

Module JsString.

(** [s.startsWith(p)] *)
Fixpoint startsWith (s p : string) {struct p} : bool :=
  match p, s with
  | EmptyString, _ => true
  | String a p', String b s' => Ascii.eqb a b && startsWith s' p'
  | String _ _, EmptyString => false
  end.

(** [s.substring(n)] for [0 <= n]; an [n] beyond the end yields [""]. *)
Fixpoint substringFrom (n : nat) (s : string) : string :=
  match n, s with
  | O, _ => s
  | S n', String _ s' => substringFrom n' s'
  | S _, EmptyString => EmptyString
  end.

(** [s.includes(sub)] *)
Fixpoint includes (s sub : string) : bool :=
  startsWith s sub ||
  match s with
  | EmptyString => false
  | String _ s' => includes s' sub
  end.

(** [s.endsWith("/")], written on the last character. *)
Fixpoint endsWithSlash (s : string) : bool :=
  match s with
  | EmptyString => false
  | String c EmptyString => Ascii.eqb c "/"%char
  | String _ s' => endsWithSlash s'
  end.

(** [s.replace(/\/$/, '')]: without the [m] flag [$] only matches at the
    very end of the input, so at most the final character is removed. *)
Fixpoint replaceTrailingSlash (s : string) : string :=
  match s with
  | EmptyString => EmptyString
  | String c EmptyString => if Ascii.eqb c "/"%char then EmptyString else s
  | String c s' => String c (replaceTrailingSlash s')
  end.

(** [s.replace(/^\/skills\//, '_skills/')] *)
Definition replaceLeadingSkills (s : string) : string :=
  if startsWith s "/skills/"
  then "_skills/" +:+ substringFrom 8 s
  else s.

(** [s.split('/')]: always at least one segment; a character that is not
    a slash joins the first segment of what follows it. *)
Fixpoint splitSlash (s : string) : list string :=
  match s with
  | EmptyString => [EmptyString]
  | String c s' =>
      if Ascii.eqb c "/"%char then EmptyString :: splitSlash s'
      else match splitSlash s' with
           | seg :: rest => String c seg :: rest
           | [] => [String c EmptyString]
           end
  end.

(** White space and line terminators of ECMAScript among the code units
    below 256: TAB, LF, VT, FF, CR, SP and NBSP. *)
Definition isWhiteSpace (c : ascii) : bool :=
  let n := nat_of_ascii c in
  (n =? 9) || (n =? 10) || (n =? 11) || (n =? 12) || (n =? 13)
  || (n =? 32) || (n =? 160).

Fixpoint trimStart (s : string) : string :=
  match s with
  | EmptyString => EmptyString
  | String c s' => if isWhiteSpace c then trimStart s' else s
  end.

Fixpoint trimEnd (s : string) : string :=
  match s with
  | EmptyString => EmptyString
  | String c s' =>
      match trimEnd s' with
      | EmptyString => if isWhiteSpace c then EmptyString else String c EmptyString
      | t => String c t
      end
  end.

(** [s.trim()] *)
Definition trim (s : string) : string := trimEnd (trimStart s).

(** JavaScript truthiness of a string value. *)
Definition truthy (s : string) : bool :=
  match s with EmptyString => false | _ => true end.

End JsString.

Import JsString.

(* ===================================================================== *)
(** * The browser: page state, network results, zip objects *)
(* ===================================================================== *)

(** A thrown JavaScript value; only its message is kept. *)
Definition Error := string.

(** What [await fetch(url)] settles to: a rejection (network failure) or a
    response with its [ok] flag, its [statusText] and what [await
    response.text()] settles to. *)
Record Response := mkResponse {
  ok : bool;
  statusText : string;
  text : Error + string
}.

Inductive FetchResult :=
| NetworkError (e : Error)
| Resolved (r : Response).

(** An entry of a JSZip [files] object: a directory or a file with its data. *)
Inductive ZipObject :=
| ZDir
| ZFile (data : string).

Inductive Blob :=
| ZipBlob (files : gmap string ZipObject)
| TextBlob (content : string) (mime : string).

Record Button := mkButton {
  disabled : bool;
  textContent : string
}.

Inductive LogLine :=
| Warn (msg : string) (err : Error)
| LogError (msg : string) (err : Error).

(** The page as the script sees it.  The first four fields are the ambient
    configuration the script only reads; the others are what it changes:
    the two buttons, the requests it issued, the console, the alert
    dialogs shown, the save-as actions triggered by [a.click()], and the
    [files] object shared by all JSZip handles of the archive under
    construction. *)
Record Browser := mkBrowser {
  siteBaseurl : option string;      (* window.siteBaseurl; None: undefined *)
  baseHref : option string;         (* document.querySelector('base').href;
                                       None: no base element *)
  pathname : string;                (* window.location.pathname *)
  JSZipLoaded : bool;               (* window.JSZip is truthy *)
  downloadAllBtn : option Button;   (* #download-all-btn *)
  downloadSkillBtn : option Button; (* #download-skill-btn *)
  requests : list string;
  console : list LogLine;
  alerts : list string;
  downloads : list (string * Blob);
  zipFiles : gmap string ZipObject
}.

Definition setAllBtn (f : Button -> Button) (w : Browser) : Browser :=
  mkBrowser (siteBaseurl w) (baseHref w) (pathname w) (JSZipLoaded w)
    (f <$> downloadAllBtn w) (downloadSkillBtn w) (requests w) (console w)
    (alerts w) (downloads w) (zipFiles w).

Definition setSkillBtn (f : Button -> Button) (w : Browser) : Browser :=
  mkBrowser (siteBaseurl w) (baseHref w) (pathname w) (JSZipLoaded w)
    (downloadAllBtn w) (f <$> downloadSkillBtn w) (requests w) (console w)
    (alerts w) (downloads w) (zipFiles w).

Definition addRequest (url : string) (w : Browser) : Browser :=
  mkBrowser (siteBaseurl w) (baseHref w) (pathname w) (JSZipLoaded w)
    (downloadAllBtn w) (downloadSkillBtn w) (requests w ++ [url]) (console w)
    (alerts w) (downloads w) (zipFiles w).

Definition addLog (l : LogLine) (w : Browser) : Browser :=
  mkBrowser (siteBaseurl w) (baseHref w) (pathname w) (JSZipLoaded w)
    (downloadAllBtn w) (downloadSkillBtn w) (requests w) (console w ++ [l])
    (alerts w) (downloads w) (zipFiles w).

Definition addAlert (msg : string) (w : Browser) : Browser :=
  mkBrowser (siteBaseurl w) (baseHref w) (pathname w) (JSZipLoaded w)
    (downloadAllBtn w) (downloadSkillBtn w) (requests w) (console w)
    (alerts w ++ [msg]) (downloads w) (zipFiles w).

Definition addDownload (name : string) (b : Blob) (w : Browser) : Browser :=
  mkBrowser (siteBaseurl w) (baseHref w) (pathname w) (JSZipLoaded w)
    (downloadAllBtn w) (downloadSkillBtn w) (requests w) (console w)
    (alerts w) (downloads w ++ [(name, b)]) (zipFiles w).

Definition setZipFiles (fs : gmap string ZipObject) (w : Browser) : Browser :=
  mkBrowser (siteBaseurl w) (baseHref w) (pathname w) (JSZipLoaded w)
    (downloadAllBtn w) (downloadSkillBtn w) (requests w) (console w)
    (alerts w) (downloads w) fs.

(* ===================================================================== *)
(** * Computations: state passing with exceptions *)
(* ===================================================================== *)

Inductive Outcome (A : Type) :=
| Return (a : A)
| Throw (e : Error).
Arguments Return {A} a.
Arguments Throw {A} e.

Definition M (A : Type) : Type := Browser -> Outcome A * Browser.

Definition ret {A} (a : A) : M A := fun w => (Return a, w).
Definition throw {A} (e : Error) : M A := fun w => (Throw e, w).

Definition bind {A B} (m : M A) (k : A -> M B) : M B :=
  fun w =>
    match m w with
    | (Return a, w') => k a w'
    | (Throw e, w') => (Throw e, w')
    end.

(** [try { body } catch (e) { handler e }] *)
Definition tryCatch {A} (body : M A) (handler : Error -> M A) : M A :=
  fun w =>
    match body w with
    | (Return a, w') => (Return a, w')
    | (Throw e, w') => handler e w'
    end.

Definition gets {A} (f : Browser -> A) : M A := fun w => (Return (f w), w).
Definition modify (f : Browser -> Browser) : M unit := fun w => (Return tt, f w).

Notation "'do' x <- m ;; k" := (bind m (fun x => k))
  (at level 10, x name, m at level 99, k at level 200,
   format "'[v' 'do'  x  <-  m  ;; '/' k ']'").
Notation "'exec' m ;; k" := (bind m (fun _ => k))
  (at level 10, m at level 99, k at level 200,
   format "'[v' 'exec'  m  ;; '/' k ']'").

(** [for] over a list of computations that may throw: the first exception
    ends the loop.  This is also how [await Promise.all(ps)] resumes the
    caller when the promises [ps] are taken in the order in which they
    settle: on the first rejection, or after the last fulfilment. *)
Fixpoint forEach {A} (f : A -> M unit) (l : list A) : M unit :=
  match l with
  | [] => ret tt
  | x :: l' => exec f x ;; forEach f l'
  end.

(* ===================================================================== *)
(** * The JSZip objects the script uses *)
(* ===================================================================== *)

(** JSZip is loaded from a CDN and is not part of the script.  The model
    follows JSZip 3: an archive is a [files] table from full entry names to
    entries, directory names end in a slash, and a handle returned by
    [folder] is a clone that shares the [files] table of the archive and
    differs only in its [root] prefix. *)
Module JSZip.

Record Handle := mkHandle { root : string }.

Definition forceTrailingSlash (path : string) : string :=
  if endsWithSlash path then path else path +:+ "/".

(** The part of [s] before its last slash, when it has one. *)
Fixpoint beforeLastSlash (s : string) : option string :=
  match s with
  | EmptyString => None
  | String c s' =>
      match beforeLastSlash s' with
      | Some p => Some (String c p)
      | None => if Ascii.eqb c "/"%char then Some EmptyString else None
      end
  end.

(** [parentFolder]: drop one trailing slash, then cut at the last slash;
    [""] when that slash is missing or is the first character. *)
Definition parentFolder (path : string) : string :=
  match beforeLastSlash (replaceTrailingSlash path) with
  | Some p => p
  | None => EmptyString
  end.

(** The chain [parentFolder path], [parentFolder (parentFolder path)], ...
    up to the first empty one. *)
Fixpoint parentChain (fuel : nat) (path : string) : list string :=
  match fuel with
  | O => []
  | S fuel' =>
      let parent := parentFolder path in
      if truthy parent then parent :: parentChain fuel' parent else []
  end.

Definition parents (path : string) : list string :=
  parentChain (String.length path) path.

(** [folderAdd] along a chain of folders, nearest first: a folder that is
    already in the table ends the walk; a missing one is entered after its
    own parents. *)
Fixpoint addFolders (chain : list string) (files : gmap string ZipObject)
  : gmap string ZipObject :=
  match chain with
  | [] => files
  | d :: up =>
      let name := forceTrailingSlash d in
      match files !! name with
      | Some _ => files
      | None => <[name := ZDir]> (addFolders up files)
      end
  end.

Definition folderAdd (name : string) (files : gmap string ZipObject)
  : gmap string ZipObject :=
  addFolders (name :: parents name) files.

(** [fileAdd] of a regular file, with the default [createFolders]. *)
Definition fileAdd (name data : string) (files : gmap string ZipObject)
  : gmap string ZipObject :=
  <[name := ZFile data]> (addFolders (parents name) files).

(** [new JSZip()]: a fresh, empty [files] table and the root handle. *)
Definition new : M Handle :=
  exec modify (setZipFiles ∅) ;;
  ret (mkHandle "").

(** [h.folder(arg)]; [arg] is [None] for [undefined].  A falsy argument
    returns the handle itself. *)
Definition folder (h : Handle) (arg : option string) : M Handle :=
  match arg with
  | None => ret h
  | Some a =>
      if truthy a then
        let name := root h +:+ a in
        exec modify (fun w => setZipFiles (folderAdd name (zipFiles w)) w) ;;
        ret (mkHandle (forceTrailingSlash name))
      else ret h
  end.

(** [h.file(name, data)] *)
Definition file (h : Handle) (name data : string) : M unit :=
  modify (fun w => setZipFiles (fileAdd (root h +:+ name) data (zipFiles w)) w).

End JSZip.

(* ===================================================================== *)
(** * download.js *)
(* ===================================================================== *)

Definition GITHUB_REPO : string := "meleantonio/awesome-econ-ai-stuff".
Definition GITHUB_BRANCH : string := "main".

Record Skill := mkSkill { path : string; name : string }.

Definition SKILLS_LIST : list Skill :=
  [ mkSkill "_skills/analysis/r-econometrics/SKILL.md" "r-econometrics";
    mkSkill "_skills/analysis/stata-regression/SKILL.md" "stata-regression";
    mkSkill "_skills/analysis/python-panel-data/SKILL.md" "python-panel-data";
    mkSkill "_skills/data/stata-data-cleaning/SKILL.md" "stata-data-cleaning";
    mkSkill "_skills/data/api-data-fetcher/SKILL.md" "api-data-fetcher";
    mkSkill "_skills/theory/latex-econ-model/SKILL.md" "latex-econ-model";
    mkSkill "_skills/writing/academic-paper-writer/SKILL.md" "academic-paper-writer";
    mkSkill "_skills/writing/latex-tables/SKILL.md" "latex-tables";
    mkSkill "_skills/communication/beamer-presentation/SKILL.md" "beamer-presentation";
    mkSkill "_skills/communication/econ-visualization/SKILL.md" "econ-visualization";
    mkSkill "_skills/ideation/research-ideation/SKILL.md" "research-ideation";
    mkSkill "_skills/literature/lit-review-assistant/SKILL.md" "lit-review-assistant" ].

Definition idleAll : Button := mkButton false "Download All Skills".
Definition idleSkill : Button := mkButton false "Download SKILL.md".
Definition busy : Button := mkButton true "Downloading...".

(** The order in which a list of pending tasks settles, driven by a list of
    scheduler choices: each choice, taken modulo the number of tasks still
    pending, names the next one to settle; when the choices run out the
    first pending task is taken. *)
Fixpoint pickOrder {A} (n : nat) (choices : list nat) (pending : list A)
  : list A :=
  match n with
  | O => []
  | S n' =>
      let k := hd 0 choices mod length pending in
      match pending !! k with
      | Some x => x :: pickOrder n' (tl choices) (delete k pending)
      | None => []
      end
  end.

Definition settleOrder {A} (choices : list nat) (tasks : list A) : list A :=
  pickOrder (length tasks) choices tasks.


(* ===================================================================== *)
(** * Vocabulary of the properties *)
(* ===================================================================== *)

(** A string that holds no white space. *)
Fixpoint noWhiteSpace (p : string) : bool :=
  match p with
  | EmptyString => true
  | String c p' => negb (isWhiteSpace c) && noWhiteSpace p'
  end.

(** [r] is [s] without its prefix [p] when [s] starts with [p], and [s]
    itself otherwise. *)
Definition stripsPrefix (p s r : string) : Prop :=
  (exists rest, s = p +:+ rest /\ r = rest)
  \/ ((forall rest, s <> p +:+ rest) /\ r = s).

(** [r] is [s] without one trailing slash when [s] ends in a slash, and
    [s] itself otherwise. *)
Definition stripsTrailingSlash (s r : string) : Prop :=
  s = r +:+ "/" \/ ((forall t, s <> t +:+ "/") /\ r = s).

(** [r] is [s] with a leading ["/skills/"] rewritten to ["_skills/"], and
    [s] itself when [s] does not start with ["/skills/"]. *)
Definition rewritesLeadingSkills (s r : string) : Prop :=
  (exists rest, s = "/skills/" +:+ rest /\ r = "_skills/" +:+ rest)
  \/ ((forall rest, s <> "/skills/" +:+ rest) /\ r = s).

(** [sub] occurs in [s]. *)
Definition contains (s sub : string) : Prop :=
  exists pre post, s = pre +:+ sub +:+ post.

(** The file entries of a [files] table, with their data. *)
Definition zfiles (files : gmap string ZipObject) : gmap string string :=
  omap (fun o => match o with ZFile d => Some d | ZDir => None end) files.

(** A fetch that yields no body: a rejection, a status outside 2xx, or a
    body that cannot be read. *)
Definition fetchFails (res : FetchResult) : bool :=
  match res with
  | NetworkError _ => true
  | Resolved r => negb (ok r) || match text r with inl _ => true | inr _ => false end
  end.

(** The number of [console.error] lines of a console. *)
Fixpoint errorLines (log : list LogLine) : nat :=
  match log with
  | [] => 0
  | LogError _ _ :: log' => S (errorLines log')
  | Warn _ _ :: log' => errorLines log'
  end.

(** A string without a slash. *)
Fixpoint noSlash (s : string) : bool :=
  match s with
  | EmptyString => true
  | String c s' => negb (Ascii.eqb c "/"%char) && noSlash s'
  end.

(** [segments.join('/')] *)
Fixpoint joinSlash (segments : list string) : string :=
  match segments with
  | [] => EmptyString
  | [seg] => seg
  | seg :: rest => seg +:+ "/" +:+ joinSlash rest
  end.

(* ===================================================================== *)
(** * Concrete pages and networks *)
(* ===================================================================== *)

Module Demo.

Definition okResponse (body : string) : FetchResult :=
  Resolved (mkResponse true "OK" (inr body)).

Definition notFound : FetchResult :=
  Resolved (mkResponse false "Not Found" (inr "404: Not Found")).

(** The site renders the SKILL.md of [latex-tables] as a page, nobody has
    [stata-regression], and every other file is served as it is. *)
Definition network (url : string) : FetchResult :=
  if includes url "stata-regression" then notFound
  else if String.eqb url
            "/awesome-econ-ai-stuff/_skills/writing/latex-tables/SKILL.md"
  then okResponse "  <!DOCTYPE html><html><body>LaTeX tables</body></html>"
  else if startsWith url "https://raw.githubusercontent.com/"
  then okResponse ("raw copy of " +:+ url)
  else okResponse ("site copy of " +:+ url).

(** No connection at all. *)
Definition offline (url : string) : FetchResult :=
  NetworkError "TypeError: Failed to fetch".

(** Every request, GitHub included, is answered with a rendered page. *)
Definition captive (url : string) : FetchResult :=
  okResponse "<!DOCTYPE html><title>Sign in</title>".

(** A URL parser for absolute URLs without query or fragment: the
    pathname starts at the first slash after ["://"]. *)
Fixpoint afterScheme (s : string) : option string :=
  if startsWith s "://" then Some (substringFrom 3 s)
  else match s with
       | EmptyString => None
       | String _ s' => afterScheme s'
       end.

Fixpoint fromSlash (s : string) : string :=
  match s with
  | EmptyString => "/"
  | String c s' => if Ascii.eqb c "/"%char then s else fromSlash s'
  end.

Definition urlPathname (href : string) : option string :=
  fromSlash <$> afterScheme href.

Definition generates (files : gmap string ZipObject) : option Error := None.

Definition mkPage (site baseTag : option string) (location : string)
    (jszip : bool) : Browser :=
  mkBrowser site baseTag location jszip (Some idleAll) (Some idleSkill)
    [] [] [] [] ∅.

(** A skill page of the deployed site. *)
Definition page : Browser :=
  mkPage (Some "/awesome-econ-ai-stuff") None
    "/awesome-econ-ai-stuff/skills/analysis/r-econometrics/" true.

(** The same page when the JSZip script did not load. *)
Definition pageNoZip : Browser :=
  mkPage (Some "/awesome-econ-ai-stuff") None
    "/awesome-econ-ai-stuff/skills/analysis/r-econometrics/" false.

(** Pages without the injected base path. *)
Definition pageBaseTag : Browser :=
  mkPage None (Some "https://example.org/docs/") "/docs/skills/data/x/" true.

Definition pageBadBase : Browser :=
  mkPage None (Some "//") "/skills/data/x/" true.

Definition pageLocal : Browser :=
  mkPage None None "/awesome-econ-ai-stuff/index.html" true.

Definition pageRoot : Browser :=
  mkPage None None "/skills/data/x/" true.

(** The scenario of two entries: the site serves [x]; it answers 404 for
    [y], which GitHub serves. *)
Definition twoEntries : list Skill :=
  [ mkSkill "_skills/data/x/SKILL.md" "x";
    mkSkill "_skills/data/y/SKILL.md" "y" ].

Definition twoEntriesNetwork (url : string) : FetchResult :=
  if String.eqb url "/awesome-econ-ai-stuff/_skills/data/x/SKILL.md"
  then okResponse "A"
  else if String.eqb url
            "https://raw.githubusercontent.com/meleantonio/awesome-econ-ai-stuff/main/_skills/data/y/SKILL.md"
  then okResponse "B"
  else notFound.

End Demo.

(* ===================================================================== *)
(** * form.js: the skill submission form *)
(* ===================================================================== *)

Module Form.

(** The line feed of the template literals. *)
Definition nl : string := String (ascii_of_nat 10) EmptyString.

(** A [FormData]: the entries of the form in document order, with string
    values. *)
Definition FormData := list (string * string).

(** [formData.get(key)]: the first value, [None] for [null]. *)
Fixpoint get (formData : FormData) (key : string) : option string :=
  match formData with
  | [] => None
  | (k, v) :: rest => if String.eqb k key then Some v else get rest key
  end.

(** [formData.getAll(key)] *)
Fixpoint getAll (formData : FormData) (key : string) : list string :=
  match formData with
  | [] => []
  | (k, v) :: rest =>
      if String.eqb k key then v :: getAll rest key else getAll rest key
  end.

(** [s.split(',')] *)
Fixpoint splitComma (s : string) : list string :=
  match s with
  | EmptyString => [EmptyString]
  | String c s' =>
      if Ascii.eqb c ","%char then EmptyString :: splitComma s'
      else match splitComma s' with
           | seg :: rest => String c seg :: rest
           | [] => [String c EmptyString]
           end
  end.

(** [parts.join(sep)] *)
Fixpoint join (sep : string) (parts : list string) : string :=
  match parts with
  | [] => EmptyString
  | [x] => x
  | x :: rest => x +:+ sep +:+ join sep rest
  end.

(** A value substituted in a template literal; [null] prints as such. *)
Definition show (v : option string) : string :=
  match v with
  | Some s => s
  | None => "null"
  end.

(** JavaScript truthiness of a value that is a string or [null]. *)
Definition present (v : option string) : bool :=
  match v with
  | Some s => truthy s
  | None => false
  end.

Record Author := mkAuthor {
  author_name : option string;
  author_email : option string;
  author_github : option string
}.

Record SkillData := mkSkillData {
  name : option string;
  description : option string;
  workflow_stage : option string;
  primary_tool : option string;
  compatibility : list string;
  purpose : option string;
  instructions : option string;
  example : option string;
  tags : list string;
  author : Author
}.

(** The [tags] of [buildSkillData]. *)
Definition parseTags (formData : FormData) : list string :=
  if present (get formData "tags") then
    List.filter truthy (List.map trim (splitComma (show (get formData "tags"))))
  else [].

Definition buildSkillData (formData : FormData) : SkillData :=
  let compatibility := getAll formData "compatibility" in
  let tags := parseTags formData in
  mkSkillData
    (get formData "name")
    (get formData "description")
    (get formData "workflow_stage")
    (get formData "primary_tool")
    compatibility
    (get formData "purpose")
    (get formData "instructions")
    (get formData "example")
    tags
    (mkAuthor (get formData "author_name") (get formData "author_email")
       (get formData "github_username")).

(** Character classes of the regular expressions, on code units below
    256: [\w] is [A-Za-z0-9_], [\s] is the white space of [trim]. *)
Definition isWordChar (c : ascii) : bool :=
  let n := nat_of_ascii c in
  ((48 <=? n) && (n <=? 57)) || ((65 <=? n) && (n <=? 90))
  || ((97 <=? n) && (n <=? 122)) || (n =? 95).

(** [toUpperCase] of one word character, which is what [toTitleCase]
    applies it to: the first character of a match of [\w\S*]. *)
Definition toUpperCase (c : ascii) : ascii :=
  let n := nat_of_ascii c in
  if (97 <=? n) && (n <=? 122) then ascii_of_nat (n - 32) else c.

(** [s.replace(/-/g, ' ')] *)
Fixpoint replaceDashes (s : string) : string :=
  match s with
  | EmptyString => EmptyString
  | String c s' =>
      String (if Ascii.eqb c "-"%char then " "%char else c) (replaceDashes s')
  end.

(** The lines [  - <item>] of a YAML list. *)
Definition yamlItems (items : list string) : string :=
  join nl (List.map (fun item => "  - " +:+ item) items).

Definition compatibilityYaml (data : SkillData) : string :=
  yamlItems (compatibility data).

Definition tagsYaml (data : SkillData) : string :=
  if 0 <? length (tags data) then yamlItems (tags data) else "  - general".

(** [encodeURIComponent] on code units below 256: the unreserved
    characters stay, every other one becomes the percent-escapes of its
    UTF-8 bytes. *)
Definition isUnreserved (c : ascii) : bool :=
  let n := nat_of_ascii c in
  ((48 <=? n) && (n <=? 57)) || ((65 <=? n) && (n <=? 90))
  || ((97 <=? n) && (n <=? 122))
  || (n =? 45) || (n =? 95) || (n =? 46) || (n =? 33) || (n =? 126)
  || (n =? 42) || (n =? 39) || (n =? 40) || (n =? 41).

Definition hexDigit (n : nat) : ascii :=
  if n <? 10 then ascii_of_nat (48 + n) else ascii_of_nat (55 + n).

Definition percentByte (byte : nat) : string :=
  String "%"%char
    (String (hexDigit (byte / 16)) (String (hexDigit (byte mod 16)) EmptyString)).

Definition encodeUnit (c : ascii) : string :=
  let n := nat_of_ascii c in
  if isUnreserved c then String c EmptyString
  else if n <? 128 then percentByte n
  else percentByte (192 + n / 64) +:+ percentByte (128 + n mod 64).

Fixpoint encodeURIComponent (s : string) : string :=
  match s with
  | EmptyString => EmptyString
  | String c s' => encodeUnit c +:+ encodeURIComponent s'
  end.

(** The address opened by [submitSkill] for a title and an issue body. *)
Definition issueUrlOf (title body : string) : string :=
  "https://github.com/meleantonio/awesome-econ-ai-stuff/issues/new?title="
  +:+ encodeURIComponent title +:+ "&body=" +:+ encodeURIComponent body
  +:+ "&labels=skill-proposal".

(** The page of the form: its entries, its submit button, the [hidden]
    flags of the form and of the two messages ([None] where the element
    is missing), the link and the text of the messages, the windows
    opened and the console. *)
Record Page := mkPage {
  entries : FormData;
  submitBtn : option Button;
  formHidden : bool;
  successHidden : option bool;
  prLinkHref : option string;
  errorHidden : option bool;
  errorText : option string;
  opened : list string;
  log : list LogLine
}.

Definition withButton (b : Button) (p : Page) : Page :=
  mkPage (entries p) ((fun _ => b) <$> submitBtn p) (formHidden p)
    (successHidden p) (prLinkHref p) (errorHidden p) (errorText p)
    (opened p) (log p).

Definition windowOpen (url : string) (p : Page) : Page :=
  mkPage (entries p) (submitBtn p) (formHidden p) (successHidden p)
    (prLinkHref p) (errorHidden p) (errorText p) (opened p ++ [url]) (log p).

Definition consoleError (msg : string) (e : Error) (p : Page) : Page :=
  mkPage (entries p) (submitBtn p) (formHidden p) (successHidden p)
    (prLinkHref p) (errorHidden p) (errorText p) (opened p)
    (log p ++ [LogError msg e]).

Definition showSuccess (prUrl : string) (p : Page) : Page :=
  mkPage (entries p) (submitBtn p) true ((fun _ => false) <$> successHidden p)
    ((fun _ => prUrl) <$> prLinkHref p) (errorHidden p) (errorText p)
    (opened p) (log p).

Definition showError (message : string) (p : Page) : Page :=
  mkPage (entries p) (submitBtn p) (formHidden p) (successHidden p)
    (prLinkHref p) ((fun _ => false) <$> errorHidden p)
    ((fun _ => message) <$> errorText p) (opened p) (log p).

(** What [submitSkill] resolves to. *)
Record Response := mkResponse {
  success : bool;
  prUrl : string;
  error : option string
}.

Section Handler.

(** [String.prototype.toLowerCase], which the engine provides.  It is
    taken as it is: it follows the Unicode case mappings, reads context
    and may change the length of a string. *)
Variable toLowerCase : string -> string.

(** The message of the TypeError thrown when a property of [null] is
    used; it depends on the engine. *)
Variable nullError : string -> Error.

(** [txt => txt.charAt(0).toUpperCase() + txt.substr(1).toLowerCase()],
    for a match [txt], whose first character is a word character. *)
Definition capitalize (txt : string) : string :=
  match txt with
  | EmptyString => EmptyString
  | String c rest => String (toUpperCase c) (toLowerCase rest)
  end.

(** [str.replace(/\w\S*/g, capitalize)]: [txt] is the match being read,
    if any.  A match starts at a word character and runs up to the next
    white space or the end of the string; what lies outside the matches is
    kept. *)
Fixpoint titleCaseFrom (txt : option string) (s : string) : string :=
  match s with
  | EmptyString =>
      match txt with
      | Some t => capitalize t
      | None => EmptyString
      end
  | String c s' =>
      match txt with
      | Some t =>
          if isWhiteSpace c
          then capitalize t +:+ String c (titleCaseFrom None s')
          else titleCaseFrom (Some (t +:+ String c EmptyString)) s'
      | None =>
          if isWordChar c
          then titleCaseFrom (Some (String c EmptyString)) s'
          else String c (titleCaseFrom None s')
      end
  end.

Definition toTitleCase (str : string) : string := titleCaseFrom None str.

(** [generateSkillMarkdown]; it throws a TypeError when [data.name] is
    [null], at [data.name.replace]. *)
Definition generateSkillMarkdown (data : SkillData) : option string :=
  match name data with
  | None => None
  | Some theName =>
      Some
        ("---" +:+ nl
         +:+ "name: " +:+ show (name data) +:+ nl
         +:+ "description: " +:+ show (description data) +:+ nl
         +:+ "workflow_stage: " +:+ show (workflow_stage data) +:+ nl
         +:+ "compatibility:" +:+ nl
         +:+ compatibilityYaml data +:+ nl
         +:+ "author: " +:+ show (author_name (author data))
         +:+ " <" +:+ show (author_email (author data)) +:+ ">" +:+ nl
         +:+ "version: 1.0.0" +:+ nl
         +:+ "tags:" +:+ nl
         +:+ tagsYaml data +:+ nl
         +:+ "---" +:+ nl
         +:+ nl
         +:+ "# " +:+ toTitleCase (replaceDashes theName) +:+ nl
         +:+ nl
         +:+ "## Purpose" +:+ nl
         +:+ nl
         +:+ show (purpose data) +:+ nl
         +:+ nl
         +:+ "## Instructions" +:+ nl
         +:+ nl
         +:+ show (instructions data) +:+ nl
         +:+ nl
         +:+ (if present (example data)
              then "## Example Output" +:+ nl
                   +:+ nl
                   +:+ "```" +:+ nl
                   +:+ show (example data) +:+ nl
                   +:+ "```"
              else "") +:+ nl
         +:+ nl
         +:+ "## Author" +:+ nl
         +:+ nl
         +:+ "- **Name:** " +:+ show (author_name (author data)) +:+ nl
         +:+ "- **Email:** " +:+ show (author_email (author data)) +:+ nl
         +:+ (if present (author_github (author data))
              then "- **GitHub:** [@" +:+ show (author_github (author data))
                   +:+ "](https://github.com/"
                   +:+ show (author_github (author data)) +:+ ")"
              else "") +:+ nl)
  end.


Definition submitSkill (skillData : SkillData) (p : Page)
  : Outcome Response * Page :=
  match generateSkillMarkdown skillData with
  | None => (Throw (nullError "replace"), p)
  | Some issueBody =>
      let issueUrl :=
        issueUrlOf ("[Skill Proposal] " +:+ show (name skillData)) issueBody in
      (Return (mkResponse true issueUrl None), windowOpen issueUrl p)
  end.

(** The submit listener installed by [initForm]. *)
Definition onSubmit (p : Page) : Outcome unit * Page :=
  match submitBtn p with
  | None => (Throw (nullError "textContent"), p)
  | Some btn =>
      let originalText := textContent btn in
      let p := withButton (mkButton true "Submitting...") p in
      let skillData := buildSkillData (entries p) in
      let p :=
        match submitSkill skillData p with
        | (Return response, p) =>
            if success response then showSuccess (prUrl response) p
            else showError (match error response with
                            | Some m => if truthy m then m
                                        else "Submission failed"
                            | None => "Submission failed"
                            end) p
        | (Throw e, p) => showError e (consoleError "Submission error:" e p)
        end in
      (Return tt, withButton (mkButton false originalText) p)
  end.

(** [updatePreview]'s text for the form entries: the generated document;
    [None] when the generation throws. *)
Definition previewText (formData : FormData) : option string :=
  generateSkillMarkdown (buildSkillData formData).

End Handler.

End Form.

(** ** Vocabulary for the properties of the form *)

(** A string without a comma. *)
Fixpoint noComma (s : string) : bool :=
  match s with
  | EmptyString => true
  | String c s' => negb (Ascii.eqb c ","%char) && noComma s'
  end.

(** A string of commas and white space only. *)
Fixpoint blankOrComma (s : string) : bool :=
  match s with
  | EmptyString => true
  | String c s' => (isWhiteSpace c || Ascii.eqb c ","%char) && blankOrComma s'
  end.

(** A string of white space only. *)
Fixpoint blank (s : string) : bool :=
  match s with
  | EmptyString => true
  | String c s' => isWhiteSpace c && blank s'
  end.

(** A tag as [buildSkillData] produces them: not empty, trimmed, without
    a comma. *)
Definition cleanTag (t : string) : Prop :=
  t <> "" /\ trim t = t /\ noComma t = true.

(** The number of occurrences of a character. *)
Fixpoint countChar (c : ascii) (s : string) : nat :=
  match s with
  | EmptyString => 0
  | String d s' => (if Ascii.eqb c d then 1 else 0) + countChar c s'
  end.

(** Every character of a string satisfies a test. *)
Fixpoint allChars (test : ascii -> bool) (s : string) : bool :=
  match s with
  | EmptyString => true
  | String c s' => test c && allChars test s'
  end.

(** The characters an escaped component is made of: the unreserved ones,
    the percent sign and the upper-case hexadecimal digits. *)
Definition escapedChar (c : ascii) : bool :=
  Form.isUnreserved c || Ascii.eqb c "%"%char.

(** ** A filled form *)

Module FormDemo.

Definition nullError (property : string) : Error :=
  "TypeError: Cannot read properties of null (reading '" +:+ property +:+ "')".

(** [toLowerCase] on the strings of this development, whose code units
    are below 256: there the case mapping works unit by unit, on [A-Z]
    and on the letters from U+00C0 to U+00DE (U+00D7 is no letter). *)
Definition lowerUnit (c : ascii) : ascii :=
  let n := nat_of_ascii c in
  if ((65 <=? n) && (n <=? 90))
     || ((192 <=? n) && (n <=? 222) && negb (n =? 215))
  then ascii_of_nat (n + 32) else c.

Fixpoint toLowerCase (s : string) : string :=
  match s with
  | EmptyString => EmptyString
  | String c s' => String (lowerUnit c) (toLowerCase s')
  end.

Definition filled : Form.FormData :=
  [ ("name", "iv-regression");
    ("description", "Instrumental variables in R");
    ("workflow_stage", "analysis");
    ("primary_tool", "R");
    ("compatibility", "claude-code");
    ("compatibility", "cursor");
    ("purpose", "Estimate IV models");
    ("instructions", "Use fixest");
    ("example", "");
    ("tags", "iv,2sls,fixest");
    ("author_name", "Ada");
    ("author_email", "ada@example.org");
    ("github_username", "ada") ].

(** The same form with an empty tags field and no [name] field. *)
Definition nameless : Form.FormData :=
  [ ("description", "Instrumental variables in R");
    ("tags", " , ,") ].

(** A form with a name and a tags field that holds no tag. *)
Definition untagged : Form.FormData :=
  [ ("name", "iv-regression");
    ("description", "Instrumental variables in R");
    ("author_name", "Ada");
    ("tags", " , ,") ].

Definition pageOf (formData : Form.FormData) : Form.Page :=
  Form.mkPage formData (Some (mkButton false "Submit Skill")) false
    (Some true) (Some "#") (Some true) (Some "") [] [].

End FormDemo.

(** * The debounce utility of [form.js]

    Lines 210 to 220.  [debounce(func, wait)] returns a closure over one
    variable, [timeout], the id of the timer set last.  The event loop is
    modelled by what the closure can see of it: a clock in milliseconds,
    the ids [setTimeout] hands out, and the timers that are set and have
    neither fired nor been cleared.  Each timer carries the arguments its
    [later] closure captured.  A timer never fires before it is due; how
    long after is the browser's choice, which a trace of events fixes.
    The log records, in order, the calls of the returned function and the
    calls of [func]. *)

Module Debounce.

Section Debounced.

Context {A : Type}.
Variable wait : nat.

Record Timer := mkTimer {
  timerId : nat;
  due : nat;
  timerArgs : A
}.

Inductive Entry :=
  | Invoked (time : nat) (args : A)
  | Called (time : nat) (args : A).

Record Loop := mkLoop {
  clock : nat;
  nextId : nat;
  pending : list Timer;
  timeout : option nat;
  log : list Entry
}.

(** [clearTimeout(id)]; an undefined id, or one that is not pending,
    clears nothing. *)
Definition clearTimeout (id : option nat) (l : Loop) : Loop :=
  mkLoop (clock l) (nextId l)
    (match id with
     | None => pending l
     | Some i => List.filter (fun tm => negb (timerId tm =? i)) (pending l)
     end)
    (timeout l) (log l).

(** [setTimeout(later, delay)], with the arguments that [later] has
    captured; the result is the id of the new timer. *)
Definition setTimeout (args : A) (delay : nat) (l : Loop) : nat * Loop :=
  (nextId l,
   mkLoop (clock l) (S (nextId l))
     (pending l ++ [mkTimer (nextId l) (clock l + delay) args])
     (timeout l) (log l)).

Definition record (e : Entry) (l : Loop) : Loop :=
  mkLoop (clock l) (nextId l) (pending l) (timeout l) (log l ++ [e]).

(** [func(...args)] *)
Definition func (args : A) (l : Loop) : Loop :=
  record (Called (clock l) args) l.

(** [const later = () => { clearTimeout(timeout); func(...args); }] *)
Definition later (args : A) (l : Loop) : Loop :=
  let l := clearTimeout (timeout l) l in
  func args l.

(** [function executedFunction(...args)] *)
Definition executedFunction (args : A) (l : Loop) : Loop :=
  let l := record (Invoked (clock l) args) l in
  let l := clearTimeout (timeout l) l in
  let '(id, l) := setTimeout args wait l in
  mkLoop (clock l) (nextId l) (pending l) (Some id) (log l).

(** What happens around the closure: it is invoked, time passes, or the
    browser runs the callback of a pending timer that is due. *)
Inductive Event :=
  | Invoke (args : A)
  | Sleep (ms : nat)
  | Fire (id : nat).

Definition fire (id : nat) (l : Loop) : option Loop :=
  match List.find (fun tm => timerId tm =? id) (pending l) with
  | Some tm =>
      if due tm <=? clock l then
        Some (later (timerArgs tm)
                (mkLoop (clock l) (nextId l)
                   (List.filter (fun tm => negb (timerId tm =? id))
                      (pending l))
                   (timeout l) (log l)))
      else None
  | None => None
  end.

Definition step (l : Loop) (e : Event) : option Loop :=
  match e with
  | Invoke args => Some (executedFunction args l)
  | Sleep ms =>
      Some (mkLoop (clock l + ms) (nextId l) (pending l) (timeout l) (log l))
  | Fire id => fire id l
  end.

Fixpoint run (l : Loop) (events : list Event) : option Loop :=
  match events with
  | [] => Some l
  | e :: events' =>
      match step l e with
      | Some l' => run l' events'
      | None => None
      end
  end.

(** The loop when [debounce] returns: [let timeout;] is undefined and no
    timer of the closure exists. *)
Definition start (time firstId : nat) : Loop :=
  mkLoop time firstId [] None [].

(** What the closure keeps true, read off the last entry of the log. *)
Definition settled (l : Loop) : Prop :=
  match last (log l) with
  | None => pending l = [] /\ timeout l = None
  | Some (Invoked t args) =>
      exists id,
        timeout l = Some id
        /\ pending l = [mkTimer id (t + wait) args]
        /\ t <= clock l
  | Some (Called _ _) => pending l = []
  end.

(** Every call of [func] in a log comes right after the invocation that
    supplied its arguments, at least [wait] milliseconds later. *)
Definition paced (entries : list Entry) : Prop :=
  forall pre t args post,
    entries = pre ++ Called t args :: post ->
    exists pre' t0, pre = pre' ++ [Invoked t0 args] /\ t0 + wait <= t.

End Debounced.

End Debounce.
Section Download.

(** What the network answers to a request for a URL; every request is
    answered, and the answer does not change during an operation. *)
Variable network : string -> FetchResult.
(** [new URL(s).pathname]; [None] when the constructor throws a TypeError. *)
Variable urlPathname : string -> option string.
(** The rejection of [zip.generateAsync], if any, for a [files] table. *)
Variable generateError : gmap string ZipObject -> option Error.

(** [await fetch(url)] *)
Definition fetch (url : string) : M Response :=
  exec modify (addRequest url) ;;
  match network url with
  | NetworkError e => throw e
  | Resolved r => ret r
  end.

(** [await response.text()] *)
Definition responseText (r : Response) : M string :=
  match text r with
  | inl e => throw e
  | inr s => ret s
  end.

(** [baseTag && baseTag.href]: the href to use, if any. *)
Definition usableHref (baseTag : option string) : option string :=
  match baseTag with
  | Some href => if truthy href then Some href else None
  | None => None
  end.

Definition getBaseUrl : M string :=
  do site <- gets siteBaseurl ;;
  match site with
  | Some v => ret v
  | None =>
      do baseTag <- gets baseHref ;;
      match usableHref baseTag with
      | Some href =>
          match urlPathname href with
          | Some p => ret (replaceTrailingSlash p)
          | None => throw "TypeError: Invalid URL"
          end
      | None =>
          do path <- gets pathname ;;
          if includes path "/awesome-econ-ai-stuff"
          then ret "/awesome-econ-ai-stuff"
          else ret ""
      end
  end.

(** The content check of the primary attempt. *)
Definition looksLikeHtml (content : string) : bool :=
  startsWith (trim content) "<!DOCTYPE" || startsWith (trim content) "<html".

Definition primaryUrl (baseUrl path : string) : string :=
  baseUrl +:+ "/" +:+ path.

Definition githubUrl (path : string) : string :=
  "https://raw.githubusercontent.com/" +:+ GITHUB_REPO +:+ "/"
  +:+ GITHUB_BRANCH +:+ "/" +:+ path.

(** The [try] block of [fetchFileContent]: [Some content] stands for its
    [return content], [None] for falling out of the block. *)
Definition fetchDirect (baseUrl path : string) : M (option string) :=
  tryCatch
    (do response <- fetch (primaryUrl baseUrl path) ;;
     if ok response then
       do content <- responseText response ;;
       if looksLikeHtml content
       then throw "Got HTML instead of markdown"
       else ret (Some content)
     else ret None)
    (fun error =>
       exec modify (addLog (Warn ("Failed to fetch " +:+ path
                       +:+ " directly, trying GitHub raw URL:") error)) ;;
       ret None).

Definition fetchFileContent (path : string) : M string :=
  do baseUrl <- getBaseUrl ;;
  do direct <- fetchDirect baseUrl path ;;
  match direct with
  | Some content => ret content
  | None =>
      do response <- fetch (githubUrl path) ;;
      if negb (ok response) then
        throw ("Failed to fetch " +:+ path +:+ " from GitHub: "
               +:+ statusText response)
      else responseText response
  end.

(** The callback mapped over the catalog by [downloadAllSkills]. *)
Definition skillCallback (skillsFolder : JSZip.Handle) (skill : Skill)
  : M unit :=
  tryCatch
    (do content <- fetchFileContent (path skill) ;;
     let pathParts := splitSlash (path skill) in
     let category := pathParts !! 1 in
     let skillName := pathParts !! 2 in
     do categoryFolder <- JSZip.folder skillsFolder category ;;
     do skillFolder <- JSZip.folder categoryFolder skillName ;;
     JSZip.file skillFolder "SKILL.md" content)
    (fun error =>
       modify (addLog (LogError ("Error fetching " +:+ path skill +:+ ":")
                         error))).

(** [await zip.generateAsync({ type: 'blob' })] *)
Definition generateAsync : M Blob :=
  do files <- gets zipFiles ;;
  match generateError files with
  | Some e => throw e
  | None => ret (ZipBlob files)
  end.

(** Creating the anchor, clicking it and removing it again: the net effect
    on the page is one save-as action for [blob] under [filename]. *)
Definition saveAs (filename : string) (blob : Blob) : M unit :=
  modify (addDownload filename blob).

(** [downloadAllSkills] over a catalog.  The callbacks mapped over the
    catalog run interleaved; each one writes to the archive in a single
    synchronous stretch, once its [fetchFileContent] has settled, so an
    execution is fixed by the order in which the callbacks settle, which
    [choices] gives.  The requests and console lines of an entry are
    recorded when it settles.  [await Promise.all] resumes the function
    after the last callback, or at the first one that rejects. *)
Definition downloadAllSkillsOf (catalog : list Skill) (choices : list nat)
  : M unit :=
  exec modify (setAllBtn (fun _ => busy)) ;;
  tryCatch
    (do baseUrl <- getBaseUrl ;;
     do JSZipCtor <- gets JSZipLoaded ;;
     if negb JSZipCtor then throw "JSZip library not loaded"
     else
       do zip <- JSZip.new ;;
       do skillsFolder <- JSZip.folder zip (Some "skills") ;;
       exec forEach (skillCallback skillsFolder) (settleOrder choices catalog) ;;
       do blob <- generateAsync ;;
       exec saveAs "awesome-econ-ai-skills.zip" blob ;;
       modify (setAllBtn (fun _ => idleAll)))
    (fun error =>
       exec modify (addLog (LogError "Error creating zip file:" error)) ;;
       exec modify (addAlert "Failed to download skills. Please try again.") ;;
       modify (setAllBtn (fun _ => idleAll))).

Definition downloadAllSkills : list nat -> M unit :=
  downloadAllSkillsOf SKILLS_LIST.

(** The path rewriting of [downloadSkillFile]. *)
Definition skillPathOf (currentPath baseUrl : string) : string :=
  let skillPath :=
    if truthy baseUrl && startsWith currentPath baseUrl
    then substringFrom (String.length baseUrl) currentPath
    else currentPath in
  let skillPath := replaceTrailingSlash skillPath +:+ "/SKILL.md" in
  replaceLeadingSkills skillPath.

(** Lines 161 to 175: reading the page path and the base prefix and
    deriving the target path. *)
Definition deriveSkillPath : M string :=
  do currentPath <- gets pathname ;;
  do baseUrl <- getBaseUrl ;;
  ret (skillPathOf currentPath baseUrl).

(** [pathParts[pathParts.length - 2] || 'skill'] *)
Definition skillNameOf (skillPath : string) : string :=
  let pathParts := splitSlash skillPath in
  let segment :=
    if 2 <=? length pathParts then pathParts !! (length pathParts - 2)
    else None in
  match segment with
  | Some s => if truthy s then s else "skill"
  | None => "skill"
  end.

Definition downloadSkillFile : M unit :=
  exec modify (setSkillBtn (fun _ => busy)) ;;
  tryCatch
    (do skillPath <- deriveSkillPath ;;
     do content <- fetchFileContent skillPath ;;
     let skillName := skillNameOf skillPath in
     exec saveAs (skillName +:+ "-SKILL.md") (TextBlob content "text/markdown") ;;
     modify (setSkillBtn (fun _ => idleSkill)))
    (fun error =>
       exec modify (addLog (LogError "Error downloading skill file:" error)) ;;
       exec modify (addAlert "Failed to download SKILL.md file. Please try again.") ;;
       modify (setSkillBtn (fun _ => idleSkill))).


(** ** Auxiliary definitions for the proofs *)

(** A computation leaves the observation [f] of the page unchanged. *)
Definition keeps {A X} (f : Browser -> X) (m : M A) : Prop :=
  forall w, f (snd (m w)) = f w.

(** The ambient configuration the script reads. *)
Definition ambient (w : Browser) : option string * option string * string :=
  (siteBaseurl w, baseHref w, pathname w).

(** What the user sees besides the downloads: buttons and alerts. *)
Definition controls (w : Browser) : option Button * option Button * list string :=
  (downloadAllBtn w, downloadSkillBtn w, alerts w).

(** The outcome of resolving [p] on the page [w]. *)
Definition resolve (w : Browser) (p : string) : Outcome string :=
  fst (fetchFileContent p w).

Definition resolved (w : Browser) (skill : Skill) : bool :=
  match resolve w (path skill) with
  | Return _ => true
  | Throw _ => false
  end.

(** The root of the handle [h.folder(arg)]. *)
Definition folderRoot (r : string) (arg : option string) : string :=
  match arg with
  | Some a => if truthy a then JSZip.forceTrailingSlash (r +:+ a) else r
  | None => r
  end.

(** The [files] table after [h.folder(arg)] on a handle rooted at [r]. *)
Definition folderFiles (r : string) (arg : option string)
    (files : gmap string ZipObject) : gmap string ZipObject :=
  match arg with
  | Some a => if truthy a then JSZip.folderAdd (r +:+ a) files else files
  | None => files
  end.

(** Where the callback stores the content of the entry with path [p], for
    a [skillsFolder] rooted at [r]. *)
Definition archivePath (r p : string) : string :=
  let pathParts := splitSlash p in
  folderRoot (folderRoot r (pathParts !! 1)) (pathParts !! 2) +:+ "SKILL.md".

(** The [files] table after the callback stored [content] for path [p]. *)
Definition place (r p content : string) (files : gmap string ZipObject)
  : gmap string ZipObject :=
  let pathParts := splitSlash p in
  let r1 := folderRoot r (pathParts !! 1) in
  let r2 := folderRoot r1 (pathParts !! 2) in
  JSZip.fileAdd (r2 +:+ "SKILL.md") content
    (folderFiles r1 (pathParts !! 2) (folderFiles r (pathParts !! 1) files)).

(** The [files] table after the callbacks of the entries [l] have run on
    the page [w], in that order. *)
Definition assemble (w : Browser) (r : string) (l : list Skill)
    (files : gmap string ZipObject) : gmap string ZipObject :=
  foldl (fun fs skill =>
           match resolve w (path skill) with
           | Return content => place r (path skill) content fs
           | Throw _ => fs
           end) files l.

(** The number of entries of a catalog whose resolution fails. *)
Definition failures (w : Browser) (catalog : list Skill) : nat :=
  length (filter (fun skill => resolved w skill = false) catalog).

(** What the [try] block of [fetchFileContent] makes of the primary
    answer: an exception for the [catch] clause, a returned body, or
    nothing (a status outside 2xx). *)
Definition directOutcome (res : FetchResult) : Error + option string :=
  match res with
  | NetworkError e => inl e
  | Resolved r =>
      if ok r then
        match text r with
        | inl e => inl e
        | inr content =>
            if looksLikeHtml content
            then inl "Got HTML instead of markdown"
            else inr (Some content)
        end
      else inr None
  end.

(** What the fallback part of [fetchFileContent] makes of the secondary
    answer. *)
Definition fallbackOutcome (p : string) (res : FetchResult) : Outcome string :=
  match res with
  | NetworkError e => Throw e
  | Resolved r =>
      if negb (ok r) then
        Throw ("Failed to fetch " +:+ p +:+ " from GitHub: " +:+ statusText r)
      else
        match text r with
        | inl e => Throw e
        | inr content => Return content
        end
  end.

(** Everything on the page but the request log and the console. *)
Definition besidesLogs (w : Browser) :=
  (ambient w, JSZipLoaded w, controls w, downloads w, zipFiles w).

(** Everything on the page but the logs and the archive under
    construction. *)
Definition besidesArchive (w : Browser) :=
  (ambient w, JSZipLoaded w, controls w, downloads w).

(** A primary answer that [fetchFileContent] does not return: a failed
    fetch, or a body that looks like a rendered page. *)
Definition primaryRejected (res : FetchResult) : Prop :=
  fetchFails res = true
  \/ exists r content,
       res = Resolved r /\ ok r = true /\ text r = inr content
       /\ looksLikeHtml content = true.

(** The end of a failed operation: console line, alert, button reset. *)
Definition failAll (e : Error) (w : Browser) : Browser :=
  setAllBtn (fun _ => idleAll)
    (addAlert "Failed to download skills. Please try again."
       (addLog (LogError "Error creating zip file:" e) w)).

Definition failSkill (e : Error) (w : Browser) : Browser :=
  setSkillBtn (fun _ => idleSkill)
    (addAlert "Failed to download SKILL.md file. Please try again."
       (addLog (LogError "Error downloading skill file:" e) w)).

(** The page when [await Promise.all(fetchPromises)] resumes
    [downloadAllSkills]: button busy, a new archive with its [skills]
    folder, and every callback run in the order of settlement. *)
Definition afterCallbacks (catalog : list Skill) (choices : list nat)
    (w : Browser) : Browser :=
  snd (forEach (skillCallback (JSZip.mkHandle "skills/"))
         (settleOrder choices catalog)
         (setZipFiles {[ "skills/" := ZDir ]}
            (setAllBtn (fun _ => busy) w))).

(** The save-as action of a completed bulk download. *)
Definition savedZip (w : Browser) : string * Blob :=
  ("awesome-econ-ai-skills.zip", ZipBlob (zipFiles w)).

(** The file entries after the callbacks of [l] have run: one insertion
    per resolved entry. *)
Definition store (w : Browser) (r : string) (files : gmap string string)
    (skill : Skill) : gmap string string :=
  match resolve w (path skill) with
  | Return content => <[archivePath r (path skill) := content]> files
  | Throw _ => files
  end.

(** The archive paths of a catalog, for the [skills] folder. *)
Definition targets (catalog : list Skill) : list string :=
  (fun skill => archivePath "skills/" (path skill)) <$> catalog.

(* ===================================================================== *)
(** * Facts about the string primitives *)
(* ===================================================================== *)

Example splitSlash_catalog_path :
  splitSlash "_skills/analysis/r-econometrics/SKILL.md"
  = ["_skills"; "analysis"; "r-econometrics"; "SKILL.md"].
Proof. reflexivity. Qed.

Example splitSlash_edges :
  splitSlash "" = [""] /\ splitSlash "/a/" = [""; "a"; ""].
Proof. split; reflexivity. Qed.

Example trim_both_ends : trim "  <html> x  " = "<html> x".
Proof. reflexivity. Qed.

Example replace_slashes :
  replaceTrailingSlash "/a/b//" = "/a/b/"
  /\ replaceTrailingSlash "/" = ""
  /\ replaceLeadingSkills "/skills/x" = "_skills/x"
  /\ replaceLeadingSkills "/a/skills/x" = "/a/skills/x".
Proof. repeat split; reflexivity. Qed.

Example parentFolder_examples :
  JSZip.parentFolder "skills/writing/latex-tables/SKILL.md"
  = "skills/writing/latex-tables"
  /\ JSZip.parentFolder "skills/writing/" = "skills"
  /\ JSZip.parentFolder "skills/" = ""
  /\ JSZip.parents "skills/writing/latex-tables/SKILL.md"
     = ["skills/writing/latex-tables"; "skills/writing"; "skills"].
Proof. repeat split; reflexivity. Qed.

Example skillNameOf_examples :
  skillNameOf "_skills/analysis/r-econometrics/SKILL.md" = "r-econometrics"
  /\ skillNameOf "/SKILL.md" = "skill".
Proof. split; reflexivity. Qed.

Lemma append_cons c s t : String c s +:+ t = String c (s +:+ t).
Proof. reflexivity. Qed.

Lemma append_nil t : "" +:+ t = t.
Proof. reflexivity. Qed.

Lemma append_assoc a b c : (a +:+ b) +:+ c = a +:+ b +:+ c.
Proof. induction a as [|x a IH]; [done|]. rewrite !append_cons. by f_equal. Qed.

Lemma startsWith_app p s : startsWith (p +:+ s) p = true.
Proof.
  induction p as [|a p IH]; [done|].
  rewrite append_cons. simpl. by rewrite Ascii.eqb_refl, IH.
Qed.

Lemma substringFrom_app p s : substringFrom (String.length p) (p +:+ s) = s.
Proof. induction p as [|a p IH]; [by destruct s|done]. Qed.

Lemma startsWith_split s p :
  startsWith s p = true -> s = p +:+ substringFrom (String.length p) s.
Proof.
  revert s; induction p as [|a p IH]; intros s H.
  - by destruct s.
  - destruct s as [|b s]; [done|]. simpl in H.
    apply andb_true_iff in H as [Hab H].
    apply Ascii.eqb_eq in Hab as ->.
    rewrite append_cons. simpl. f_equal. by apply IH.
Qed.

Lemma startsWith_iff s p :
  startsWith s p = true <-> exists rest, s = p +:+ rest.
Proof.
  split.
  - intros H. eexists. by apply startsWith_split.
  - intros [rest ->]. apply startsWith_app.
Qed.

Lemma append_inv_head p s t : p +:+ s = p +:+ t -> s = t.
Proof.
  induction p; [done|]. rewrite !append_cons. intros H. injection H. auto.
Qed.

Lemma endsWithSlash_iff s :
  endsWithSlash s = true <-> exists t, s = t +:+ "/".
Proof.
  induction s as [|c s IH].
  - split; [done|]. intros [[|] H]; discriminate.
  - destruct s as [|d s].
    + simpl. rewrite Ascii.eqb_eq. split.
      * intros ->. by exists "".
      * intros [[|a [|]] H]; inversion H; done.
    + change (endsWithSlash (String c (String d s)))
        with (endsWithSlash (String d s)).
      rewrite IH. split.
      * intros [t ->]. by exists (String c t).
      * intros [[|a t] H]; [discriminate|].
        rewrite append_cons in H. injection H as -> H. eauto.
Qed.

Lemma replaceTrailingSlash_app s : replaceTrailingSlash (s +:+ "/") = s.
Proof.
  induction s as [|c s IH]; [done|].
  rewrite append_cons. simpl. rewrite IH. by destruct s.
Qed.

Lemma replaceTrailingSlash_id s :
  endsWithSlash s = false -> replaceTrailingSlash s = s.
Proof.
  induction s as [|c s IH]; [done|]. simpl.
  destruct s as [|d s]; [by intros ->|].
  intros H. by rewrite IH.
Qed.

Lemma includes_iff s sub :
  includes s sub = true <-> exists pre post, s = pre +:+ sub +:+ post.
Proof.
  induction s as [|c s IH]; simpl.
  - rewrite orb_false_r, startsWith_iff. split.
    + intros [r H]. by exists "", r.
    + intros [[|] [post H]]; [eauto|discriminate].
  - rewrite orb_true_iff, startsWith_iff, IH. split.
    + intros [[r H]|(pre & post & ->)]; [by exists "", r|].
      by exists (String c pre), post.
    + intros ([|a pre] & post & H); [eauto|].
      rewrite append_cons in H. injection H as -> ->. eauto.
Qed.

Lemma startsWith_trimEnd p : forall s,
  noWhiteSpace p = true -> startsWith (trimEnd s) p = startsWith s p.
Proof.
  induction p as [|a p IH]; intros s Hp; [done|].
  simpl in Hp. apply andb_true_iff in Hp as [Ha Hp].
  destruct s as [|b s]; [done|].
  simpl. specialize (IH s Hp).
  destruct (trimEnd s) as [|c t] eqn:Et.
  - destruct (isWhiteSpace b) eqn:Eb; simpl.
    + destruct (Ascii.eqb_spec a b) as [->|]; [|done].
      by rewrite Eb in Ha.
    + by rewrite IH.
  - simpl. by rewrite <- IH.
Qed.

Lemma startsWith_trim s p :
  noWhiteSpace p = true -> startsWith (trim s) p = startsWith (trimStart s) p.
Proof. intros. unfold trim. by apply startsWith_trimEnd. Qed.

(** Splitting on slashes: the segments hold no slash and joining them with
    slashes gives the string back. *)
Lemma splitSlash_cons s : exists seg rest, splitSlash s = seg :: rest.
Proof.
  destruct s as [|c s]; simpl; [eauto|].
  destruct (Ascii.eqb c "/"); [eauto|]. destruct (splitSlash s); eauto.
Qed.

Lemma splitSlash_noSlash s :
  Forall (fun seg => noSlash seg = true) (splitSlash s).
Proof.
  induction s as [|c s IH]; simpl; [by repeat constructor|].
  destruct (Ascii.eqb c "/") eqn:E; [by constructor|].
  destruct (splitSlash s) as [|seg rest].
  - repeat constructor. simpl. by rewrite E.
  - inversion IH as [|? ? Hseg Hrest]; subst. constructor; [|done].
    simpl. by rewrite E, Hseg.
Qed.

Lemma joinSlash_splitSlash s : joinSlash (splitSlash s) = s.
Proof.
  induction s as [|c s IH]; [done|]. simpl.
  destruct (Ascii.eqb_spec c "/"%char) as [->|Hc].
  - destruct (splitSlash_cons s) as (seg & rest & E).
    rewrite E in *.
    change (joinSlash ("" :: seg :: rest))
      with ("" +:+ "/" +:+ joinSlash (seg :: rest)).
    by rewrite IH.
  - destruct (splitSlash s) as [|seg [|seg' rest]].
    + by rewrite <- IH.
    + simpl in *. by rewrite IH.
    + change (joinSlash (String c seg :: seg' :: rest))
        with (String c seg +:+ "/" +:+ joinSlash (seg' :: rest)).
      change (joinSlash (seg :: seg' :: rest))
        with (seg +:+ "/" +:+ joinSlash (seg' :: rest)) in IH.
      by rewrite append_cons, IH.
Qed.

Lemma endsWithSlash_noSlash seg : noSlash seg = true -> endsWithSlash seg = false.
Proof.
  induction seg as [|c seg IH]; [done|]. simpl.
  intros [Hc Hs]%andb_true_iff. destruct seg; [by destruct (Ascii.eqb c "/")|].
  by apply IH.
Qed.

Lemma endsWithSlash_app x seg :
  seg <> "" -> endsWithSlash (x +:+ seg) = endsWithSlash seg.
Proof.
  intros Hseg. induction x as [|c x IH]; [done|].
  rewrite append_cons. simpl. rewrite IH.
  destruct (x +:+ seg) eqn:E; [|done].
  destruct x; [by rewrite append_nil in E|by rewrite append_cons in E].
Qed.

Lemma forceTrailingSlash_segment x seg :
  seg <> "" -> noSlash seg = true ->
  JSZip.forceTrailingSlash (x +:+ seg) = x +:+ seg +:+ "/".
Proof.
  intros Hne Hns. unfold JSZip.forceTrailingSlash.
  rewrite endsWithSlash_app, endsWithSlash_noSlash by done.
  induction x as [|c x IH]; [done|]. rewrite !append_cons. by f_equal.
Qed.

Lemma replaceTrailingSlash_spec s :
  stripsTrailingSlash s (replaceTrailingSlash s).
Proof.
  destruct (endsWithSlash s) eqn:E.
  - apply endsWithSlash_iff in E as [t ->]. left.
    by rewrite replaceTrailingSlash_app.
  - right. split; [|by apply replaceTrailingSlash_id].
    intros t ->. assert (endsWithSlash (t +:+ "/") = true) as H
      by (apply endsWithSlash_iff; eauto).
    congruence.
Qed.

Lemma replaceLeadingSkills_spec s :
  rewritesLeadingSkills s (replaceLeadingSkills s).
Proof.
  unfold replaceLeadingSkills, rewritesLeadingSkills.
  destruct (startsWith s "/skills/") eqn:E.
  - left. exists (substringFrom 8 s). split; [|done].
    by apply (startsWith_split s "/skills/").
  - right. split; [|done]. intros rest ->.
    by rewrite startsWith_app in E.
Qed.

Lemma stripBase_spec currentPath baseUrl :
  stripsPrefix baseUrl currentPath
    (if truthy baseUrl && startsWith currentPath baseUrl
     then substringFrom (String.length baseUrl) currentPath
     else currentPath).
Proof.
  unfold stripsPrefix.
  destruct baseUrl as [|c b]; [left; by exists currentPath|].
  cbn [truthy andb].
  destruct (startsWith currentPath (String c b)) eqn:E.
  - left. eexists. split; [|done]. by apply startsWith_split.
  - right. split; [|done]. intros rest ->.
    by rewrite startsWith_app in E.
Qed.

Lemma errorLines_app a b : errorLines (a ++ b) = errorLines a + errorLines b.
Proof.
  induction a as [|[m e|m e] a IH]; simpl; [done|done|]. by rewrite IH.
Qed.

Lemma errorLines_warn log m e : errorLines (log ++ [Warn m e]) = errorLines log.
Proof. rewrite errorLines_app. simpl. lia. Qed.

Lemma errorLines_error log m e :
  errorLines (log ++ [LogError m e]) = S (errorLines log).
Proof. rewrite errorLines_app. simpl. lia. Qed.

(** ** The state-and-exception monad *)

Lemma keeps_ret {A X} (f : Browser -> X) (a : A) : keeps f (ret a).
Proof. by intros w. Qed.

Lemma keeps_throw {A X} (f : Browser -> X) e : keeps f (@throw A e).
Proof. by intros w. Qed.

Lemma keeps_gets {A X} (f : Browser -> X) (g : Browser -> A) : keeps f (gets g).
Proof. by intros w. Qed.

Lemma keeps_modify {X} (f : Browser -> X) g :
  (forall w, f (g w) = f w) -> keeps f (modify g).
Proof. intros H w. apply H. Qed.

Lemma keeps_bind {A B X} (f : Browser -> X) (m : M A) (k : A -> M B) :
  keeps f m -> (forall a, keeps f (k a)) -> keeps f (bind m k).
Proof.
  intros Hm Hk w. unfold bind. specialize (Hm w).
  destruct (m w) as [[a|e] w1]; simpl in *; [|done].
  by rewrite Hk.
Qed.

Lemma keeps_tryCatch {A X} (f : Browser -> X) (m : M A) h :
  keeps f m -> (forall e, keeps f (h e)) -> keeps f (tryCatch m h).
Proof.
  intros Hm Hh w. unfold tryCatch. specialize (Hm w).
  destruct (m w) as [[a|e] w1]; simpl in *; [done|].
  by rewrite Hh.
Qed.

Lemma keeps_forEach {A X} (f : Browser -> X) (g : A -> M unit) l :
  (forall a, keeps f (g a)) -> keeps f (forEach g l).
Proof.
  intros Hg. induction l as [|a l IH]; simpl.
  - apply keeps_ret.
  - by apply keeps_bind.
Qed.

Ltac keeps_step :=
  first
    [ apply keeps_ret | apply keeps_throw | apply keeps_gets
    | apply keeps_modify; intros []; reflexivity
    | apply keeps_modify; intros []; apply errorLines_warn
    | apply keeps_bind | apply keeps_tryCatch | apply keeps_forEach
    | progress intros
    | match goal with
      | |- keeps _ (match ?x with _ => _ end) => destruct x
      end ].

Ltac keeps_tac := repeat keeps_step.

(** ** Base-prefix detection *)

Lemma getBaseUrl_state w : snd (getBaseUrl w) = w.
Proof.
  unfold getBaseUrl, bind, gets, ret, throw.
  repeat (case_match; simpl; try done).
Qed.

Lemma getBaseUrl_ambient w w' :
  ambient w' = ambient w -> fst (getBaseUrl w') = fst (getBaseUrl w).
Proof.
  unfold ambient. intros [= H1 H2 H3].
  unfold getBaseUrl, bind, gets, ret, throw. simpl. rewrite H1.
  destruct (siteBaseurl w); [done|]. rewrite H2.
  destruct (usableHref (baseHref w)); [by case_match|].
  rewrite H3. by case_match.
Qed.

Lemma getBaseUrl_run w : getBaseUrl w = (fst (getBaseUrl w), w).
Proof. rewrite <- (getBaseUrl_state w) at 3. by destruct (getBaseUrl w). Qed.

(** ** The content resolver *)

Lemma looksLikeHtml_trimStart content :
  looksLikeHtml content
  = startsWith (trimStart content) "<!DOCTYPE"
    || startsWith (trimStart content) "<html".
Proof. unfold looksLikeHtml. by rewrite !startsWith_trim. Qed.

Lemma fetchFileContent_outcome p w :
  fst (fetchFileContent p w)
  = match fst (getBaseUrl w) with
    | Throw e => Throw e
    | Return b =>
        match directOutcome (network (primaryUrl b p)) with
        | inr (Some content) => Return content
        | _ => fallbackOutcome p (network (githubUrl p))
        end
    end.
Proof.
  unfold fetchFileContent, bind. rewrite (getBaseUrl_run w).
  destruct (fst (getBaseUrl w)) as [b|e]; [|done].
  unfold fetchDirect, tryCatch, bind, fetch, modify, responseText, ret, throw,
    directOutcome, fallbackOutcome.
  simpl.
  destruct (network (primaryUrl b p)) as [e1|r1]; simpl.
  - destruct (network (githubUrl p)) as [e2|r2]; simpl; [done|].
    destruct (ok r2); simpl; [|done]. by destruct (text r2).
  - destruct (ok r1); simpl.
    + destruct (text r1) as [e1|c1]; simpl.
      * destruct (network (githubUrl p)) as [e2|r2]; simpl; [done|].
        destruct (ok r2); simpl; [|done]. by destruct (text r2).
      * destruct (looksLikeHtml c1); simpl; [|done].
        destruct (network (githubUrl p)) as [e2|r2]; simpl; [done|].
        destruct (ok r2); simpl; [|done]. by destruct (text r2).
    + destruct (network (githubUrl p)) as [e2|r2]; simpl; [done|].
      destruct (ok r2); simpl; [|done]. by destruct (text r2).
Qed.

Lemma resolve_ambient w w' p :
  ambient w' = ambient w -> resolve w' p = resolve w p.
Proof.
  intros Ha. unfold resolve. rewrite !fetchFileContent_outcome.
  by rewrite (getBaseUrl_ambient w w' Ha).
Qed.

Lemma keeps_getBaseUrl {X} (f : Browser -> X) : keeps f getBaseUrl.
Proof. intros w. by rewrite getBaseUrl_state. Qed.

Lemma keeps_fetchFileContent p : keeps besidesLogs (fetchFileContent p).
Proof.
  unfold fetchFileContent, fetchDirect, fetch, responseText.
  apply keeps_bind; [apply keeps_getBaseUrl|]. keeps_tac.
Qed.

Lemma fetchFileContent_errorLines p :
  keeps (fun w => errorLines (console w)) (fetchFileContent p).
Proof.
  unfold fetchFileContent, fetchDirect, fetch, responseText.
  apply keeps_bind; [apply keeps_getBaseUrl|]. keeps_tac.
Qed.

Lemma primaryRejected_outcome res :
  primaryRejected res -> forall c, directOutcome res <> inr (Some c).
Proof.
  intros [H|(r & content & -> & Hok & Ht & Hh)] c; unfold directOutcome.
  - destruct res as [e|r]; [done|]. simpl in H.
    destruct (ok r); simpl in H; [|done]. by destruct (text r).
  - by rewrite Hok, Ht, Hh.
Qed.

Lemma fallbackOutcome_fails p res :
  fetchFails res = true -> exists e, fallbackOutcome p res = Throw e.
Proof.
  unfold fallbackOutcome. destruct res as [e|r]; simpl; [eauto|].
  destruct (ok r); simpl; [|eauto]. destruct (text r); [eauto|done].
Qed.

Lemma besidesArchive_inv a b :
  besidesArchive a = besidesArchive b ->
  ambient a = ambient b /\ JSZipLoaded a = JSZipLoaded b
  /\ downloadAllBtn a = downloadAllBtn b
  /\ downloadSkillBtn a = downloadSkillBtn b
  /\ alerts a = alerts b /\ downloads a = downloads b.
Proof.
  unfold besidesArchive, controls. intros H.
  injection H as H1 H2 H3 H4 H5 H6 H7 H8.
  unfold ambient. rewrite H1, H2, H3. repeat split; assumption.
Qed.

Lemma besidesLogs_inv a b :
  besidesLogs a = besidesLogs b ->
  besidesArchive a = besidesArchive b /\ zipFiles a = zipFiles b.
Proof.
  unfold besidesLogs, besidesArchive. intros H.
  split; congruence.
Qed.

(** ** The JSZip handles *)

Lemma setZipFiles_id w : setZipFiles (zipFiles w) w = w.
Proof. by destruct w. Qed.

Lemma folder_run h arg w :
  JSZip.folder h arg w
  = (Return (JSZip.mkHandle (folderRoot (JSZip.root h) arg)),
     setZipFiles (folderFiles (JSZip.root h) arg (zipFiles w)) w).
Proof.
  unfold JSZip.folder, folderRoot, folderFiles.
  destruct arg as [a|]; [destruct (truthy a)|]; try done.
  - rewrite setZipFiles_id. by destruct h.
  - rewrite setZipFiles_id. by destruct h.
Qed.

(** ** The per-entry callback *)

Lemma skillCallback_run h skill w :
  skillCallback h skill w
  = match fetchFileContent (path skill) w with
    | (Return content, w1) =>
        (Return tt,
         setZipFiles (place (JSZip.root h) (path skill) content (zipFiles w1)) w1)
    | (Throw e, w1) =>
        (Return tt,
         addLog (LogError ("Error fetching " +:+ path skill +:+ ":") e) w1)
    end.
Proof.
  unfold skillCallback, tryCatch, bind.
  destruct (fetchFileContent (path skill) w) as [[content|e] w1]; [|done].
  rewrite folder_run. cbn beta iota. rewrite folder_run. cbn beta iota.
  unfold JSZip.file, modify, place. cbn [JSZip.root]. by destruct w1.
Qed.

Lemma skillCallback_returns h skill w :
  fst (skillCallback h skill w) = Return tt.
Proof.
  rewrite skillCallback_run.
  by destruct (fetchFileContent (path skill) w) as [[?|?] ?].
Qed.

Lemma skillCallback_keeps h skill : keeps besidesArchive (skillCallback h skill).
Proof.
  intros w. rewrite skillCallback_run.
  pose proof (keeps_fetchFileContent (path skill) w) as H.
  destruct (fetchFileContent (path skill) w) as [[c|e] w1]; simpl in *.
  - unfold besidesLogs, besidesArchive, ambient, controls in *. simpl.
    congruence.
  - unfold besidesLogs, besidesArchive, ambient, controls in *. simpl.
    congruence.
Qed.

Lemma skillCallback_zipFiles h skill w :
  zipFiles (snd (skillCallback h skill w))
  = match resolve w (path skill) with
    | Return content => place (JSZip.root h) (path skill) content (zipFiles w)
    | Throw _ => zipFiles w
    end.
Proof.
  rewrite skillCallback_run. unfold resolve.
  pose proof (keeps_fetchFileContent (path skill) w) as H.
  destruct (fetchFileContent (path skill) w) as [[c|e] w1]; simpl in *.
  - unfold besidesLogs in H. congruence.
  - unfold besidesLogs in H. congruence.
Qed.

Lemma forEach_skillCallback_returns h l : forall w,
  fst (forEach (skillCallback h) l w) = Return tt.
Proof.
  induction l as [|s l IH]; intros w; [done|].
  simpl. unfold bind. pose proof (skillCallback_returns h s w) as H.
  destruct (skillCallback h s w) as [[[]|e] w1]; [apply IH|done].
Qed.

Lemma forEach_skillCallback_keeps h l :
  keeps besidesArchive (forEach (skillCallback h) l).
Proof. apply keeps_forEach. intros s. apply skillCallback_keeps. Qed.

Lemma forEach_skillCallback_zipFiles h l : forall w,
  zipFiles (snd (forEach (skillCallback h) l w))
  = assemble w (JSZip.root h) l (zipFiles w).
Proof.
  induction l as [|s l IH]; intros w; [done|].
  simpl. unfold bind.
  pose proof (skillCallback_returns h s w) as Hr.
  pose proof (skillCallback_zipFiles h s w) as Hz.
  pose proof (skillCallback_keeps h s w) as Hk.
  destruct (skillCallback h s w) as [[[]|e] w1]; [|done].
  simpl in *. rewrite IH, Hz. unfold assemble.
  assert (ambient w1 = ambient w) as Ha
    by (unfold besidesArchive in Hk; congruence).
  clear -Ha. generalize (match resolve w (path s) with
                         | Return content =>
                             place (JSZip.root h) (path s) content (zipFiles w)
                         | Throw _ => zipFiles w
                         end) as files.
  induction l as [|s' l IHl]; intros files; [done|].
  simpl. rewrite (resolve_ambient w w1 _ Ha). apply IHl.
Qed.

(** ** The two operations, step by step *)

Lemma downloadAllSkillsOf_run catalog choices w :
  downloadAllSkillsOf catalog choices w
  = (Return tt,
     let w0 := setAllBtn (fun _ => busy) w in
     match fst (getBaseUrl w0) with
     | Throw e => failAll e w0
     | Return _ =>
         if JSZipLoaded w0 then
           let w2 := afterCallbacks catalog choices w in
           match generateError (zipFiles w2) with
           | Some e => failAll e w2
           | None =>
               setAllBtn (fun _ => idleAll)
                 (addDownload (fst (savedZip w2)) (snd (savedZip w2)) w2)
           end
         else failAll "JSZip library not loaded" w0
     end).
Proof.
  unfold downloadAllSkillsOf, afterCallbacks.
  set (w0 := setAllBtn (fun _ => busy) w).
  unfold bind at 1. unfold modify at 1. fold w0.
  unfold tryCatch, bind at 1. rewrite (getBaseUrl_run w0).
  destruct (fst (getBaseUrl w0)) as [b|e]; [|done].
  unfold bind at 1. unfold gets at 1.
  destruct (JSZipLoaded w0) eqn:HJ; [|done].
  cbn [negb]. unfold bind at 1. unfold JSZip.new, bind at 1, modify at 1.
  unfold ret at 1. unfold bind at 1. rewrite folder_run.
  cbn [zipFiles setZipFiles JSZip.root].
  change (folderFiles "" (Some "skills") ∅) with
    (<["skills/" := ZDir]> (∅ : gmap string ZipObject)).
  change (folderRoot "" (Some "skills")) with "skills/".
  change (<["skills/" := ZDir]> (∅ : gmap string ZipObject))
    with ({[ "skills/" := ZDir ]} : gmap string ZipObject).
  set (w1 := setZipFiles _ _).
  assert (w1 = setZipFiles {["skills/" := ZDir]} w0) as -> by by destruct w.
  unfold bind at 1.
  pose proof (forEach_skillCallback_returns (JSZip.mkHandle "skills/")
                (settleOrder choices catalog)
                (setZipFiles {["skills/" := ZDir]} w0)) as Hr.
  destruct (forEach _ _ _) as [[[]|e] w2]; [|done]. cbn [snd].
  unfold generateAsync, bind, gets, saveAs, modify, ret, throw, savedZip.
  cbn [fst snd].
  by destruct (generateError (zipFiles w2)).
Qed.

Lemma downloadSkillFile_run w :
  downloadSkillFile w
  = (Return tt,
     let w0 := setSkillBtn (fun _ => busy) w in
     match fst (getBaseUrl w0) with
     | Throw e => failSkill e w0
     | Return b =>
         let skillPath := skillPathOf (pathname w0) b in
         match fetchFileContent skillPath w0 with
         | (Return content, w1) =>
             setSkillBtn (fun _ => idleSkill)
               (addDownload (skillNameOf skillPath +:+ "-SKILL.md")
                  (TextBlob content "text/markdown") w1)
         | (Throw e, w1) => failSkill e w1
         end
     end).
Proof.
  unfold downloadSkillFile.
  set (w0 := setSkillBtn (fun _ => busy) w).
  unfold bind at 1. unfold modify at 1. fold w0.
  unfold tryCatch, deriveSkillPath, bind at 1. unfold bind at 1.
  unfold gets at 1. unfold bind at 1. rewrite (getBaseUrl_run w0).
  destruct (fst (getBaseUrl w0)) as [b|e]; [|done].
  unfold ret at 1. unfold bind at 1.
  cbn [fst]. destruct (fetchFileContent _ w0) as [[content|e] w1]; reflexivity.
Qed.

(** ** The archive under construction *)

Lemma zfiles_lookup (files : gmap string ZipObject) k d :
  zfiles files !! k = Some d <-> files !! k = Some (ZFile d).
Proof.
  unfold zfiles. rewrite lookup_omap_Some. split.
  - intros ([|d'] & Hd & Hk); [done|]. by injection Hd as ->.
  - intros Hk. by exists (ZFile d).
Qed.

Lemma zfiles_addFolders chain (files : gmap string ZipObject) :
  zfiles (JSZip.addFolders chain files) = zfiles files.
Proof.
  induction chain as [|d up IH]; [done|]. simpl.
  destruct (files !! JSZip.forceTrailingSlash d) eqn:E; [done|].
  unfold zfiles in *. rewrite omap_insert_None by done.
  rewrite IH. apply delete_id. by rewrite lookup_omap, E.
Qed.

Lemma zfiles_fileAdd name data (files : gmap string ZipObject) :
  zfiles (JSZip.fileAdd name data files) = <[name := data]> (zfiles files).
Proof.
  unfold JSZip.fileAdd, zfiles.
  rewrite (omap_insert_Some _ _ _ _ data) by done.
  f_equal. apply zfiles_addFolders.
Qed.

Lemma zfiles_folderFiles r arg (files : gmap string ZipObject) :
  zfiles (folderFiles r arg files) = zfiles files.
Proof.
  unfold folderFiles, JSZip.folderAdd.
  destruct arg as [a|]; [|done]. destruct (truthy a); [|done].
  apply zfiles_addFolders.
Qed.

Lemma zfiles_place r p content (files : gmap string ZipObject) :
  zfiles (place r p content files)
  = <[archivePath r p := content]> (zfiles files).
Proof.
  unfold place, archivePath. cbn zeta.
  by rewrite zfiles_fileAdd, !zfiles_folderFiles.
Qed.

Lemma zfiles_assemble w r l : forall files : gmap string ZipObject,
  zfiles (assemble w r l files) = foldl (store w r) (zfiles files) l.
Proof.
  unfold assemble.
  induction l as [|s l IH]; intros files; [done|].
  simpl. rewrite IH. f_equal. unfold store.
  destruct (resolve w (path s)); [apply zfiles_place|done].
Qed.

Lemma assemble_all_failed w r l (files : gmap string ZipObject) :
  Forall (fun skill => resolved w skill = false) l ->
  assemble w r l files = files.
Proof.
  unfold assemble. induction 1 as [|s l Hs _ IH]; [done|].
  simpl. unfold resolved in Hs.
  by destruct (resolve w (path s)).
Qed.

(** The archive path is [<root><category>/<name>/SKILL.md] for an entry
    whose path has a second and a third segment, both non-empty. *)
Lemma archivePath_segments r p category skillName :
  splitSlash p !! 1 = Some category ->
  splitSlash p !! 2 = Some skillName ->
  category <> "" -> skillName <> "" ->
  archivePath r p = r +:+ category +:+ "/" +:+ skillName +:+ "/SKILL.md".
Proof.
  intros Hc Hn Hce Hne. unfold archivePath. cbn zeta. rewrite Hc, Hn.
  pose proof (splitSlash_noSlash p) as Hall.
  rewrite Forall_lookup in Hall.
  pose proof (Hall _ _ Hc) as Hcs. pose proof (Hall _ _ Hn) as Hns.
  unfold folderRoot.
  destruct category as [|a category]; [done|].
  destruct skillName as [|b skillName]; [done|].
  cbn [truthy].
  rewrite (forceTrailingSlash_segment r) by done.
  rewrite (forceTrailingSlash_segment _ (String b skillName)) by done.
  by rewrite !append_assoc.
Qed.

(** Insertions under pairwise distinct keys. *)

Lemma store_other w r l k : forall files : gmap string string,
  k ∉ (fun skill => archivePath r (path skill)) <$> l ->
  foldl (store w r) files l !! k = files !! k.
Proof.
  induction l as [|s l IH]; intros files Hk; [done|].
  rewrite fmap_cons, not_elem_of_cons in Hk. destruct Hk as [Hne Hk].
  simpl. rewrite IH by done. unfold store.
  destruct (resolve w (path s)); [|done].
  by rewrite lookup_insert_ne.
Qed.

Lemma store_lookup w r l skill content : forall files : gmap string string,
  NoDup ((fun skill => archivePath r (path skill)) <$> l) ->
  skill ∈ l ->
  resolve w (path skill) = Return content ->
  foldl (store w r) files l !! archivePath r (path skill) = Some content.
Proof.
  induction l as [|s l IH]; intros files Hnd Hin Hres.
  { by apply elem_of_nil in Hin. }
  rewrite fmap_cons, NoDup_cons in Hnd. destruct Hnd as [Hs Hnd].
  apply elem_of_cons in Hin as [->|Hin]; simpl.
  - rewrite store_other by done. unfold store. rewrite Hres.
    apply lookup_insert_eq.
  - by apply IH.
Qed.

Lemma store_size w r l : forall files : gmap string string,
  NoDup ((fun skill => archivePath r (path skill)) <$> l) ->
  (forall skill, skill ∈ l -> files !! archivePath r (path skill) = None) ->
  size (foldl (store w r) files l)
  = size files + length (filter (fun skill => resolved w skill = true) l).
Proof.
  induction l as [|s l IH]; intros files Hnd Hfresh.
  { simpl. lia. }
  rewrite fmap_cons, NoDup_cons in Hnd. destruct Hnd as [Hs Hnd].
  simpl. rewrite IH; [|done|].
  - unfold store, resolved. rewrite filter_cons.
    destruct (resolve w (path s)) eqn:E.
    + rewrite decide_True by done. simpl.
      rewrite map_size_insert_None; [lia|].
      apply Hfresh. left.
    + rewrite decide_False by done. done.
  - intros s' Hs'. unfold store.
    destruct (resolve w (path s)).
    + rewrite lookup_insert_ne.
      * apply Hfresh. by right.
      * intros Heq. apply Hs. rewrite Heq.
        by apply (list_elem_of_fmap_2 (fun skill => archivePath r (path skill))).
    + apply Hfresh. by right.
Qed.

(** ** The order of settlement *)

Lemma pickOrder_Permutation {A} n : forall choices (pending : list A),
  length pending = n -> pickOrder n choices pending ≡ₚ pending.
Proof.
  induction n as [|n IH]; intros choices pending Hlen.
  - by destruct pending.
  - simpl.
    assert (hd 0 choices mod length pending < length pending) as Hk.
    { apply Nat.mod_upper_bound. lia. }
    apply lookup_lt_is_Some_2 in Hk as Hx. destruct Hx as [x Hx].
    rewrite Hx. etrans; [|symmetry; apply (delete_Permutation _ _ _ Hx)].
    constructor. apply IH.
    rewrite length_delete by eauto. lia.
Qed.

Lemma settleOrder_Permutation {A} choices (tasks : list A) :
  settleOrder choices tasks ≡ₚ tasks.
Proof. by apply pickOrder_Permutation. Qed.

(** ** The page after the callbacks *)

Lemma assemble_ambient w w' r l : forall files : gmap string ZipObject,
  ambient w' = ambient w -> assemble w' r l files = assemble w r l files.
Proof.
  intros files Ha. unfold assemble. revert files.
  induction l as [|s l IH]; intros files; [done|].
  simpl. by rewrite (resolve_ambient w w' _ Ha), IH.
Qed.

Lemma afterCallbacks_zipFiles catalog choices w :
  zipFiles (afterCallbacks catalog choices w)
  = assemble w "skills/" (settleOrder choices catalog) {[ "skills/" := ZDir ]}.
Proof.
  unfold afterCallbacks. rewrite forEach_skillCallback_zipFiles.
  by apply assemble_ambient.
Qed.

Lemma afterCallbacks_keeps catalog choices w :
  besidesArchive (afterCallbacks catalog choices w)
  = besidesArchive (setAllBtn (fun _ => busy) w).
Proof.
  unfold afterCallbacks. by rewrite forEach_skillCallback_keeps.
Qed.

Lemma failed_resolved_length w (l : list Skill) :
  length (filter (fun skill => resolved w skill = true) l)
  = length l - failures w l.
Proof.
  unfold failures. induction l as [|s l IH]; [done|].
  rewrite !filter_cons. destruct (resolved w s) eqn:E.
  - rewrite decide_True, decide_False by done. simpl. rewrite IH.
    pose proof (length_filter (fun skill => resolved w skill = false) l).
    lia.
  - rewrite decide_False, decide_True by done. simpl. apply IH.
Qed.

Lemma failures_Permutation w (l k : list Skill) :
  l ≡ₚ k -> failures w l = failures w k.
Proof. intros H. unfold failures. by rewrite H. Qed.

Lemma zfiles_skillsFolder :
  zfiles ({[ "skills/" := ZDir ]} : gmap string ZipObject) = ∅.
Proof. unfold zfiles. by rewrite omap_singleton_None. Qed.

(** The archive when all callbacks have run: one file per resolved entry
    when the archive paths are pairwise distinct. *)
Lemma afterCallbacks_size catalog choices w :
  NoDup (targets catalog) ->
  size (zfiles (zipFiles (afterCallbacks catalog choices w)))
  = length catalog - failures w catalog.
Proof.
  intros Hnd. rewrite afterCallbacks_zipFiles, zfiles_assemble.
  rewrite zfiles_skillsFolder.
  pose proof (settleOrder_Permutation choices catalog) as Hp.
  rewrite store_size.
  - rewrite map_size_empty, failed_resolved_length.
    by rewrite (failures_Permutation w _ _ Hp), (Permutation_length Hp).
  - unfold targets in Hnd. by rewrite Hp.
  - intros. apply lookup_empty.
Qed.

Lemma afterCallbacks_lookup catalog choices w skill content :
  NoDup (targets catalog) ->
  skill ∈ catalog ->
  resolve w (path skill) = Return content ->
  zipFiles (afterCallbacks catalog choices w)
    !! archivePath "skills/" (path skill) = Some (ZFile content).
Proof.
  intros Hnd Hin Hres. apply zfiles_lookup.
  rewrite afterCallbacks_zipFiles, zfiles_assemble.
  pose proof (settleOrder_Permutation choices catalog) as Hp.
  apply store_lookup; [|by rewrite Hp|done].
  unfold targets in Hnd. by rewrite Hp.
Qed.

Lemma afterCallbacks_all_failed catalog choices w :
  failures w catalog = length catalog ->
  zipFiles (afterCallbacks catalog choices w) = {[ "skills/" := ZDir ]}.
Proof.
  intros Hall. rewrite afterCallbacks_zipFiles.
  apply assemble_all_failed.
  pose proof (settleOrder_Permutation choices catalog) as Hp.
  rewrite Hp. unfold failures in Hall.
  apply Forall_forall. intros s Hs.
  destruct (resolved w s) eqn:E; [|done]. exfalso.
  assert (length (filter (fun skill => resolved w skill = true) catalog) = 0)
    as H0 by (rewrite failed_resolved_length; unfold failures; lia).
  apply length_zero_iff_nil in H0.
  assert (s ∈ filter (fun skill => resolved w skill = true) catalog) as Hf
    by (by apply list_elem_of_filter).
  rewrite H0 in Hf. by apply elem_of_nil in Hf.
Qed.

Lemma getBaseUrl_throws_resolve w e p :
  fst (getBaseUrl w) = Throw e -> resolve w p = Throw e.
Proof. intros H. unfold resolve. by rewrite fetchFileContent_outcome, H. Qed.

Lemma snoc_neq {A} (l : list A) x : l ++ [x] <> l.
Proof.
  intros H. apply (f_equal length) in H. rewrite length_app in H.
  simpl in H. lia.
Qed.

Lemma failures_all w (l : list Skill) :
  (forall skill, skill ∈ l -> resolved w skill = false) ->
  failures w l = length l.
Proof.
  unfold failures. induction l as [|s l IH]; intros H; [done|].
  rewrite filter_cons, decide_True by (apply H; left).
  simpl. f_equal. apply IH. intros s' Hs'. apply H. by right.
Qed.

Lemma getBaseUrl_throws_failures w e (l : list Skill) :
  fst (getBaseUrl w) = Throw e -> failures w l = length l.
Proof.
  intros H. apply failures_all. intros s _. unfold resolved.
  by rewrite (getBaseUrl_throws_resolve w e).
Qed.

(** ** The built-in catalog *)

Lemma SKILLS_LIST_targets_NoDup : NoDup (targets SKILLS_LIST).
Proof. apply (bool_decide_unpack (NoDup (targets SKILLS_LIST))). by vm_compute. Qed.

Lemma SKILLS_LIST_archivePath skill category skillName :
  skill ∈ SKILLS_LIST ->
  splitSlash (path skill) !! 1 = Some category ->
  splitSlash (path skill) !! 2 = Some skillName ->
  archivePath "skills/" (path skill)
  = "skills/" +:+ category +:+ "/" +:+ skillName +:+ "/SKILL.md".
Proof.
  unfold SKILLS_LIST. intros Hin Hc Hn.
  repeat (apply elem_of_cons in Hin as [->|Hin];
          [vm_compute in Hc, Hn; injection Hc as <-; injection Hn as <-;
           reflexivity|]).
  by apply elem_of_nil in Hin.
Qed.

(** ** The console after the callbacks *)

Lemma skillCallback_errorLines h skill w :
  errorLines (console (snd (skillCallback h skill w)))
  = errorLines (console w) + (if resolved w skill then 0 else 1).
Proof.
  rewrite skillCallback_run. unfold resolved, resolve.
  pose proof (fetchFileContent_errorLines (path skill) w) as H.
  destruct (fetchFileContent (path skill) w) as [[c|e] w1]; cbn in *.
  - rewrite H. lia.
  - rewrite errorLines_error, H. lia.
Qed.

Lemma forEach_skillCallback_errorLines h l : forall w,
  errorLines (console (snd (forEach (skillCallback h) l w)))
  = errorLines (console w) + failures w l.
Proof.
  induction l as [|s l IH]; intros w.
  { unfold failures. simpl. lia. }
  simpl. unfold bind.
  pose proof (skillCallback_returns h s w) as Hr.
  pose proof (skillCallback_errorLines h s w) as He.
  pose proof (skillCallback_keeps h s w) as Hk.
  destruct (skillCallback h s w) as [[[]|e] w1]; [|done].
  cbn [fst snd] in *. rewrite IH, He.
  apply besidesArchive_inv in Hk as (Ha & _).
  assert (failures w1 l = failures w l) as ->.
  { unfold failures. f_equal. apply list_filter_iff. intros s'.
    unfold resolved. by rewrite (resolve_ambient w w1 _ Ha). }
  unfold failures. rewrite filter_cons.
  destruct (resolved w s).
  - rewrite decide_False by done. lia.
  - rewrite decide_True by done. simpl. lia.
Qed.

Lemma afterCallbacks_errorLines catalog choices w :
  errorLines (console (afterCallbacks catalog choices w))
  = errorLines (console w) + failures w catalog.
Proof.
  unfold afterCallbacks. rewrite forEach_skillCallback_errorLines.
  cbn [console setZipFiles setAllBtn].
  set (w0 := setZipFiles _ _).
  assert (ambient w0 = ambient w) as Ha by done.
  assert (failures w0 (settleOrder choices catalog)
          = failures w (settleOrder choices catalog)) as ->.
  { unfold failures. f_equal. apply list_filter_iff. intros s'.
    unfold resolved. by rewrite (resolve_ambient w w0 _ Ha). }
  by rewrite (failures_Permutation w _ _ (settleOrder_Permutation _ _)).
Qed.

(** ** Fuel of the parent chain *)

Lemma replaceTrailingSlash_length s :
  String.length (replaceTrailingSlash s) <= String.length s.
Proof.
  induction s as [|c s IH]; [done|]. simpl.
  destruct s as [|d s]; [destruct (Ascii.eqb c "/"); simpl; lia|].
  simpl in *. lia.
Qed.

Lemma beforeLastSlash_length s q :
  JSZip.beforeLastSlash s = Some q -> String.length q < String.length s.
Proof.
  revert q. induction s as [|c s IH]; intros q; [done|]. simpl.
  destruct (JSZip.beforeLastSlash s) as [q'|].
  - intros [= <-]. simpl. specialize (IH q' eq_refl). lia.
  - destruct (Ascii.eqb c "/"); [|done]. intros [= <-]. simpl. lia.
Qed.

Lemma parentFolder_length p :
  p <> "" -> String.length (JSZip.parentFolder p) < String.length p.
Proof.
  intros Hp. unfold JSZip.parentFolder.
  pose proof (replaceTrailingSlash_length p) as Hl.
  destruct (JSZip.beforeLastSlash (replaceTrailingSlash p)) as [q|] eqn:E.
  - apply beforeLastSlash_length in E. lia.
  - destruct p; [done|]. simpl. lia.
Qed.

(** The chain of parents does not depend on the fuel once it covers the
    length of the path. *)
Lemma parentChain_fuel fuel1 : forall fuel2 p,
  String.length p <= fuel1 -> String.length p <= fuel2 ->
  JSZip.parentChain fuel1 p = JSZip.parentChain fuel2 p.
Proof.
  induction fuel1 as [|f1 IH]; intros fuel2 p H1 H2.
  - destruct p; [|simpl in H1; lia]. by destruct fuel2.
  - destruct fuel2 as [|f2].
    { destruct p; [done|simpl in H2; lia]. }
    simpl. destruct (truthy (JSZip.parentFolder p)) eqn:E; [|done].
    f_equal. destruct p as [|c p]; [done|].
    assert (String c p <> "") as Hne by done.
    pose proof (parentFolder_length (String c p) Hne) as Hlt.
    apply IH; lia.
Qed.

(** ** Independence of the order of settlement *)

Lemma store_lookup_inv w r l k content : forall files : gmap string string,
  foldl (store w r) files l !! k = Some content ->
  files !! k = Some content
  \/ exists skill, skill ∈ l /\ archivePath r (path skill) = k
                   /\ resolve w (path skill) = Return content.
Proof.
  induction l as [|s l IH]; intros files H; [by left|].
  simpl in H. apply IH in H as [H|(s' & Hin & Hk & Hres)].
  - unfold store in H. destruct (resolve w (path s)) as [c0|] eqn:E.
    + destruct (decide (archivePath r (path s) = k)) as [Heq|Hne].
      * rewrite <- Heq, lookup_insert_eq in H. injection H as ->.
        right. exists s. split; [left|done].
      * rewrite lookup_insert_ne in H by done. by left.
    + by left.
  - right. exists s'. split; [by right|done].
Qed.

Lemma store_Permutation w r (l1 l2 : list Skill) :
  NoDup ((fun skill => archivePath r (path skill)) <$> l1) ->
  l1 ≡ₚ l2 ->
  foldl (store w r) ∅ l1 = foldl (store w r) ∅ l2.
Proof.
  intros Hnd1 Hp.
  assert (NoDup ((fun skill => archivePath r (path skill)) <$> l2)) as Hnd2
    by (by rewrite <- Hp).
  assert (forall la lb k content,
            NoDup ((fun skill => archivePath r (path skill)) <$> lb) ->
            la ≡ₚ lb ->
            foldl (store w r) ∅ la !! k = Some content ->
            foldl (store w r) ∅ lb !! k = Some content) as Hsub.
  { intros la lb k content Hnd Hperm H.
    apply store_lookup_inv in H as [H|(s & Hin & <- & Hres)].
    - by rewrite lookup_empty in H.
    - apply store_lookup; [done|by rewrite <- Hperm|done]. }
  apply map_eq. intros k.
  destruct (foldl (store w r) ∅ l1 !! k) as [c|] eqn:E1.
  - symmetry. by apply (Hsub l1 l2).
  - destruct (foldl (store w r) ∅ l2 !! k) as [c|] eqn:E2; [|done].
    apply (Hsub l2 l1) in E2; [congruence|done|done].
Qed.

(** The files of the archive do not depend on the order in which the
    callbacks settle, when the archive paths are pairwise distinct. *)
Theorem archive_order_independent catalog choices1 choices2 w :
  NoDup (targets catalog) ->
  zfiles (zipFiles (afterCallbacks catalog choices1 w))
  = zfiles (zipFiles (afterCallbacks catalog choices2 w)).
Proof.
  intros Hnd. rewrite !afterCallbacks_zipFiles, !zfiles_assemble.
  rewrite zfiles_skillsFolder.
  pose proof (settleOrder_Permutation choices1 catalog) as H1.
  pose proof (settleOrder_Permutation choices2 catalog) as H2.
  apply store_Permutation.
  - unfold targets in Hnd. by rewrite H1.
  - by rewrite H1, H2.
Qed.

(* ===================================================================== *)
(** * The stated properties *)
(* ===================================================================== *)

(** C4. For every current page path and base prefix, the path derivation of
    [downloadSkillFile] strips the base prefix when the path starts with
    it, strips one trailing slash, appends ["/SKILL.md"] and rewrites a
    leading ["/skills/"] to ["_skills/"]; for a page path
    [<base>/skills/analysis/r-econometrics/] the derived path is
    ["_skills/analysis/r-econometrics/SKILL.md"]. *)
Theorem skillPathOf_derivation (currentPath baseUrl : string) :
  (exists stripped trimmed,
      stripsPrefix baseUrl currentPath stripped
      /\ stripsTrailingSlash stripped trimmed
      /\ rewritesLeadingSkills (trimmed +:+ "/SKILL.md")
           (skillPathOf currentPath baseUrl))
  /\ skillPathOf (baseUrl +:+ "/skills/analysis/r-econometrics/") baseUrl
     = "_skills/analysis/r-econometrics/SKILL.md".
Proof.
  split.
  - unfold skillPathOf.
    eexists _, _. split; [apply stripBase_spec|].
    split; [apply replaceTrailingSlash_spec|].
    apply replaceLeadingSkills_spec.
  - unfold skillPathOf.
    rewrite startsWith_app, substringFrom_app, andb_true_r.
    destruct baseUrl; reflexivity.
Qed.

(** X26. Whenever the href of the base tag, if it is consulted, is one
    that [new URL] accepts, [getBaseUrl] returns without touching the
    page, in this order of priority: [window.siteBaseurl] when it is
    defined; otherwise the pathname of the base tag's href with a trailing
    slash stripped, when a base tag with a non-empty href is present;
    otherwise ["/awesome-econ-ai-stuff"] when the page path contains that
    string; otherwise the empty string. *)
Theorem getBaseUrl_priority (w : Browser) :
  (forall v, siteBaseurl w = Some v -> getBaseUrl w = (Return v, w))
  /\ (forall href p,
        siteBaseurl w = None -> baseHref w = Some href -> href <> "" ->
        urlPathname href = Some p ->
        exists b, getBaseUrl w = (Return b, w) /\ stripsTrailingSlash p b)
  /\ (siteBaseurl w = None -> baseHref w = None \/ baseHref w = Some "" ->
        (contains (pathname w) "/awesome-econ-ai-stuff" ->
           getBaseUrl w = (Return "/awesome-econ-ai-stuff", w))
        /\ (~ contains (pathname w) "/awesome-econ-ai-stuff" ->
           getBaseUrl w = (Return "", w))).
Proof.
  unfold getBaseUrl, bind, gets, ret.
  split; [|split; [|intros Hs Hb; split; revert Hs Hb]].
  - by intros v ->.
  - intros href p -> -> Hne Hp. simpl.
    destruct href as [|c href]; [done|]. simpl. rewrite Hp.
    eexists. split; [done|]. apply replaceTrailingSlash_spec.
  - intros -> Hb Hc.
    assert (usableHref (baseHref w) = None) as -> by (by destruct Hb as [-> | ->]).
    apply includes_iff in Hc. simpl. by rewrite Hc.
  - intros -> Hb Hc.
    assert (usableHref (baseHref w) = None) as -> by (by destruct Hb as [-> | ->]).
    simpl.
    destruct (includes (pathname w) "/awesome-econ-ai-stuff") eqn:E; [|done].
    by apply includes_iff in E.
Qed.

(** C8. For a fixed ambient state (page path, injected base path, base
    tag) the derivation of the single-file target path is deterministic:
    it leaves the whole page state as it found it, so a second invocation
    yields the same result, and its result depends on nothing but that
    ambient state. *)
Theorem deriveSkillPath_deterministic (w : Browser) :
  snd (deriveSkillPath w) = w
  /\ (forall r w1, deriveSkillPath w = (r, w1) -> deriveSkillPath w1 = (r, w1))
  /\ (forall w', ambient w' = ambient w ->
        fst (deriveSkillPath w') = fst (deriveSkillPath w)).
Proof.
  assert (forall u, deriveSkillPath u
            = (match fst (getBaseUrl u) with
               | Return b => Return (skillPathOf (pathname u) b)
               | Throw e => Throw e
               end, u)) as Hrun.
  { intros u. unfold deriveSkillPath, bind, gets, ret.
    rewrite (getBaseUrl_run u). by destruct (fst (getBaseUrl u)). }
  split; [by rewrite Hrun|]. split.
  - intros r w1. rewrite Hrun. by intros [= <- <-].
  - intros w' Ha. rewrite !Hrun. simpl.
    rewrite (getBaseUrl_ambient w w' Ha).
    unfold ambient in Ha. injection Ha as _ _ ->. done.
Qed.

(** C1. For every relative path, if the primary fetch returns a successful
    response whose body, after trimming leading white space, begins with
    ["<!DOCTYPE"] or ["<html"], then [fetchFileContent] rejects that body
    and requests the GitHub raw URL next; its result is what the secondary
    answer gives, so when the secondary fetch succeeds the result is the
    secondary response's text. *)
Theorem fetchFileContent_fallback (w : Browser) (p baseUrl : string)
    (r : Response) (content : string) :
  fst (getBaseUrl w) = Return baseUrl ->
  network (primaryUrl baseUrl p) = Resolved r ->
  ok r = true ->
  text r = inr content ->
  startsWith (trimStart content) "<!DOCTYPE" = true
  \/ startsWith (trimStart content) "<html" = true ->
  requests (snd (fetchFileContent p w))
  = requests w ++ [primaryUrl baseUrl p; githubUrl p]
  /\ (forall r2 c2,
        network (githubUrl p) = Resolved r2 -> ok r2 = true ->
        text r2 = inr c2 ->
        fst (fetchFileContent p w) = Return c2)
  /\ (forall c,
        fst (fetchFileContent p w) = Return c ->
        exists r2, network (githubUrl p) = Resolved r2 /\ ok r2 = true
                   /\ text r2 = inr c).
Proof.
  intros Hb Hn Hok Ht Hhtml.
  assert (looksLikeHtml content = true) as Hl.
  { rewrite looksLikeHtml_trimStart. apply orb_true_iff.
    destruct Hhtml; auto. }
  assert (fst (fetchFileContent p w)
          = fallbackOutcome p (network (githubUrl p))) as Hout.
  { rewrite fetchFileContent_outcome, Hb. unfold directOutcome.
    by rewrite Hn, Hok, Ht, Hl. }
  split; [|split].
  - unfold fetchFileContent, bind. rewrite (getBaseUrl_run w), Hb.
    unfold fetchDirect, tryCatch, bind, fetch, modify, responseText, ret, throw.
    cbn. rewrite Hn. cbn. rewrite Hok, Ht. cbn. rewrite Hl. cbn.
    destruct (network (githubUrl p)) as [e2|r2]; cbn.
    + by rewrite <- app_assoc.
    + destruct (negb (ok r2)); [|destruct (text r2)]; cbn;
        by rewrite <- app_assoc.
  - intros r2 c2 Hn2 Hok2 Ht2. rewrite Hout. unfold fallbackOutcome.
    by rewrite Hn2, Hok2, Ht2.
  - intros c. rewrite Hout. unfold fallbackOutcome.
    destruct (network (githubUrl p)) as [e2|r2] eqn:En; [done|].
    destruct (ok r2) eqn:Eok; [|done]. cbn.
    destruct (text r2) as [e|c2] eqn:E; [done|].
    intros [= ->]. by exists r2.
Qed.

(** C5. After every execution of [downloadAllSkills] or
    [downloadSkillFile], whatever its course, the triggering button (when
    the page has it) is enabled and carries its idle label: ["Download All
    Skills"] for the bulk download, ["Download SKILL.md"] for the
    single-file download. *)
Theorem buttons_restored (catalog : list Skill) (choices : list nat)
    (w : Browser) :
  downloadAllBtn (snd (downloadAllSkillsOf catalog choices w))
  = (fun _ => mkButton false "Download All Skills") <$> downloadAllBtn w
  /\ downloadSkillBtn (snd (downloadSkillFile w))
     = (fun _ => mkButton false "Download SKILL.md") <$> downloadSkillBtn w.
Proof.
  split.
  - rewrite downloadAllSkillsOf_run. cbn [snd].
    set (w0 := setAllBtn (fun _ => busy) w).
    assert (forall e u, downloadAllBtn u = downloadAllBtn w0 ->
              downloadAllBtn (failAll e u)
              = (fun _ => mkButton false "Download All Skills")
                  <$> downloadAllBtn w) as Hfail.
    { intros e u Hu. unfold failAll. cbn. rewrite Hu. cbn.
      by destruct (downloadAllBtn w). }
    destruct (fst (getBaseUrl w0)); [|by apply Hfail].
    destruct (JSZipLoaded w0); [|by apply Hfail].
    assert (downloadAllBtn (afterCallbacks catalog choices w)
            = downloadAllBtn w0) as Hk.
    { unfold afterCallbacks.
      destruct (besidesArchive_inv _ _
                  (forEach_skillCallback_keeps (JSZip.mkHandle "skills/")
                     (settleOrder choices catalog)
                     (setZipFiles {["skills/" := ZDir]} w0)))
        as (_ & _ & Hk & _).
      exact Hk. }
    cbn zeta. destruct (generateError _); [by apply Hfail|].
    cbn. rewrite Hk. cbn. by destruct (downloadAllBtn w).
  - rewrite downloadSkillFile_run. cbn [snd].
    set (w0 := setSkillBtn (fun _ => busy) w).
    assert (forall e u, downloadSkillBtn u = downloadSkillBtn w0 ->
              downloadSkillBtn (failSkill e u)
              = (fun _ => mkButton false "Download SKILL.md")
                  <$> downloadSkillBtn w) as Hfail.
    { intros e u Hu. unfold failSkill. cbn. rewrite Hu. cbn.
      by destruct (downloadSkillBtn w). }
    destruct (fst (getBaseUrl w0)) as [b|e]; [|by apply Hfail].
    cbn zeta.
    pose proof (keeps_fetchFileContent (skillPathOf (pathname w0) b) w0) as Hk.
    apply besidesLogs_inv in Hk as [Hk _].
    apply besidesArchive_inv in Hk as (_ & _ & _ & Hk & _).
    destruct (fetchFileContent _ w0) as [[c|e] w1]; cbn [snd] in Hk.
    + cbn. rewrite Hk. cbn. by destruct (downloadSkillBtn w).
    + by apply Hfail.
Qed.

(** C6. For every single-file request in which the primary fetch and the
    secondary GitHub raw fetch both fail for the derived path,
    [downloadSkillFile] shows an alert and triggers no save-as action. *)
Theorem downloadSkillFile_total_failure (w : Browser) (baseUrl : string) :
  fst (getBaseUrl w) = Return baseUrl ->
  primaryRejected
    (network (primaryUrl baseUrl (skillPathOf (pathname w) baseUrl))) ->
  fetchFails (network (githubUrl (skillPathOf (pathname w) baseUrl))) = true ->
  alerts (snd (downloadSkillFile w))
  = alerts w ++ ["Failed to download SKILL.md file. Please try again."]
  /\ downloads (snd (downloadSkillFile w)) = downloads w.
Proof.
  intros Hb Hp Hs. rewrite downloadSkillFile_run. cbn [snd].
  set (w0 := setSkillBtn (fun _ => busy) w).
  assert (ambient w0 = ambient w) as Ha by done.
  rewrite (getBaseUrl_ambient w w0 Ha), Hb.
  change (pathname w0) with (pathname w). cbn zeta.
  set (sp := skillPathOf (pathname w) baseUrl) in *.
  pose proof (fetchFileContent_outcome sp w0) as Hout.
  rewrite (getBaseUrl_ambient w w0 Ha), Hb in Hout.
  destruct (fallbackOutcome_fails sp _ Hs) as [e He].
  pose proof (primaryRejected_outcome _ Hp) as Hd.
  pose proof (keeps_fetchFileContent sp w0) as Hk.
  apply besidesLogs_inv in Hk as [Hk _].
  apply besidesArchive_inv in Hk as (_ & _ & _ & _ & Hal & Hdl).
  destruct (fetchFileContent sp w0) as [[c|e'] w1]; cbn [fst snd] in *.
  - destruct (directOutcome _) as [?|[c'|]]; try congruence.
    by destruct (Hd c').
  - unfold failSkill. cbn. by rewrite Hal, Hdl.
Qed.

(** The final page of a bulk download whose base prefix is detected and
    whose JSZip is loaded. *)
Lemma downloadAllSkillsOf_final catalog choices w b :
  fst (getBaseUrl w) = Return b ->
  JSZipLoaded w = true ->
  snd (downloadAllSkillsOf catalog choices w)
  = let w2 := afterCallbacks catalog choices w in
    match generateError (zipFiles w2) with
    | Some e => failAll e w2
    | None =>
        setAllBtn (fun _ => idleAll)
          (addDownload (fst (savedZip w2)) (snd (savedZip w2)) w2)
    end.
Proof.
  intros Hb HJ. rewrite downloadAllSkillsOf_run. cbn [snd].
  set (w0 := setAllBtn (fun _ => busy) w).
  assert (ambient w0 = ambient w) as Ha by done.
  rewrite (getBaseUrl_ambient w w0 Ha), Hb.
  change (JSZipLoaded w0) with (JSZipLoaded w). by rewrite HJ.
Qed.

Lemma afterCallbacks_user catalog choices w :
  alerts (afterCallbacks catalog choices w) = alerts w
  /\ downloads (afterCallbacks catalog choices w) = downloads w.
Proof.
  destruct (besidesArchive_inv _ _ (afterCallbacks_keeps catalog choices w))
    as (_ & _ & _ & _ & Hal & Hdl).
  by rewrite Hal, Hdl.
Qed.

(** Partial failure over any catalog whose archive paths are pairwise
    distinct. *)
Lemma downloadAllSkillsOf_partial_failure (catalog : list Skill)
    (choices : list nat)
    (w : Browser) :
  NoDup (targets catalog) ->
  JSZipLoaded w = true ->
  0 < failures w catalog < length catalog ->
  let w' := snd (downloadAllSkillsOf catalog choices w) in
  fst (downloadAllSkillsOf catalog choices w) = Return tt
  /\ size (zfiles (zipFiles w')) = length catalog - failures w catalog
  /\ (generateError (zipFiles w') = None ->
        alerts w' = alerts w
        /\ downloads w'
           = downloads w
             ++ [("awesome-econ-ai-skills.zip", ZipBlob (zipFiles w'))]
        /\ errorLines (console w')
           = errorLines (console w) + failures w catalog).
Proof.
  intros Hnd HJ HM w'.
  assert (exists b, fst (getBaseUrl w) = Return b) as [b Hb].
  { destruct (fst (getBaseUrl w)) as [b|e] eqn:E; [eauto|].
    pose proof (getBaseUrl_throws_failures w e catalog E). lia. }
  split.
  { by rewrite downloadAllSkillsOf_run. }
  pose proof (downloadAllSkillsOf_final catalog choices w b Hb HJ) as Hfin.
  fold w' in Hfin. cbn zeta in Hfin.
  destruct (afterCallbacks_user catalog choices w) as [Hal Hdl].
  pose proof (afterCallbacks_size catalog choices w Hnd) as Hsize.
  pose proof (afterCallbacks_errorLines catalog choices w) as Herr.
  set (w2 := afterCallbacks catalog choices w) in *.
  assert (zipFiles w' = zipFiles w2) as Hz.
  { rewrite Hfin. by destruct (generateError (zipFiles w2)). }
  rewrite Hz. split; [done|].
  intros Hgen. rewrite Hfin, Hgen. cbn. by rewrite Hal, Hdl, Herr.
Qed.

(** C2. Of the N entries of the catalog, let M (0 < M < N) fail all
    resolution attempts, in whatever order the per-entry resolutions
    settle.  Off the fatal path, that is with JSZip loaded and a
    serialization that succeeds, [downloadAllSkills] throws nothing, the
    archive it serializes once all callbacks have settled holds exactly
    N - M files, that archive is saved under the fixed name and no alert
    is shown: each failed entry has only left its [console.error] line,
    its siblings and the operation go on. *)
Theorem bulk_partial_failure (choices : list nat) (w : Browser) :
  JSZipLoaded w = true ->
  0 < failures w SKILLS_LIST < length SKILLS_LIST ->
  let w' := snd (downloadAllSkills choices w) in
  fst (downloadAllSkills choices w) = Return tt
  /\ size (zfiles (zipFiles w'))
     = length SKILLS_LIST - failures w SKILLS_LIST
  /\ (generateError (zipFiles w') = None ->
      downloads w'
      = downloads w
        ++ [("awesome-econ-ai-skills.zip", ZipBlob (zipFiles w'))]
      /\ alerts w' = alerts w
      /\ errorLines (console w')
         = errorLines (console w) + failures w SKILLS_LIST).
Proof.
  intros HJ HM w'.
  destruct (downloadAllSkillsOf_partial_failure SKILLS_LIST choices w
              SKILLS_LIST_targets_NoDup HJ HM) as (Hret & Hsize & Hsaved).
  split; [exact Hret|]. split; [exact Hsize|].
  intros Hgen. destruct (Hsaved Hgen) as (Hal & Hdl & Herr). by repeat split.
Qed.

(** C3. For every successfully resolved entry of the catalog with relative
    path [p], [downloadAllSkills] places its content in the archive at
    [skills/<category>/<name>/SKILL.md], where [<category>] and [<name>]
    are the second and third segments of [p] split on ['/']: every archive
    the operation saves holds the content there, and with JSZip loaded the
    archive is built so and is saved when its serialization succeeds. *)
Theorem archive_layout (choices : list nat) (w : Browser) (skill : Skill)
    (category skillName content : string) :
  skill ∈ SKILLS_LIST ->
  fst (fetchFileContent (path skill) w) = Return content ->
  splitSlash (path skill) !! 1 = Some category ->
  splitSlash (path skill) !! 2 = Some skillName ->
  let w' := snd (downloadAllSkills choices w) in
  let target := "skills/" +:+ category +:+ "/" +:+ skillName +:+ "/SKILL.md" in
  (forall files,
      downloads w'
      = downloads w ++ [("awesome-econ-ai-skills.zip", ZipBlob files)] ->
      files !! target = Some (ZFile content))
  /\ (JSZipLoaded w = true ->
      zipFiles w' !! target = Some (ZFile content)
      /\ (generateError (zipFiles w') = None ->
          downloads w'
          = downloads w
            ++ [("awesome-econ-ai-skills.zip", ZipBlob (zipFiles w'))])).
Proof.
  intros Hin Hres Hc Hn w' target.
  assert (target = archivePath "skills/" (path skill)) as ->
    by (symmetry; by apply SKILLS_LIST_archivePath).
  pose proof (afterCallbacks_lookup SKILLS_LIST choices w skill content
                SKILLS_LIST_targets_NoDup Hin Hres) as Hlook.
  destruct (afterCallbacks_user SKILLS_LIST choices w) as [Hal Hdl].
  assert (exists b, fst (getBaseUrl w) = Return b) as [b Hb].
  { destruct (fst (getBaseUrl w)) as [b|e] eqn:E; [eauto|].
    pose proof (getBaseUrl_throws_resolve w e (path skill) E) as Hthrow.
    unfold resolve in Hthrow. congruence. }
  set (w2 := afterCallbacks SKILLS_LIST choices w) in *.
  split.
  - intros files Hsaved. subst w'. unfold downloadAllSkills in Hsaved.
    rewrite downloadAllSkillsOf_run in Hsaved. cbn [snd] in Hsaved.
    set (w0 := setAllBtn (fun _ => busy) w) in Hsaved.
    assert (ambient w0 = ambient w) as Ha by done.
    rewrite (getBaseUrl_ambient w w0 Ha), Hb in Hsaved.
    change (JSZipLoaded w0) with (JSZipLoaded w) in Hsaved.
    destruct (JSZipLoaded w).
    + cbn zeta in Hsaved. fold w2 in Hsaved.
      destruct (generateError (zipFiles w2)).
      * cbn in Hsaved. rewrite Hdl in Hsaved. symmetry in Hsaved.
        by apply snoc_neq in Hsaved.
      * cbn in Hsaved. rewrite Hdl in Hsaved.
        apply app_inv_head in Hsaved. by injection Hsaved as <-.
    + cbn in Hsaved. symmetry in Hsaved. by apply snoc_neq in Hsaved.
  - intros HJ.
    pose proof (downloadAllSkillsOf_final SKILLS_LIST choices w b Hb HJ)
      as Hfin.
    fold (downloadAllSkills choices w) in Hfin. fold w' in Hfin.
    cbn zeta in Hfin. fold w2 in Hfin.
    assert (zipFiles w' = zipFiles w2) as Hz.
    { rewrite Hfin. by destruct (generateError (zipFiles w2)). }
    rewrite Hz. split; [done|].
    intros Hgen. rewrite Hfin, Hgen. cbn. by rewrite Hdl.
Qed.

(** X27. When every catalog entry fails resolution while the base
    prefix is detected and JSZip is loaded, the archive holds the
    top-level [skills] folder and nothing else; when its serialization
    succeeds it is saved all the same under the fixed name, no alert is
    shown and the button is reset, so that the console, with one error
    line per entry, is the only trace of the failures. *)
Theorem all_failed_archive (catalog : list Skill) (choices : list nat)
    (w : Browser) (b : string) :
  fst (getBaseUrl w) = Return b ->
  JSZipLoaded w = true ->
  failures w catalog = length catalog ->
  let w' := snd (downloadAllSkillsOf catalog choices w) in
  zipFiles w' = {[ "skills/" := ZDir ]}
  /\ (generateError {[ "skills/" := ZDir ]} = None ->
      downloads w'
      = downloads w
        ++ [("awesome-econ-ai-skills.zip", ZipBlob {[ "skills/" := ZDir ]})]
      /\ alerts w' = alerts w
      /\ downloadAllBtn w'
         = (fun _ => mkButton false "Download All Skills")
             <$> downloadAllBtn w
      /\ errorLines (console w')
         = errorLines (console w) + length catalog).
Proof.
  intros Hb HJ Hall w'.
  destruct (afterCallbacks_user catalog choices w) as [Hal Hdl].
  destruct (besidesArchive_inv _ _ (afterCallbacks_keeps catalog choices w))
    as (_ & _ & Hbtn & _).
  pose proof (afterCallbacks_errorLines catalog choices w) as Herr.
  pose proof (downloadAllSkillsOf_final catalog choices w b Hb HJ) as Hfin.
  fold w' in Hfin. cbn zeta in Hfin.
  pose proof (afterCallbacks_all_failed catalog choices w Hall) as Hz2.
  assert (zipFiles w' = zipFiles (afterCallbacks catalog choices w)) as Hz.
  { rewrite Hfin. by destruct (generateError _). }
  rewrite Hz, Hz2. split; [done|].
  intros Hgen. rewrite Hfin, Hz2, Hgen. cbn.
  rewrite Hal, Hdl, Hbtn, Hz2, Herr, Hall. cbn.
  by destruct (downloadAllBtn w).
Qed.

(* ===================================================================== *)
(** * Further properties of the resolver *)
(* ===================================================================== *)

(** The page after [fetchFileContent]: the primary request, then a warning
    when the [try] block threw, then the GitHub request unless the primary
    body was returned. *)
Lemma fetchFileContent_state p w :
  snd (fetchFileContent p w)
  = match fst (getBaseUrl w) with
    | Throw _ => w
    | Return b =>
        match directOutcome (network (primaryUrl b p)) with
        | inr (Some _) => addRequest (primaryUrl b p) w
        | inr None =>
            addRequest (githubUrl p) (addRequest (primaryUrl b p) w)
        | inl e =>
            addRequest (githubUrl p)
              (addLog (Warn ("Failed to fetch " +:+ p
                             +:+ " directly, trying GitHub raw URL:") e)
                 (addRequest (primaryUrl b p) w))
        end
    end.
Proof.
  unfold fetchFileContent, bind. rewrite (getBaseUrl_run w).
  destruct (fst (getBaseUrl w)) as [b|e]; [|done].
  unfold fetchDirect, tryCatch, bind, fetch, modify, responseText, ret, throw,
    directOutcome.
  cbn.
  destruct (network (primaryUrl b p)) as [e1|r1]; cbn.
  - destruct (network (githubUrl p)) as [e2|r2]; cbn; [done|].
    destruct (ok r2); cbn; [|done]. by destruct (text r2).
  - destruct (ok r1); cbn.
    + destruct (text r1) as [e1|c1]; cbn.
      * destruct (network (githubUrl p)) as [e2|r2]; cbn; [done|].
        destruct (ok r2); cbn; [|done]. by destruct (text r2).
      * destruct (looksLikeHtml c1); cbn; [|done].
        destruct (network (githubUrl p)) as [e2|r2]; cbn; [done|].
        destruct (ok r2); cbn; [|done]. by destruct (text r2).
    + destruct (network (githubUrl p)) as [e2|r2]; cbn; [done|].
      destruct (ok r2); cbn; [|done]. by destruct (text r2).
Qed.

Lemma fetchFileContent_run p w :
  fetchFileContent p w = (fst (fetchFileContent p w), snd (fetchFileContent p w)).
Proof. by destruct (fetchFileContent p w). Qed.

(** X1. When the primary answer is 2xx and its body does not start, after
    leading white space, with ["<!DOCTYPE"] or ["<html"], the resolver
    returns that body and has issued the primary request only: GitHub is
    not contacted and nothing is written to the console. *)
Theorem fetchFileContent_primary_success (w : Browser) (p baseUrl : string)
    (r : Response) (content : string) :
  fst (getBaseUrl w) = Return baseUrl ->
  network (primaryUrl baseUrl p) = Resolved r ->
  ok r = true ->
  text r = inr content ->
  startsWith (trimStart content) "<!DOCTYPE" = false ->
  startsWith (trimStart content) "<html" = false ->
  fetchFileContent p w
  = (Return content, addRequest (primaryUrl baseUrl p) w).
Proof.
  intros Hb Hn Hok Ht H1 H2.
  assert (directOutcome (network (primaryUrl baseUrl p))
          = inr (Some content)) as Hd.
  { unfold directOutcome. rewrite Hn, Hok, Ht, looksLikeHtml_trimStart.
    by rewrite H1, H2. }
  rewrite fetchFileContent_run, fetchFileContent_outcome,
    fetchFileContent_state.
  by rewrite Hb, Hd.
Qed.

(** X2. When the primary attempt yields nothing, the failure of the
    resolver is that of the GitHub request: a status outside 2xx gives the
    error ["Failed to fetch <path> from GitHub: <statusText>"], a rejected
    fetch or an unreadable body gives its own error. *)
Theorem fetchFileContent_github_failure (w : Browser) (p baseUrl : string) :
  fst (getBaseUrl w) = Return baseUrl ->
  primaryRejected (network (primaryUrl baseUrl p)) ->
  (forall r2,
      network (githubUrl p) = Resolved r2 -> ok r2 = false ->
      fst (fetchFileContent p w)
      = Throw ("Failed to fetch " +:+ p +:+ " from GitHub: "
               +:+ statusText r2))
  /\ (forall e,
        network (githubUrl p) = NetworkError e ->
        fst (fetchFileContent p w) = Throw e)
  /\ (forall r2 e,
        network (githubUrl p) = Resolved r2 -> ok r2 = true ->
        text r2 = inl e ->
        fst (fetchFileContent p w) = Throw e).
Proof.
  intros Hb Hp.
  assert (fst (fetchFileContent p w)
          = fallbackOutcome p (network (githubUrl p))) as ->.
  { rewrite fetchFileContent_outcome, Hb.
    pose proof (primaryRejected_outcome _ Hp) as Hd.
    destruct (directOutcome _) as [e|[c|]]; [done|by destruct (Hd c)|done]. }
  unfold fallbackOutcome. split; [|split].
  - intros r2 -> Hok. by rewrite Hok.
  - by intros e ->.
  - intros r2 e -> Hok Ht. by rewrite Hok, Ht.
Qed.

(** X3. The fallback is silent on a status: a primary answer outside 2xx
    leads to the GitHub request without a console line, while a rejected
    primary fetch leaves exactly one warning that carries its error. *)
Theorem fetchFileContent_warning (w : Browser) (p baseUrl : string) :
  fst (getBaseUrl w) = Return baseUrl ->
  (forall r,
      network (primaryUrl baseUrl p) = Resolved r -> ok r = false ->
      console (snd (fetchFileContent p w)) = console w
      /\ requests (snd (fetchFileContent p w))
         = requests w ++ [primaryUrl baseUrl p; githubUrl p])
  /\ (forall e,
        network (primaryUrl baseUrl p) = NetworkError e ->
        console (snd (fetchFileContent p w))
        = console w
          ++ [Warn ("Failed to fetch " +:+ p
                    +:+ " directly, trying GitHub raw URL:") e]
        /\ requests (snd (fetchFileContent p w))
           = requests w ++ [primaryUrl baseUrl p; githubUrl p]).
Proof.
  intros Hb. split.
  - intros r Hn Hok. rewrite fetchFileContent_state, Hb.
    unfold directOutcome. rewrite Hn, Hok. cbn.
    by rewrite <- app_assoc.
  - intros e Hn. rewrite fetchFileContent_state, Hb.
    unfold directOutcome. rewrite Hn. cbn.
    by rewrite <- app_assoc.
Qed.

(** X4. [getBaseUrl] throws exactly when no base path is injected and the
    page has a base tag with a non-empty href that [new URL] rejects; an
    injected [window.siteBaseurl] shields the script from such a tag. *)
Theorem getBaseUrl_throws_iff (w : Browser) :
  (exists e, fst (getBaseUrl w) = Throw e)
  <-> siteBaseurl w = None
      /\ exists href, baseHref w = Some href /\ href <> ""
                      /\ urlPathname href = None.
Proof.
  unfold getBaseUrl, bind, gets, ret, throw. cbn.
  destruct (siteBaseurl w) as [v|].
  { split; [by intros [e He]|by intros [? _]]. }
  destruct (baseHref w) as [[|c href]|]; cbn.
  - split.
    + intros [e He]. by destruct (includes _ _).
    + intros (_ & href & [= <-] & Hne & _). done.
  - destruct (urlPathname (String c href)) eqn:E; cbn.
    + split; [by intros [e He]|].
      intros (_ & href' & [= <-] & _ & Hn). congruence.
    + split; [|eauto]. intros _. split; [done|].
      exists (String c href). by repeat split.
  - split.
    + intros [e He]. by destruct (includes _ _).
    + by intros (_ & href & ? & _).
Qed.

(* ===================================================================== *)
(** * Further properties of the two operations *)
(* ===================================================================== *)

Lemma skillNameOf_nonempty s : skillNameOf s <> "".
Proof.
  unfold skillNameOf. cbn zeta.
  destruct (2 <=? length (splitSlash s)); [|done].
  destruct (splitSlash s !! (length (splitSlash s) - 2)) as [[|c seg]|]; done.
Qed.

Lemma skillNameOf_noSlash s : noSlash (skillNameOf s) = true.
Proof.
  unfold skillNameOf. cbn zeta.
  destruct (2 <=? length (splitSlash s)); [|done].
  destruct (splitSlash s !! (length (splitSlash s) - 2)) as [seg|] eqn:E;
    [|done].
  pose proof (splitSlash_noSlash s) as Hall.
  rewrite Forall_lookup in Hall. specialize (Hall _ _ E).
  by destruct seg.
Qed.

Lemma deriveSkillPath_run w :
  deriveSkillPath w
  = (match fst (getBaseUrl w) with
     | Return b => Return (skillPathOf (pathname w) b)
     | Throw e => Throw e
     end, w).
Proof.
  unfold deriveSkillPath, bind, gets, ret.
  rewrite (getBaseUrl_run w). by destruct (fst (getBaseUrl w)).
Qed.

(** X5. [downloadSkillFile] never throws to its caller and ends in exactly
    one of two ways: the derived path resolves and its content is saved
    once, as [<name>-SKILL.md] with a name that is not empty and holds no
    slash, without an alert; or nothing is saved and the alert is shown
    once. *)
Theorem downloadSkillFile_outcome (w : Browser) :
  let w' := snd (downloadSkillFile w) in
  fst (downloadSkillFile w) = Return tt
  /\ ((exists skillPath content skillName,
          fst (deriveSkillPath w) = Return skillPath
          /\ fst (fetchFileContent skillPath w) = Return content
          /\ downloads w'
             = downloads w
               ++ [(skillName +:+ "-SKILL.md",
                    TextBlob content "text/markdown")]
          /\ skillName <> "" /\ noSlash skillName = true
          /\ alerts w' = alerts w)
      \/ (downloads w' = downloads w
          /\ alerts w'
             = alerts w
               ++ ["Failed to download SKILL.md file. Please try again."]
          /\ forall skillPath content,
               fst (deriveSkillPath w) = Return skillPath ->
               fst (fetchFileContent skillPath w) <> Return content)).
Proof.
  intros w'. subst w'. rewrite downloadSkillFile_run. cbn [fst snd].
  split; [done|].
  set (w0 := setSkillBtn (fun _ => busy) w).
  assert (ambient w0 = ambient w) as Ha by done.
  rewrite (getBaseUrl_ambient w w0 Ha), deriveSkillPath_run. cbn [fst].
  change (pathname w0) with (pathname w).
  destruct (fst (getBaseUrl w)) as [b|e].
  - cbn zeta. set (sp := skillPathOf (pathname w) b).
    pose proof (resolve_ambient w w0 sp Ha) as Hres. unfold resolve in Hres.
    pose proof (keeps_fetchFileContent sp w0) as Hk.
    apply besidesLogs_inv in Hk as [Hk _].
    apply besidesArchive_inv in Hk as (_ & _ & _ & _ & Hal & Hdl).
    destruct (fetchFileContent sp w0) as [[c|e] w1]; cbn [fst snd] in *.
    + left. exists sp, c, (skillNameOf sp).
      split; [done|]. split; [done|]. cbn. rewrite Hal, Hdl.
      split; [done|]. split; [apply skillNameOf_nonempty|].
      split; [apply skillNameOf_noSlash|done].
    + right. unfold failSkill. cbn. rewrite Hal, Hdl.
      split; [done|]. split; [done|].
      intros sp' c [= <-]. congruence.
  - right. unfold failSkill. cbn. split; [done|]. split; [done|].
    intros sp c [=].
Qed.

(** The archive keeps its [skills] folder whatever is stored in it. *)
Lemma addFolders_lookup_Some chain (files : gmap string ZipObject) k v :
  files !! k = Some v -> JSZip.addFolders chain files !! k = Some v.
Proof.
  intros Hk. induction chain as [|d up IH]; [done|]. simpl.
  destruct (files !! JSZip.forceTrailingSlash d) eqn:E; [done|].
  rewrite lookup_insert_ne; [done|]. intros <-. congruence.
Qed.

Lemma folderFiles_lookup_Some r arg (files : gmap string ZipObject) k v :
  files !! k = Some v -> folderFiles r arg files !! k = Some v.
Proof.
  intros Hk. unfold folderFiles, JSZip.folderAdd.
  destruct arg as [a|]; [|done]. destruct (truthy a); [|done].
  by apply addFolders_lookup_Some.
Qed.

Lemma place_keeps_folder r p content (files : gmap string ZipObject) k :
  endsWithSlash k = true ->
  files !! k = Some ZDir -> place r p content files !! k = Some ZDir.
Proof.
  intros Hslash Hk. unfold place, JSZip.fileAdd. cbn zeta.
  rewrite lookup_insert_ne.
  - by apply addFolders_lookup_Some, folderFiles_lookup_Some,
      folderFiles_lookup_Some.
  - intros <-. rewrite endsWithSlash_app in Hslash by done. done.
Qed.

Lemma assemble_keeps_folder w r l k : forall files : gmap string ZipObject,
  endsWithSlash k = true ->
  files !! k = Some ZDir -> assemble w r l files !! k = Some ZDir.
Proof.
  unfold assemble. induction l as [|s l IH]; intros files Hs Hk; [done|].
  simpl. apply IH; [done|].
  destruct (resolve w (path s)); [by apply place_keeps_folder|done].
Qed.

(** What a saved archive tells about the run. *)
Lemma saved_archive_inv catalog choices w files :
  downloads (snd (downloadAllSkillsOf catalog choices w))
  = downloads w ++ [("awesome-econ-ai-skills.zip", ZipBlob files)] ->
  files = zipFiles (afterCallbacks catalog choices w)
  /\ JSZipLoaded w = true
  /\ (exists b, fst (getBaseUrl w) = Return b)
  /\ generateError files = None.
Proof.
  intros Hsaved. rewrite downloadAllSkillsOf_run in Hsaved.
  cbn [snd] in Hsaved.
  set (w0 := setAllBtn (fun _ => busy) w) in Hsaved.
  assert (ambient w0 = ambient w) as Ha by done.
  rewrite (getBaseUrl_ambient w w0 Ha) in Hsaved.
  change (JSZipLoaded w0) with (JSZipLoaded w) in Hsaved.
  destruct (afterCallbacks_user catalog choices w) as [Hal Hdl].
  destruct (fst (getBaseUrl w)) as [b|e].
  - destruct (JSZipLoaded w).
    + cbn zeta in Hsaved.
      destruct (generateError (zipFiles (afterCallbacks catalog choices w)))
        eqn:Eg.
      * cbn in Hsaved. rewrite Hdl in Hsaved. symmetry in Hsaved.
        by apply snoc_neq in Hsaved.
      * cbn in Hsaved. rewrite Hdl in Hsaved.
        apply app_inv_head in Hsaved. injection Hsaved as <-. eauto.
    + cbn in Hsaved. symmetry in Hsaved. by apply snoc_neq in Hsaved.
  - cbn in Hsaved. symmetry in Hsaved. by apply snoc_neq in Hsaved.
Qed.

(** X6. [downloadAllSkills] never throws to its caller and ends in exactly
    one of two ways: one archive is saved under the fixed name, holding at
    least the top-level [skills] folder, without an alert; or nothing is
    saved and the alert is shown once. *)
Theorem downloadAllSkills_outcome (catalog : list Skill) (choices : list nat)
    (w : Browser) :
  let w' := snd (downloadAllSkillsOf catalog choices w) in
  fst (downloadAllSkillsOf catalog choices w) = Return tt
  /\ ((exists files,
          downloads w'
          = downloads w ++ [("awesome-econ-ai-skills.zip", ZipBlob files)]
          /\ files !! "skills/" = Some ZDir
          /\ alerts w' = alerts w)
      \/ (downloads w' = downloads w
          /\ alerts w'
             = alerts w ++ ["Failed to download skills. Please try again."])).
Proof.
  intros w'. subst w'. rewrite downloadAllSkillsOf_run. cbn [fst snd].
  split; [done|].
  destruct (afterCallbacks_user catalog choices w) as [Hal Hdl].
  set (w0 := setAllBtn (fun _ => busy) w).
  destruct (fst (getBaseUrl w0)) as [b|e]; [|by right].
  destruct (JSZipLoaded w0); [|by right].
  cbn zeta.
  destruct (generateError (zipFiles (afterCallbacks catalog choices w))).
  - right. unfold failAll. cbn. by rewrite Hal, Hdl.
  - left. exists (zipFiles (afterCallbacks catalog choices w)).
    cbn. rewrite Hal, Hdl. split; [done|]. split; [|done].
    rewrite afterCallbacks_zipFiles.
    apply assemble_keeps_folder; [done|]. apply lookup_singleton_eq.
Qed.

(** X7. Without JSZip the bulk download stops before any network
    traffic: no request is issued, nothing is saved, and the alert is
    shown. *)
Theorem downloadAllSkills_without_JSZip (catalog : list Skill)
    (choices : list nat) (w : Browser) :
  JSZipLoaded w = false ->
  let w' := snd (downloadAllSkillsOf catalog choices w) in
  requests w' = requests w
  /\ downloads w' = downloads w
  /\ zipFiles w' = zipFiles w
  /\ alerts w' = alerts w ++ ["Failed to download skills. Please try again."].
Proof.
  intros HJ w'. subst w'. rewrite downloadAllSkillsOf_run. cbn [snd].
  set (w0 := setAllBtn (fun _ => busy) w).
  change (JSZipLoaded w0) with (JSZipLoaded w). rewrite HJ.
  by destruct (fst (getBaseUrl w0)).
Qed.

(** X8. When the base-prefix detection throws, neither operation issues a
    request or saves anything: each logs that error, shows its alert and
    nothing more. *)
Theorem operations_without_base (catalog : list Skill) (choices : list nat)
    (w : Browser) (e : Error) :
  fst (getBaseUrl w) = Throw e ->
  let a := snd (downloadAllSkillsOf catalog choices w) in
  let s := snd (downloadSkillFile w) in
  (requests a = requests w
   /\ downloads a = downloads w
   /\ console a = console w ++ [LogError "Error creating zip file:" e]
   /\ alerts a
      = alerts w ++ ["Failed to download skills. Please try again."])
  /\ (requests s = requests w
      /\ downloads s = downloads w
      /\ console s = console w ++ [LogError "Error downloading skill file:" e]
      /\ alerts s
         = alerts w
           ++ ["Failed to download SKILL.md file. Please try again."]).
Proof.
  intros He a s.
  assert (a = failAll e (setAllBtn (fun _ => busy) w)) as ->.
  { subst a. rewrite downloadAllSkillsOf_run. cbn [snd].
    set (w0 := setAllBtn (fun _ => busy) w).
    assert (ambient w0 = ambient w) as Ha by done.
    by rewrite (getBaseUrl_ambient w w0 Ha), He. }
  assert (s = failSkill e (setSkillBtn (fun _ => busy) w)) as ->.
  { subst s. rewrite downloadSkillFile_run. cbn [snd].
    set (w0 := setSkillBtn (fun _ => busy) w).
    assert (ambient w0 = ambient w) as Ha by done.
    by rewrite (getBaseUrl_ambient w w0 Ha), He. }
  by repeat split.
Qed.

(* ===================================================================== *)
(** * Further properties of the path derivation *)
(* ===================================================================== *)

Lemma splitSlash_single seg : noSlash seg = true -> splitSlash seg = [seg].
Proof.
  induction seg as [|c seg IH]; [done|]. simpl.
  intros [Hc Hs]%andb_true_iff. apply negb_true_iff in Hc. rewrite Hc.
  by rewrite IH.
Qed.

Lemma splitSlash_app seg rest :
  noSlash seg = true ->
  splitSlash (seg +:+ "/" +:+ rest) = seg :: splitSlash rest.
Proof.
  induction seg as [|c seg IH]; [done|]. rewrite append_cons. simpl.
  intros [Hc Hs]%andb_true_iff. apply negb_true_iff in Hc. rewrite Hc.
  by rewrite IH.
Qed.

Lemma skillPathOf_under_skills baseUrl rest :
  endsWithSlash ("/skills/" +:+ rest) = false ->
  skillPathOf (baseUrl +:+ "/skills/" +:+ rest) baseUrl
  = "_skills/" +:+ rest +:+ "/SKILL.md"
  /\ skillPathOf (baseUrl +:+ "/skills/" +:+ rest +:+ "/") baseUrl
     = "_skills/" +:+ rest +:+ "/SKILL.md".
Proof.
  intros Hends. unfold skillPathOf.
  assert (forall s,
            (if truthy baseUrl && startsWith (baseUrl +:+ s) baseUrl
             then substringFrom (String.length baseUrl) (baseUrl +:+ s)
             else baseUrl +:+ s) = s) as Hstrip.
  { intros s. rewrite startsWith_app, substringFrom_app, andb_true_r.
    by destruct baseUrl. }
  assert (replaceLeadingSkills (("/skills/" +:+ rest) +:+ "/SKILL.md")
          = "_skills/" +:+ rest +:+ "/SKILL.md") as Hrew.
  { unfold replaceLeadingSkills. rewrite append_assoc, startsWith_app.
    by rewrite (substringFrom_app "/skills/"). }
  split.
  - rewrite Hstrip. by rewrite replaceTrailingSlash_id.
  - rewrite Hstrip.
    replace ("/skills/" +:+ rest +:+ "/") with (("/skills/" +:+ rest) +:+ "/")
      by apply append_assoc.
    by rewrite replaceTrailingSlash_app.
Qed.

Lemma skillNameOf_skill_path category skillName :
  noSlash category = true -> noSlash skillName = true -> skillName <> "" ->
  skillNameOf ("_skills/" +:+ category +:+ "/" +:+ skillName +:+ "/SKILL.md")
  = skillName.
Proof.
  intros Hc Hn Hne. unfold skillNameOf.
  change ("_skills/" +:+ category +:+ "/" +:+ skillName +:+ "/SKILL.md")
    with ("_skills" +:+ "/" +:+ category +:+ "/" +:+ skillName +:+ "/"
          +:+ "SKILL.md").
  rewrite (splitSlash_app "_skills") by done.
  rewrite (splitSlash_app category) by done.
  rewrite (splitSlash_app skillName) by done.
  rewrite (splitSlash_single "SKILL.md") by done.
  cbn. by destruct skillName.
Qed.

(** X9. On a skill page [<base>/skills/<category>/<name>], with or without
    a trailing slash, the single-file download asks first for
    [<base>/_skills/<category>/<name>/SKILL.md], and when the resolver
    returns a content it saves it as [<name>-SKILL.md]. *)
Theorem downloadSkillFile_on_skill_page (w : Browser)
    (baseUrl category skillName : string) :
  fst (getBaseUrl w) = Return baseUrl ->
  noSlash category = true ->
  noSlash skillName = true ->
  skillName <> "" ->
  pathname w = baseUrl +:+ "/skills/" +:+ category +:+ "/" +:+ skillName
  \/ pathname w
     = baseUrl +:+ "/skills/" +:+ category +:+ "/" +:+ skillName +:+ "/" ->
  let target := "_skills/" +:+ category +:+ "/" +:+ skillName +:+ "/SKILL.md" in
  let w' := snd (downloadSkillFile w) in
  fst (deriveSkillPath w) = Return target
  /\ (exists more,
        requests w' = requests w ++ (baseUrl +:+ "/" +:+ target) :: more)
  /\ (forall content,
        fst (fetchFileContent target w) = Return content ->
        downloads w'
        = downloads w
          ++ [(skillName +:+ "-SKILL.md", TextBlob content "text/markdown")]
        /\ alerts w' = alerts w).
Proof.
  intros Hb Hc Hn Hne Hpath target w'.
  assert (skillPathOf (pathname w) baseUrl = target) as Hsp.
  { assert (endsWithSlash ("/skills/" +:+ category +:+ "/" +:+ skillName)
            = false) as Hends.
    { replace ("/skills/" +:+ category +:+ "/" +:+ skillName)
        with (("/skills/" +:+ category +:+ "/") +:+ skillName)
        by (by rewrite !append_assoc).
      rewrite endsWithSlash_app by done. by apply endsWithSlash_noSlash. }
    destruct (skillPathOf_under_skills baseUrl
                (category +:+ "/" +:+ skillName) Hends) as [H1 H2].
    subst target.
    destruct Hpath as [-> | ->].
    - rewrite H1. by rewrite !append_assoc.
    - replace (baseUrl +:+ "/skills/" +:+ category +:+ "/" +:+ skillName
               +:+ "/")
        with (baseUrl +:+ "/skills/" +:+ (category +:+ "/" +:+ skillName)
              +:+ "/") by (by rewrite !append_assoc).
      rewrite H2. by rewrite !append_assoc. }
  split; [by rewrite deriveSkillPath_run, Hb, Hsp|].
  subst w'. rewrite downloadSkillFile_run. cbn [snd].
  set (w0 := setSkillBtn (fun _ => busy) w).
  assert (ambient w0 = ambient w) as Ha by done.
  rewrite (getBaseUrl_ambient w w0 Ha), Hb.
  change (pathname w0) with (pathname w). rewrite Hsp. cbn zeta.
  pose proof (resolve_ambient w w0 target Ha) as Hres. unfold resolve in Hres.
  pose proof (fetchFileContent_state target w0) as Hst.
  rewrite (getBaseUrl_ambient w w0 Ha), Hb in Hst.
  pose proof (keeps_fetchFileContent target w0) as Hk.
  apply besidesLogs_inv in Hk as [Hk _].
  apply besidesArchive_inv in Hk as (_ & _ & _ & _ & Hal & Hdl).
  assert (exists more,
            requests (snd (fetchFileContent target w0))
            = requests w ++ (baseUrl +:+ "/" +:+ target) :: more) as Hreq.
  { rewrite Hst. unfold primaryUrl.
    destruct (directOutcome _) as [?|[?|]]; cbn;
      rewrite <- ?app_assoc; eauto. }
  destruct (fetchFileContent target w0) as [[c|e] w1]; cbn [fst snd] in *.
  - split; [by cbn|]. intros content Hcontent.
    assert (c = content) as -> by congruence.
    cbn. rewrite Hal, Hdl. split; [|done].
    pose proof (skillNameOf_skill_path category skillName Hc Hn Hne) as Hname.
    fold target in Hname. by rewrite Hname.
  - split; [by cbn|]. intros content Hcontent. congruence.
Qed.

(** X10. Whatever the page path and the base prefix, the derived path
    ends in ["/SKILL.md"] and does not start with ["/skills/"]. *)
Theorem skillPathOf_shape (currentPath baseUrl : string) :
  (exists stem, skillPathOf currentPath baseUrl = stem +:+ "/SKILL.md")
  /\ startsWith (skillPathOf currentPath baseUrl) "/skills/" = false.
Proof.
  unfold skillPathOf.
  match goal with
  | |- context [replaceTrailingSlash ?y] =>
      generalize (replaceTrailingSlash y)
  end.
  intros x. unfold replaceLeadingSkills.
  destruct (startsWith (x +:+ "/SKILL.md") "/skills/") eqn:E.
  - split; [|done].
    apply startsWith_split in E. cbn [String.length] in E.
    set (rest := substringFrom 8 (x +:+ "/SKILL.md")) in *. clearbody rest.
    do 8 (destruct x as [|? x];
          [cbv beta iota fix delta [String.append] in E;
           first [discriminate E
                 | injection E as <-; by exists "_skills"]
          |rewrite append_cons in E;
           cbv beta iota fix delta [String.append] in E;
           fold String.append in E; injection E as -> E]).
    exists ("_skills/" +:+ x). rewrite <- E. by rewrite append_assoc.
  - split; [by exists x|done].
Qed.

(* ===================================================================== *)
(** * Further properties of the archive *)
(* ===================================================================== *)

Lemma downloadAllSkillsOf_zipFiles catalog choices w :
  zipFiles (snd (downloadAllSkillsOf catalog choices w))
  = match fst (getBaseUrl w) with
    | Return _ =>
        if JSZipLoaded w then zipFiles (afterCallbacks catalog choices w)
        else zipFiles w
    | Throw _ => zipFiles w
    end.
Proof.
  rewrite downloadAllSkillsOf_run. cbn [snd].
  set (w0 := setAllBtn (fun _ => busy) w).
  assert (ambient w0 = ambient w) as Ha by done.
  rewrite (getBaseUrl_ambient w w0 Ha).
  change (JSZipLoaded w0) with (JSZipLoaded w).
  destruct (fst (getBaseUrl w)); [|done].
  destruct (JSZipLoaded w); [|done].
  cbn zeta. by destruct (generateError _).
Qed.

(** X11. The files of the archive do not depend on the order in which the
    per-entry fetches settle, when the archive paths of the catalog are
    pairwise distinct. *)
Theorem archive_files_order_independent (catalog : list Skill)
    (choices1 choices2 : list nat) (w : Browser) :
  NoDup (targets catalog) ->
  zfiles (zipFiles (snd (downloadAllSkillsOf catalog choices1 w)))
  = zfiles (zipFiles (snd (downloadAllSkillsOf catalog choices2 w))).
Proof.
  intros Hnd. rewrite !downloadAllSkillsOf_zipFiles.
  destruct (fst (getBaseUrl w)); [|done].
  destruct (JSZipLoaded w); [|done].
  rewrite !afterCallbacks_zipFiles, !zfiles_assemble, zfiles_skillsFolder.
  pose proof (settleOrder_Permutation choices1 catalog) as H1.
  pose proof (settleOrder_Permutation choices2 catalog) as H2.
  apply store_Permutation.
  - unfold targets in Hnd. by rewrite H1.
  - by rewrite H1, H2.
Qed.

(** X12. A saved archive holds nothing but resolved catalog entries: each
    of its files is named [SKILL.md], sits where the callback of some
    catalog entry stores its content, and holds the content that the
    resolver returned for that entry. *)
Theorem saved_archive_sound (catalog : list Skill) (choices : list nat)
    (w : Browser) (files : gmap string ZipObject) (k content : string) :
  downloads (snd (downloadAllSkillsOf catalog choices w))
  = downloads w ++ [("awesome-econ-ai-skills.zip", ZipBlob files)] ->
  files !! k = Some (ZFile content) ->
  exists skill folder,
    skill ∈ catalog
    /\ fst (fetchFileContent (path skill) w) = Return content
    /\ k = archivePath "skills/" (path skill)
    /\ k = folder +:+ "SKILL.md".
Proof.
  intros Hsaved Hk.
  apply saved_archive_inv in Hsaved as (-> & _ & _ & _).
  apply zfiles_lookup in Hk.
  rewrite afterCallbacks_zipFiles, zfiles_assemble, zfiles_skillsFolder in Hk.
  apply store_lookup_inv in Hk as [Hk|(s & Hin & <- & Hres)].
  { by rewrite lookup_empty in Hk. }
  exists s. eexists. split; [|split; [exact Hres|split; [done|]]].
  - by rewrite <- (settleOrder_Permutation choices catalog).
  - reflexivity.
Qed.

(** X13. In a saved archive over a catalog with pairwise distinct archive
    paths, every entry is accounted for: the files of the archive and the
    failed entries add up to the catalog, whatever the number of failures,
    and the console has gained one error line per failed entry. *)
Theorem saved_archive_complete (catalog : list Skill) (choices : list nat)
    (w : Browser) (files : gmap string ZipObject) :
  NoDup (targets catalog) ->
  downloads (snd (downloadAllSkillsOf catalog choices w))
  = downloads w ++ [("awesome-econ-ai-skills.zip", ZipBlob files)] ->
  size (zfiles files) + failures w catalog = length catalog
  /\ errorLines (console (snd (downloadAllSkillsOf catalog choices w)))
     = errorLines (console w) + failures w catalog.
Proof.
  intros Hnd Hsaved.
  apply saved_archive_inv in Hsaved as (-> & HJ & [b Hb] & Hgen).
  rewrite afterCallbacks_size by done.
  assert (failures w catalog <= length catalog) as Hle
    by apply length_filter.
  split; [lia|].
  rewrite (downloadAllSkillsOf_final catalog choices w b Hb HJ).
  cbn zeta. rewrite Hgen. cbn. apply afterCallbacks_errorLines.
Qed.

Lemma archivePath_layout (dir category skillName file : string) :
  noSlash dir = true ->
  noSlash category = true ->
  noSlash skillName = true ->
  category <> "" ->
  skillName <> "" ->
  archivePath "skills/"
    (dir +:+ "/" +:+ category +:+ "/" +:+ skillName +:+ "/" +:+ file)
  = "skills/" +:+ category +:+ "/" +:+ skillName +:+ "/SKILL.md".
Proof.
  intros Hd Hc Hn Hce Hne.
  apply archivePath_segments; [| |done|done].
  - by rewrite (splitSlash_app dir), (splitSlash_app category).
  - by rewrite (splitSlash_app dir), (splitSlash_app category),
      (splitSlash_app skillName).
Qed.

Lemma endsWithSlash_forceTrailingSlash x :
  endsWithSlash (JSZip.forceTrailingSlash x) = true.
Proof.
  unfold JSZip.forceTrailingSlash.
  destruct (endsWithSlash x) eqn:E; [done|].
  apply endsWithSlash_iff. eauto.
Qed.

Lemma folderAdd_lookup name (files : gmap string ZipObject) :
  JSZip.folderAdd name files !! JSZip.forceTrailingSlash name
  = Some (default ZDir (files !! JSZip.forceTrailingSlash name)).
Proof.
  unfold JSZip.folderAdd. simpl.
  destruct (files !! JSZip.forceTrailingSlash name) eqn:E; [done|].
  apply lookup_insert_eq.
Qed.

Lemma folderAdd_lookup_Some name (files : gmap string ZipObject) k v :
  files !! k = Some v -> JSZip.folderAdd name files !! k = Some v.
Proof. apply addFolders_lookup_Some. Qed.

Lemma fileAdd_lookup_ne name data (files : gmap string ZipObject) k v :
  k <> name -> files !! k = Some v ->
  JSZip.fileAdd name data files !! k = Some v.
Proof.
  intros Hne Hk. unfold JSZip.fileAdd.
  rewrite lookup_insert_ne by done. by apply addFolders_lookup_Some.
Qed.

Lemma place_segments r dir category skillName file content
    (files : gmap string ZipObject) :
  noSlash dir = true ->
  noSlash category = true ->
  noSlash skillName = true ->
  category <> "" ->
  skillName <> "" ->
  place r (dir +:+ "/" +:+ category +:+ "/" +:+ skillName +:+ "/" +:+ file)
    content files
  = JSZip.fileAdd (r +:+ category +:+ "/" +:+ skillName +:+ "/SKILL.md") content
      (JSZip.folderAdd ((r +:+ category +:+ "/") +:+ skillName)
         (JSZip.folderAdd (r +:+ category) files)).
Proof.
  intros Hd Hc Hn Hce Hne. unfold place. cbn zeta.
  rewrite (splitSlash_app dir), (splitSlash_app category),
    (splitSlash_app skillName) by done.
  cbn [lookup list_lookup]. unfold folderRoot, folderFiles.
  destruct category as [|a category]; [done|].
  destruct skillName as [|b skillName]; [done|].
  cbn [truthy].
  rewrite (forceTrailingSlash_segment r) by done.
  rewrite (forceTrailingSlash_segment _ (String b skillName)) by done.
  f_equal. by rewrite !append_assoc.
Qed.

(** X14. The callback of an entry [<dir>/<category>/<name>/<file>] whose
    content resolves stores that content as
    [skills/<category>/<name>/SKILL.md], whatever the first segment and
    the file name, makes sure both folders are entered, and leaves every
    other entry of the archive as it was. *)
Theorem skillCallback_stores (w : Browser) (skill : Skill)
    (dir category skillName file content : string) :
  path skill
  = dir +:+ "/" +:+ category +:+ "/" +:+ skillName +:+ "/" +:+ file ->
  noSlash dir = true ->
  noSlash category = true ->
  noSlash skillName = true ->
  category <> "" ->
  skillName <> "" ->
  fst (fetchFileContent (path skill) w) = Return content ->
  let w' := snd (skillCallback (JSZip.mkHandle "skills/") skill w) in
  let folder1 := "skills/" +:+ category +:+ "/" in
  let folder2 := "skills/" +:+ category +:+ "/" +:+ skillName +:+ "/" in
  let target := "skills/" +:+ category +:+ "/" +:+ skillName +:+ "/SKILL.md" in
  zipFiles w' !! target = Some (ZFile content)
  /\ zipFiles w' !! folder1 = Some (default ZDir (zipFiles w !! folder1))
  /\ zipFiles w' !! folder2 = Some (default ZDir (zipFiles w !! folder2))
  /\ (forall k v,
        k <> target -> zipFiles w !! k = Some v -> zipFiles w' !! k = Some v).
Proof.
  intros Hp Hd Hc Hn Hce Hne Hres w' folder1 folder2 target.
  assert (zipFiles w'
          = JSZip.fileAdd target content
              (JSZip.folderAdd (("skills/" +:+ category +:+ "/") +:+ skillName)
                 (JSZip.folderAdd ("skills/" +:+ category) (zipFiles w))))
    as ->.
  { subst w'. rewrite skillCallback_zipFiles. unfold resolve.
    rewrite Hres, Hp. by apply place_segments. }
  assert (JSZip.forceTrailingSlash ("skills/" +:+ category) = folder1) as H1.
  { by rewrite forceTrailingSlash_segment. }
  assert (JSZip.forceTrailingSlash
            (("skills/" +:+ category +:+ "/") +:+ skillName) = folder2) as H2.
  { rewrite forceTrailingSlash_segment by done. subst folder2.
    by rewrite !append_assoc. }
  assert (forall x, endsWithSlash (x +:+ "SKILL.md") = false) as Hfile.
  { intros x. by rewrite endsWithSlash_app. }
  assert (target = ("skills/" +:+ category +:+ "/" +:+ skillName +:+ "/")
                   +:+ "SKILL.md") as Ht.
  { subst target. by rewrite !append_assoc. }
  assert (endsWithSlash folder1 = true) as He1
    by (rewrite <- H1; apply endsWithSlash_forceTrailingSlash).
  assert (endsWithSlash folder2 = true) as He2
    by (rewrite <- H2; apply endsWithSlash_forceTrailingSlash).
  split; [|split; [|split]].
  - unfold JSZip.fileAdd. apply lookup_insert_eq.
  - apply fileAdd_lookup_ne.
    { intros Heq. rewrite Heq, Ht, Hfile in He1. done. }
    apply folderAdd_lookup_Some. rewrite <- H1. apply folderAdd_lookup.
  - apply fileAdd_lookup_ne.
    { intros Heq. rewrite Heq, Ht, Hfile in He2. done. }
    rewrite <- H2. rewrite folderAdd_lookup. f_equal.
    destruct (zipFiles w !! JSZip.forceTrailingSlash
                (("skills/" +:+ category +:+ "/") +:+ skillName))
      as [v|] eqn:E.
    + by rewrite (folderAdd_lookup_Some _ _ _ v).
    + destruct (decide (folder1 = folder2)) as [Heq|Hneq].
      * rewrite H2, <- Heq, <- H1 in *. rewrite folderAdd_lookup, E. done.
      * unfold JSZip.folderAdd at 1.
        assert (forall chain (fs : gmap string ZipObject) k,
                  fs !! k = None ->
                  JSZip.addFolders chain fs !! k = None
                  \/ JSZip.addFolders chain fs !! k = Some ZDir) as Hadd.
        { intros chain fs k Hk. induction chain as [|x up IH]; [by left|].
          simpl. destruct (fs !! JSZip.forceTrailingSlash x); [by left|].
          destruct (decide (JSZip.forceTrailingSlash x = k)) as [->|Hx].
          - right. apply lookup_insert_eq.
          - by rewrite lookup_insert_ne. }
        destruct (Hadd (("skills/" +:+ category)
                        :: JSZip.parents ("skills/" +:+ category))
                    (zipFiles w) _ E) as [-> | ->]; done.
  - intros k v Hk Hv. apply fileAdd_lookup_ne; [done|].
    by apply folderAdd_lookup_Some, folderAdd_lookup_Some.
Qed.

(** X15. The callback of an entry whose resolution fails does not reject:
    it returns normally, leaves the archive untouched and ends the console
    with the line ["Error fetching <path>:"] carrying the error. *)
Theorem skillCallback_swallows_failure (h : JSZip.Handle) (w : Browser)
    (skill : Skill) (e : Error) :
  fst (fetchFileContent (path skill) w) = Throw e ->
  fst (skillCallback h skill w) = Return tt
  /\ zipFiles (snd (skillCallback h skill w)) = zipFiles w
  /\ console (snd (skillCallback h skill w))
     = console (snd (fetchFileContent (path skill) w))
       ++ [LogError ("Error fetching " +:+ path skill +:+ ":") e].
Proof.
  intros He. split; [apply skillCallback_returns|].
  split.
  - rewrite skillCallback_zipFiles. unfold resolve. by rewrite He.
  - rewrite skillCallback_run.
    destruct (fetchFileContent (path skill) w) as [[c|e'] w1];
      cbn in *; congruence.
Qed.

(* ===================================================================== *)
(** * The number of requests *)
(* ===================================================================== *)

(** X22. The resolver never retries: once the base prefix is detected it
    issues the primary request and at most the GitHub request after it.
    It stops at the primary request exactly when the primary answer is
    2xx with a readable body that is not taken for HTML, and it goes on
    to GitHub exactly when the primary answer is anything else. *)
Theorem fetchFileContent_requests (w : Browser) (p baseUrl : string) :
  fst (getBaseUrl w) = Return baseUrl ->
  let w' := snd (fetchFileContent p w) in
  let usable :=
    exists r content,
      network (primaryUrl baseUrl p) = Resolved r /\ ok r = true
      /\ text r = inr content /\ looksLikeHtml content = false in
  (requests w' = requests w ++ [primaryUrl baseUrl p]
   \/ requests w' = requests w ++ [primaryUrl baseUrl p; githubUrl p])
  /\ (requests w' = requests w ++ [primaryUrl baseUrl p] <-> usable)
  /\ (requests w' = requests w ++ [primaryUrl baseUrl p; githubUrl p]
      <-> ~ usable).
Proof.
  intros Hb w' usable. subst w'.
  rewrite fetchFileContent_state, Hb.
  assert (forall l : list string,
             l ++ [primaryUrl baseUrl p]
             <> l ++ [primaryUrl baseUrl p; githubUrl p]) as Hneq.
  { intros l H. apply app_inv_head in H. discriminate H. }
  assert ((usable
           /\ exists c, directOutcome (network (primaryUrl baseUrl p))
                        = inr (Some c))
          \/ (~ usable
              /\ forall c, directOutcome (network (primaryUrl baseUrl p))
                           <> inr (Some c))) as Hcases.
  { unfold usable, directOutcome.
    destruct (network (primaryUrl baseUrl p)) as [e|r] eqn:En.
    { right. split; [|done]. by intros (r & c & [=] & _). }
    destruct (ok r) eqn:Eok.
    - destruct (text r) as [e|c] eqn:Et.
      { right. split; [|done]. intros (r' & c & [= <-] & _ & Ht & _).
        congruence. }
      destruct (looksLikeHtml c) eqn:El.
      + right. split; [|done]. intros (r' & c' & [= <-] & _ & Ht & Hl).
        congruence.
      + left. split; [by exists r, c|by exists c].
    - right. split; [|done]. intros (r' & c & [= <-] & Hok & _).
      congruence. }
  destruct Hcases as [[Hu [c Hd]]|[Hu Hd]].
  - rewrite Hd. cbn. split; [by left|]. split; [done|].
    split; [|done]. intros H. by apply Hneq in H.
  - destruct (directOutcome (network (primaryUrl baseUrl p)))
      as [e|[c|]] eqn:Ed; [|by destruct (Hd c)|]; cbn;
      rewrite <- app_assoc; cbn.
    + split; [by right|]. split; [|done].
      split; [|done]. intros H. symmetry in H. by apply Hneq in H.
    + split; [by right|]. split; [|done].
      split; [|done]. intros H. symmetry in H. by apply Hneq in H.
Qed.

Lemma skillCallback_requests h skill w b :
  fst (getBaseUrl w) = Return b ->
  length (requests w) + 1 <= length (requests (snd (skillCallback h skill w)))
  /\ length (requests (snd (skillCallback h skill w)))
     <= length (requests w) + 2.
Proof.
  intros Hb. rewrite skillCallback_run.
  pose proof (fetchFileContent_state (path skill) w) as Hst.
  rewrite Hb in Hst.
  assert (length (requests w) + 1
          <= length (requests (snd (fetchFileContent (path skill) w)))
          /\ length (requests (snd (fetchFileContent (path skill) w)))
             <= length (requests w) + 2) as Hlen.
  { rewrite Hst. destruct (directOutcome _) as [?|[?|]]; cbn;
      rewrite ?length_app; cbn; lia. }
  by destruct (fetchFileContent (path skill) w) as [[c|e] w1].
Qed.

Lemma forEach_skillCallback_requests h l b : forall w,
  fst (getBaseUrl w) = Return b ->
  length (requests w) + length l
  <= length (requests (snd (forEach (skillCallback h) l w)))
  /\ length (requests (snd (forEach (skillCallback h) l w)))
     <= length (requests w) + 2 * length l.
Proof.
  induction l as [|s l IH]; intros w Hb; [simpl; lia|].
  simpl forEach. unfold bind.
  pose proof (skillCallback_returns h s w) as Hr.
  pose proof (skillCallback_requests h s w b Hb) as Hlen.
  pose proof (skillCallback_keeps h s w) as Hk.
  apply besidesArchive_inv in Hk as (Ha & _).
  destruct (skillCallback h s w) as [[[]|e] w1]; [|done].
  cbn [fst snd] in *.
  assert (fst (getBaseUrl w1) = Return b) as Hb1
    by (by rewrite (getBaseUrl_ambient w w1 Ha)).
  specialize (IH w1 Hb1). simpl length. lia.
Qed.

(** X23. A bulk download that gets to fetching issues at least one and at
    most two requests per catalog entry. *)
Theorem downloadAllSkills_requests (catalog : list Skill) (choices : list nat)
    (w : Browser) (baseUrl : string) :
  fst (getBaseUrl w) = Return baseUrl ->
  JSZipLoaded w = true ->
  let w' := snd (downloadAllSkillsOf catalog choices w) in
  length (requests w) + length catalog <= length (requests w')
  /\ length (requests w') <= length (requests w) + 2 * length catalog.
Proof.
  intros Hb HJ w'. subst w'.
  rewrite (downloadAllSkillsOf_final catalog choices w baseUrl Hb HJ).
  cbn zeta.
  assert (requests (match generateError
                            (zipFiles (afterCallbacks catalog choices w)) with
                    | Some e => failAll e (afterCallbacks catalog choices w)
                    | None =>
                        setAllBtn (fun _ => idleAll)
                          (addDownload
                             (fst (savedZip (afterCallbacks catalog choices w)))
                             (snd (savedZip (afterCallbacks catalog choices w)))
                             (afterCallbacks catalog choices w))
                    end)
          = requests (afterCallbacks catalog choices w)) as ->
    by (by destruct (generateError _)).
  unfold afterCallbacks.
  set (w0 := setZipFiles _ _).
  assert (ambient w0 = ambient w) as Ha by done.
  assert (fst (getBaseUrl w0) = Return baseUrl) as Hb0
    by (by rewrite (getBaseUrl_ambient w w0 Ha)).
  pose proof (forEach_skillCallback_requests (JSZip.mkHandle "skills/")
                (settleOrder choices catalog) baseUrl w0 Hb0) as Hlen.
  rewrite (Permutation_length (settleOrder_Permutation choices catalog))
    in Hlen.
  exact Hlen.
Qed.

End Download.

(* ===================================================================== *)
(** * The resolver and its secondary source *)
(* ===================================================================== *)

(** C10. The content check is applied to the body of the primary fetch
    only: whenever the primary attempt yields nothing and the GitHub raw
    URL answers 2xx with a readable body, that body is the result as it
    is; so there are inputs for which the result of the resolver begins
    with ["<!DOCTYPE"] or ["<html"]. *)
Theorem secondary_body_unvalidated :
  (forall network urlPathname w p b r2 c2,
      fst (getBaseUrl urlPathname w) = Return b ->
      primaryRejected (network (primaryUrl b p)) ->
      network (githubUrl p) = Resolved r2 ->
      ok r2 = true ->
      text r2 = inr c2 ->
      fst (fetchFileContent network urlPathname p w) = Return c2)
  /\ (exists network urlPathname w p c,
        fst (fetchFileContent network urlPathname p w) = Return c
        /\ (startsWith c "<!DOCTYPE" = true \/ startsWith c "<html" = true)).
Proof.
  split.
  - intros network urlPathname w p b r2 c2 Hb Hp Hn Hok Ht.
    rewrite fetchFileContent_outcome, Hb.
    pose proof (primaryRejected_outcome _ Hp) as Hd.
    destruct (directOutcome _) as [e|[c|]];
      [|by destruct (Hd c)|]; unfold fallbackOutcome;
      by rewrite Hn, Hok, Ht.
  - exists Demo.captive, Demo.urlPathname, Demo.page,
      "_skills/writing/latex-tables/SKILL.md",
      "<!DOCTYPE html><title>Sign in</title>".
    split; [reflexivity|left; reflexivity].
Qed.

(* ===================================================================== *)
(** * The properties on concrete pages *)
(* ===================================================================== *)

(** The scenario of two entries, in both orders of settlement. *)
Example two_entries_archive :
  forall choices, choices = [0] \/ choices = [1] ->
  let w' := snd (downloadAllSkillsOf Demo.twoEntriesNetwork Demo.urlPathname
                   Demo.generates Demo.twoEntries choices Demo.page) in
  zfiles (zipFiles w')
  = {[ "skills/data/x/SKILL.md" := "A"; "skills/data/y/SKILL.md" := "B" ]}
  /\ downloads w' = [("awesome-econ-ai-skills.zip", ZipBlob (zipFiles w'))]
  /\ alerts w' = [].
Proof.
  intros choices [-> | ->]; vm_compute; repeat split; reflexivity.
Qed.

Lemma fetchFileContent_fallback_witness :
  requests
    (snd (fetchFileContent Demo.network Demo.urlPathname
            "_skills/writing/latex-tables/SKILL.md" Demo.page))
  = [ "/awesome-econ-ai-stuff/_skills/writing/latex-tables/SKILL.md";
      "https://raw.githubusercontent.com/meleantonio/awesome-econ-ai-stuff/main/_skills/writing/latex-tables/SKILL.md" ]
  /\ fst (fetchFileContent Demo.network Demo.urlPathname
            "_skills/writing/latex-tables/SKILL.md" Demo.page)
     = Return "raw copy of https://raw.githubusercontent.com/meleantonio/awesome-econ-ai-stuff/main/_skills/writing/latex-tables/SKILL.md".
Proof.
  destruct (fetchFileContent_fallback Demo.network Demo.urlPathname Demo.page
              "_skills/writing/latex-tables/SKILL.md" "/awesome-econ-ai-stuff"
              (mkResponse true "OK"
                 (inr "  <!DOCTYPE html><html><body>LaTeX tables</body></html>"))
              "  <!DOCTYPE html><html><body>LaTeX tables</body></html>")
    as (Hreq & Hsec & _);
    [reflexivity | reflexivity | reflexivity | reflexivity
    | left; reflexivity | ].
  split; [exact Hreq|].
  eapply Hsec; reflexivity.
Defined.

Lemma bulk_partial_failure_witness :
  0 < failures Demo.network Demo.urlPathname Demo.page SKILLS_LIST
    < length SKILLS_LIST
  /\ let w' := snd (downloadAllSkills Demo.network Demo.urlPathname
                      Demo.generates [3; 1; 4; 1; 5] Demo.page) in
     size (zfiles (zipFiles w')) = 11
     /\ downloads w' = [("awesome-econ-ai-skills.zip", ZipBlob (zipFiles w'))]
     /\ alerts w' = []
     /\ errorLines (console w') = 1.
Proof.
  assert (0 < failures Demo.network Demo.urlPathname Demo.page SKILLS_LIST
            < length SKILLS_LIST) as HM
    by (vm_compute; lia).
  split; [exact HM|].
  destruct (bulk_partial_failure Demo.network Demo.urlPathname Demo.generates
              [3; 1; 4; 1; 5] Demo.page eq_refl HM)
    as (_ & Hsize & Hsaved).
  destruct (Hsaved eq_refl) as (Hdl & Hal & Herr).
  split; [exact Hsize|]. split; [exact Hdl|]. split; [exact Hal|exact Herr].
Defined.

Lemma archive_layout_witness :
  let w' := snd (downloadAllSkills Demo.network Demo.urlPathname
                   Demo.generates [3; 1; 4; 1; 5] Demo.page) in
  zipFiles w' !! "skills/writing/latex-tables/SKILL.md"
  = Some (ZFile "raw copy of https://raw.githubusercontent.com/meleantonio/awesome-econ-ai-stuff/main/_skills/writing/latex-tables/SKILL.md")
  /\ downloads w' = [("awesome-econ-ai-skills.zip", ZipBlob (zipFiles w'))].
Proof.
  assert (mkSkill "_skills/writing/latex-tables/SKILL.md" "latex-tables"
            ∈ SKILLS_LIST) as Hin
    by (unfold SKILLS_LIST; repeat constructor).
  destruct (archive_layout Demo.network Demo.urlPathname Demo.generates
              [3; 1; 4; 1; 5] Demo.page
              (mkSkill "_skills/writing/latex-tables/SKILL.md" "latex-tables")
              "writing" "latex-tables"
              "raw copy of https://raw.githubusercontent.com/meleantonio/awesome-econ-ai-stuff/main/_skills/writing/latex-tables/SKILL.md"
              Hin eq_refl eq_refl eq_refl) as [_ Hbuilt].
  destruct (Hbuilt eq_refl) as [Hfile Hsaved].
  split; [exact Hfile|exact (Hsaved eq_refl)].
Defined.

Lemma downloadSkillFile_total_failure_witness :
  let w' := snd (downloadSkillFile Demo.offline Demo.urlPathname Demo.page) in
  alerts w' = ["Failed to download SKILL.md file. Please try again."]
  /\ downloads w' = [].
Proof.
  apply (downloadSkillFile_total_failure Demo.offline Demo.urlPathname
           Demo.page "/awesome-econ-ai-stuff");
    [reflexivity | left; reflexivity | reflexivity].
Defined.

Lemma getBaseUrl_priority_witness :
  getBaseUrl Demo.urlPathname Demo.page
  = (Return "/awesome-econ-ai-stuff", Demo.page)
  /\ (exists b, getBaseUrl Demo.urlPathname Demo.pageBaseTag
                = (Return b, Demo.pageBaseTag)
                /\ stripsTrailingSlash "/docs/" b)
  /\ getBaseUrl Demo.urlPathname Demo.pageLocal
     = (Return "/awesome-econ-ai-stuff", Demo.pageLocal)
  /\ getBaseUrl Demo.urlPathname Demo.pageRoot = (Return "", Demo.pageRoot).
Proof.
  split.
  { apply (proj1 (getBaseUrl_priority Demo.urlPathname Demo.page)).
    reflexivity. }
  split.
  { apply (proj1 (proj2 (getBaseUrl_priority Demo.urlPathname
                           Demo.pageBaseTag))
             "https://example.org/docs/" "/docs/");
      [reflexivity | reflexivity | discriminate | reflexivity]. }
  split.
  - apply (proj2 (proj2 (getBaseUrl_priority Demo.urlPathname Demo.pageLocal)));
      [reflexivity | left; reflexivity | ].
    exists "", "/index.html". reflexivity.
  - apply (proj2 (proj2 (getBaseUrl_priority Demo.urlPathname Demo.pageRoot)));
      [reflexivity | left; reflexivity | ].
    intros H. apply includes_iff in H. discriminate H.
Defined.

Lemma deriveSkillPath_deterministic_witness :
  deriveSkillPath Demo.urlPathname Demo.page
  = (Return "_skills/analysis/r-econometrics/SKILL.md", Demo.page)
  /\ fst (deriveSkillPath Demo.urlPathname Demo.pageNoZip)
     = fst (deriveSkillPath Demo.urlPathname Demo.page).
Proof.
  split.
  - apply (proj1 (proj2 (deriveSkillPath_deterministic Demo.urlPathname
                           Demo.page))).
    reflexivity.
  - apply (proj2 (proj2 (deriveSkillPath_deterministic Demo.urlPathname
                           Demo.page))).
    reflexivity.
Defined.

Lemma all_failed_archive_witness :
  failures Demo.offline Demo.urlPathname Demo.page SKILLS_LIST
  = length SKILLS_LIST
  /\ let w' := snd (downloadAllSkillsOf Demo.offline Demo.urlPathname
                      Demo.generates SKILLS_LIST [2; 7; 1] Demo.page) in
     zipFiles w' = {[ "skills/" := ZDir ]}
     /\ downloads w'
        = [("awesome-econ-ai-skills.zip", ZipBlob {[ "skills/" := ZDir ]})]
     /\ alerts w' = []
     /\ downloadAllBtn w' = Some (mkButton false "Download All Skills")
     /\ errorLines (console w') = 12.
Proof.
  assert (failures Demo.offline Demo.urlPathname Demo.page SKILLS_LIST
          = length SKILLS_LIST) as Hall by reflexivity.
  split; [exact Hall|].
  destruct (all_failed_archive Demo.offline Demo.urlPathname
              Demo.generates SKILLS_LIST [2; 7; 1] Demo.page
              "/awesome-econ-ai-stuff" eq_refl eq_refl Hall)
    as [Hz Hsaved].
  destruct (Hsaved eq_refl) as (Hdl & Hal & Hbtn & Herr).
  split; [exact Hz|]. split; [exact Hdl|]. split; [exact Hal|].
  split; [exact Hbtn|exact Herr].
Defined.

(** C7. On a page without [window.siteBaseurl] whose base tag has the href
    ["//"], which [new URL] rejects, [getBaseUrl] returns none of the
    four values of the claim: it throws the TypeError of the
    constructor. *)
Theorem getBaseUrl_malformed_base :
  siteBaseurl Demo.pageBadBase = None
  /\ baseHref Demo.pageBadBase = Some "//"
  /\ Demo.urlPathname "//" = None
  /\ getBaseUrl Demo.urlPathname Demo.pageBadBase
     = (Throw "TypeError: Invalid URL", Demo.pageBadBase)
  /\ forall v,
       fst (getBaseUrl Demo.urlPathname Demo.pageBadBase) <> Return v.
Proof. repeat split; try reflexivity. intros v H. discriminate H. Qed.

(** C9. On a page without [window.siteBaseurl] whose base tag has the href
    ["//"], and with JSZip loaded, [downloadAllSkills] ends on its alert
    path whatever the network answers and whatever the serializer does:
    [getBaseUrl] throws inside the [try] block, so no request is issued,
    no archive is built, nothing is saved, and the alert is shown. *)
Theorem downloadAllSkills_malformed_base (network : string -> FetchResult)
    (generateError : gmap string ZipObject -> option Error)
    (choices : list nat) :
  let w' := snd (downloadAllSkills network Demo.urlPathname generateError
                   choices Demo.pageBadBase) in
  JSZipLoaded Demo.pageBadBase = true
  /\ requests w' = []
  /\ zipFiles w' = ∅
  /\ downloads w' = []
  /\ alerts w' = ["Failed to download skills. Please try again."]
  /\ console w'
     = [LogError "Error creating zip file:" "TypeError: Invalid URL"].
Proof. repeat split; reflexivity. Qed.

Lemma secondary_body_unvalidated_witness :
  fst (fetchFileContent Demo.captive Demo.urlPathname
         "_skills/writing/latex-tables/SKILL.md" Demo.page)
  = Return "<!DOCTYPE html><title>Sign in</title>".
Proof.
  apply (proj1 secondary_body_unvalidated Demo.captive Demo.urlPathname
           Demo.page "_skills/writing/latex-tables/SKILL.md"
           "/awesome-econ-ai-stuff"
           (mkResponse true "OK" (inr "<!DOCTYPE html><title>Sign in</title>")));
    [reflexivity | | reflexivity | reflexivity | reflexivity].
  right. eexists _, _. repeat split; reflexivity.
Defined.

(* ===================================================================== *)
(** * form.js: the tags of the form *)
(* ===================================================================== *)

Lemma trimEnd_cons_nonblank c s :
  isWhiteSpace c = false -> exists t, trimEnd (String c s) = String c t.
Proof.
  intros Hc. simpl. destruct (trimEnd s); rewrite ?Hc; eauto.
Qed.

Lemma trimEnd_idem s : trimEnd (trimEnd s) = trimEnd s.
Proof.
  induction s as [|c s IH]; [done|]. simpl.
  destruct (trimEnd s) as [|d t] eqn:E.
  - destruct (isWhiteSpace c) eqn:Hc; [done|]. simpl. by rewrite Hc.
  - change (trimEnd (String c (String d t)))
      with (match trimEnd (String d t) with
            | EmptyString =>
                if isWhiteSpace c then EmptyString else String c EmptyString
            | u => String c u
            end).
    by rewrite IH.
Qed.

Lemma trimStart_head s :
  trimStart s = ""
  \/ exists c t, trimStart s = String c t /\ isWhiteSpace c = false.
Proof.
  induction s as [|c s IH]; [by left|]. simpl.
  destruct (isWhiteSpace c) eqn:Hc; [done|]. right. eauto.
Qed.

Lemma trim_idem s : trim (trim s) = trim s.
Proof.
  unfold trim. destruct (trimStart_head s) as [->|(c & t & -> & Hc)]; [done|].
  destruct (trimEnd_cons_nonblank c t Hc) as [u Hu].
  rewrite Hu. simpl trimStart. rewrite Hc, <- Hu. apply trimEnd_idem.
Qed.

Lemma noComma_trimStart s : noComma s = true -> noComma (trimStart s) = true.
Proof.
  induction s as [|c s IH]; [done|]. simpl.
  intros [Hc Hs]%andb_true_iff. destruct (isWhiteSpace c); [auto|].
  simpl. by rewrite Hc, Hs.
Qed.

Lemma noComma_trimEnd s : noComma s = true -> noComma (trimEnd s) = true.
Proof.
  induction s as [|c s IH]; [done|]. simpl.
  intros [Hc Hs]%andb_true_iff. specialize (IH Hs).
  destruct (trimEnd s) as [|d t].
  - destruct (isWhiteSpace c); [done|]. simpl. by rewrite Hc.
  - simpl in *. by rewrite Hc, IH.
Qed.

Lemma splitComma_noComma s :
  Forall (fun seg => noComma seg = true) (Form.splitComma s).
Proof.
  induction s as [|c s IH]; simpl; [by repeat constructor|].
  destruct (Ascii.eqb c ",") eqn:E; [by constructor|].
  destruct (Form.splitComma s) as [|seg rest].
  - repeat constructor. simpl. by rewrite E.
  - inversion IH as [|? ? Hseg Hrest]; subst. constructor; [|done].
    simpl. by rewrite E, Hseg.
Qed.

Lemma splitComma_single seg :
  noComma seg = true -> Form.splitComma seg = [seg].
Proof.
  induction seg as [|c seg IH]; [done|]. simpl.
  intros [Hc Hs]%andb_true_iff. apply negb_true_iff in Hc. rewrite Hc.
  by rewrite IH.
Qed.

Lemma splitComma_app seg rest :
  noComma seg = true ->
  Form.splitComma (seg +:+ "," +:+ rest) = seg :: Form.splitComma rest.
Proof.
  induction seg as [|c seg IH]; [done|]. rewrite append_cons. simpl.
  intros [Hc Hs]%andb_true_iff. apply negb_true_iff in Hc. rewrite Hc.
  by rewrite IH.
Qed.

Lemma splitComma_join ts :
  ts <> [] -> Forall (fun t => noComma t = true) ts ->
  Form.splitComma (Form.join "," ts) = ts.
Proof.
  induction ts as [|t ts IH]; [done|]. intros _ Hall.
  inversion Hall as [|? ? Ht Hts]; subst.
  destruct ts as [|t' ts]; [by apply splitComma_single|].
  change (Form.join "," (t :: t' :: ts))
    with (t +:+ "," +:+ Form.join "," (t' :: ts)).
  rewrite splitComma_app by done. f_equal. by apply IH.
Qed.

Lemma blank_trim s : blank s = true -> trim s = "".
Proof.
  unfold trim. induction s as [|c s IH]; [done|]. simpl.
  intros [Hc Hs]%andb_true_iff. rewrite Hc. by apply IH.
Qed.

Lemma splitComma_blank s :
  blankOrComma s = true ->
  Forall (fun seg => blank seg = true) (Form.splitComma s).
Proof.
  induction s as [|c s IH]; simpl; [by repeat constructor|].
  intros [Hc Hs]%andb_true_iff. specialize (IH Hs).
  destruct (Ascii.eqb c ",") eqn:E; [by constructor|].
  rewrite orb_false_r in Hc.
  destruct (Form.splitComma s) as [|seg rest].
  - repeat constructor. simpl. by rewrite Hc.
  - inversion IH as [|? ? Hseg Hrest]; subst. constructor; [|done].
    simpl. by rewrite Hc, Hseg.
Qed.

Lemma parseTags_value formData :
  Form.tags (Form.buildSkillData formData) = Form.parseTags formData.
Proof. reflexivity. Qed.

(** X16. The tags built from the form are clean: none is empty, none has
    white space at either end, none holds a comma. *)
Theorem buildSkillData_tags_clean (formData : Form.FormData) :
  Forall cleanTag (Form.tags (Form.buildSkillData formData)).
Proof.
  rewrite parseTags_value. unfold Form.parseTags.
  destruct (Form.present _); [|constructor].
  generalize (splitComma_noComma (Form.show (Form.get formData "tags"))).
  generalize (Form.splitComma (Form.show (Form.get formData "tags"))).
  intros l Hl. induction Hl as [|seg l Hseg _ IH]; [constructor|].
  simpl. destruct (truthy (trim seg)) eqn:E; [|done].
  constructor; [|done]. repeat split.
  - intros Heq. by rewrite Heq in E.
  - apply trim_idem.
  - by apply noComma_trimEnd, noComma_trimStart.
Qed.

Lemma filter_trim_clean l :
  Forall cleanTag l -> List.filter truthy (List.map trim l) = l.
Proof.
  induction 1 as [|x l (Hne & Htrim & _) _ IH]; [done|].
  cbn [List.map List.filter]. rewrite Htrim.
  destruct x as [|a x]; [done|]. cbn [truthy]. by rewrite IH.
Qed.

(** X17. Clean tags joined with commas are read back as they are. *)
Theorem buildSkillData_tags_roundtrip (formData : Form.FormData)
    (ts : list string) :
  Forall cleanTag ts ->
  Form.get formData "tags" = Some (Form.join "," ts) ->
  Form.tags (Form.buildSkillData formData) = ts.
Proof.
  intros Hall Hget. rewrite parseTags_value. unfold Form.parseTags.
  rewrite Hget. cbn [Form.present Form.show].
  destruct ts as [|t ts]; [done|].
  assert (truthy (Form.join "," (t :: ts)) = true) as ->.
  { inversion Hall as [|? ? [Hne _] _]; subst.
    destruct t; [done|]. by destruct ts. }
  rewrite splitComma_join; [|done|].
  - by apply filter_trim_clean.
  - eapply Forall_impl; [exact Hall|]. by intros x (_ & _ & ?).
Qed.

Section Document.

Variable toLowerCase : string -> string.

(** X18. A form without a tags field, or with a tags field of nothing but
    commas and white space, yields no tag, and the document generated for
    it, which exists as soon as the form has a name, lists the single tag
    [general] between its [tags:] line and the end of the front matter. *)
Theorem buildSkillData_no_tags (formData : Form.FormData) :
  Form.get formData "tags" = None
  \/ (exists t, Form.get formData "tags" = Some t /\ blankOrComma t = true) ->
  Form.tags (Form.buildSkillData formData) = []
  /\ forall theName,
       Form.get formData "name" = Some theName ->
       exists front rest,
         Form.generateSkillMarkdown toLowerCase (Form.buildSkillData formData)
         = Some (front +:+ "version: 1.0.0" +:+ Form.nl
                 +:+ "tags:" +:+ Form.nl
                 +:+ "  - general" +:+ Form.nl
                 +:+ "---" +:+ Form.nl
                 +:+ rest).
Proof.
  intros H.
  assert (Form.tags (Form.buildSkillData formData) = []) as Hnone.
  { rewrite parseTags_value. unfold Form.parseTags.
    destruct H as [-> | (t & -> & Hb)]; [done|].
    cbn [Form.present Form.show]. destruct (truthy t); [|done].
    pose proof (splitComma_blank t Hb) as Hall.
    induction Hall as [|seg l Hseg _ IH]; [done|].
    simpl. by rewrite (blank_trim seg Hseg). }
  split; [done|]. intros theName Hname.
  set (data := Form.buildSkillData formData) in *.
  assert (Form.name data = Some theName) as Hn by exact Hname.
  assert (Form.tagsYaml data = "  - general") as Hyaml
    by (unfold Form.tagsYaml; by rewrite Hnone).
  unfold Form.generateSkillMarkdown. rewrite Hn, Hyaml.
  exists ("---" +:+ Form.nl
          +:+ "name: " +:+ Form.show (Some theName) +:+ Form.nl
          +:+ "description: " +:+ Form.show (Form.description data) +:+ Form.nl
          +:+ "workflow_stage: " +:+ Form.show (Form.workflow_stage data)
          +:+ Form.nl
          +:+ "compatibility:" +:+ Form.nl
          +:+ Form.compatibilityYaml data +:+ Form.nl
          +:+ "author: " +:+ Form.show (Form.author_name (Form.author data))
          +:+ " <" +:+ Form.show (Form.author_email (Form.author data))
          +:+ ">" +:+ Form.nl).
  eexists. f_equal. rewrite !append_assoc. reflexivity.
Qed.

End Document.

(* ===================================================================== *)
(** * form.js: the heading, the address of the issue, the listener *)
(* ===================================================================== *)

Ltac each_ascii c := destruct c as [[] [] [] [] [] [] [] []].

Lemma toUpperCase_word c :
  Form.isWordChar c = true ->
  Form.isWordChar (Form.toUpperCase c) = true
  /\ Form.toUpperCase (Form.toUpperCase c) = Form.toUpperCase c.
Proof. each_ascii c; vm_compute; intros H; try discriminate H; done. Qed.

Lemma blank_not_word c : isWhiteSpace c = true -> Form.isWordChar c = false.
Proof. each_ascii c; vm_compute; intros H; try discriminate H; done. Qed.

Lemma noWhiteSpace_snoc r c :
  noWhiteSpace r = true -> isWhiteSpace c = false ->
  noWhiteSpace (r +:+ String c "") = true.
Proof.
  intros Hr Hc. induction r as [|d r IH].
  - rewrite append_nil. simpl. by rewrite Hc.
  - rewrite append_cons. simpl in *.
    apply andb_true_iff in Hr as [-> Hr]. by rewrite IH.
Qed.

Lemma append_nil_r s : s +:+ "" = s.
Proof. induction s as [|c s IH]; [done|]. by rewrite append_cons, IH. Qed.

Section TitleCase.

Variable toLowerCase : string -> string.

(** A match that has started runs through what holds no white space. *)
Lemma titleCaseFrom_run r : forall t c z,
  noWhiteSpace r = true ->
  isWhiteSpace c = true ->
  Form.titleCaseFrom toLowerCase (Some t) (r +:+ String c z)
  = Form.capitalize toLowerCase (t +:+ r)
    +:+ String c (Form.titleCaseFrom toLowerCase None z).
Proof.
  induction r as [|d r IH]; intros t c z Hr Hc.
  - rewrite append_nil, append_nil_r. simpl. by rewrite Hc.
  - simpl in Hr. apply andb_true_iff in Hr as [Hd Hr].
    apply negb_true_iff in Hd. rewrite append_cons. simpl. rewrite Hd.
    rewrite (IH _ c z Hr Hc). by rewrite append_assoc.
Qed.

Lemma titleCaseFrom_end r : forall t,
  noWhiteSpace r = true ->
  Form.titleCaseFrom toLowerCase (Some t) r
  = Form.capitalize toLowerCase (t +:+ r).
Proof.
  induction r as [|d r IH]; intros t Hr.
  - by rewrite append_nil_r.
  - simpl in Hr. apply andb_true_iff in Hr as [Hd Hr].
    apply negb_true_iff in Hd. simpl. rewrite Hd.
    rewrite (IH _ Hr). by rewrite append_assoc.
Qed.

(** White space ends a match: the two sides are converted apart. *)
Lemma titleCaseFrom_space u : forall txt c v,
  isWhiteSpace c = true ->
  Form.titleCaseFrom toLowerCase txt (u +:+ String c v)
  = Form.titleCaseFrom toLowerCase txt u
    +:+ String c (Form.titleCaseFrom toLowerCase None v).
Proof.
  induction u as [|d u IH]; intros txt c v Hc.
  - rewrite append_nil. simpl. destruct txt as [t|]; rewrite ?Hc; [done|].
    by rewrite (blank_not_word c Hc).
  - rewrite append_cons. simpl. destruct txt as [t|].
    + destruct (isWhiteSpace d).
      * rewrite (IH None c v Hc). by rewrite append_assoc, append_cons.
      * apply IH, Hc.
    + destruct (Form.isWordChar d).
      * apply IH, Hc.
      * rewrite (IH None c v Hc). by rewrite append_cons.
Qed.

Hypothesis lower_idem : forall s, toLowerCase (toLowerCase s) = toLowerCase s.
Hypothesis lower_noWhiteSpace :
  forall s, noWhiteSpace s = true -> noWhiteSpace (toLowerCase s) = true.

Lemma capitalize_fixed w r :
  Form.isWordChar w = true ->
  noWhiteSpace r = true ->
  Form.titleCaseFrom toLowerCase None
    (Form.capitalize toLowerCase (String w r))
  = Form.capitalize toLowerCase (String w r)
  /\ forall c z,
       isWhiteSpace c = true ->
       Form.titleCaseFrom toLowerCase None
         (Form.capitalize toLowerCase (String w r) +:+ String c z)
       = Form.capitalize toLowerCase (String w r)
         +:+ String c (Form.titleCaseFrom toLowerCase None z).
Proof.
  intros Hw Hr. destruct (toUpperCase_word w Hw) as [Hu1 Hu2].
  pose proof (lower_noWhiteSpace r Hr) as Hl.
  split.
  - simpl. rewrite Hu1, (titleCaseFrom_end _ _ Hl). rewrite append_cons.
    simpl. by rewrite Hu2, append_nil, lower_idem.
  - intros c z Hc. simpl. rewrite append_cons. simpl. rewrite Hu1.
    rewrite (titleCaseFrom_run _ _ c z Hl Hc). rewrite append_cons. simpl.
    by rewrite Hu2, append_nil, lower_idem, append_cons.
Qed.

Lemma titleCaseFrom_idem s :
  Form.titleCaseFrom toLowerCase None (Form.titleCaseFrom toLowerCase None s)
  = Form.titleCaseFrom toLowerCase None s
  /\ forall w r,
       Form.isWordChar w = true ->
       noWhiteSpace r = true ->
       Form.titleCaseFrom toLowerCase None
         (Form.titleCaseFrom toLowerCase (Some (String w r)) s)
       = Form.titleCaseFrom toLowerCase (Some (String w r)) s.
Proof.
  induction s as [|c s [IH1 IH2]].
  - split; [done|]. intros w r Hw Hr.
    apply (capitalize_fixed w r Hw Hr).
  - split.
    + simpl. destruct (Form.isWordChar c) eqn:Hc.
      * by apply IH2.
      * simpl. by rewrite Hc, IH1.
    + intros w r Hw Hr.
      change (Form.titleCaseFrom toLowerCase (Some (String w r)) (String c s))
        with (if isWhiteSpace c
              then Form.capitalize toLowerCase (String w r)
                   +:+ String c (Form.titleCaseFrom toLowerCase None s)
              else Form.titleCaseFrom toLowerCase
                     (Some (String w r +:+ String c "")) s).
      destruct (isWhiteSpace c) eqn:Hc.
      * rewrite (proj2 (capitalize_fixed w r Hw Hr) c _ Hc). by rewrite IH1.
      * rewrite append_cons. apply IH2; [done|]. by apply noWhiteSpace_snoc.
Qed.

End TitleCase.

Lemma replaceDashes_app x y :
  Form.replaceDashes (x +:+ y) = Form.replaceDashes x +:+ Form.replaceDashes y.
Proof.
  induction x as [|c x IH]; [done|]. rewrite append_cons. simpl.
  by rewrite IH, append_cons.
Qed.

(** The case mapping of the strings of code units below 256. *)
Lemma lowerUnit_nonblank c :
  isWhiteSpace c = false ->
  isWhiteSpace (FormDemo.lowerUnit c) = false
  /\ FormDemo.lowerUnit (FormDemo.lowerUnit c) = FormDemo.lowerUnit c.
Proof. each_ascii c; vm_compute; intros H; try discriminate H; done. Qed.

Lemma lowerUnit_idem c :
  FormDemo.lowerUnit (FormDemo.lowerUnit c) = FormDemo.lowerUnit c.
Proof. each_ascii c; vm_compute; reflexivity. Qed.

Lemma toLowerCase_idem s :
  FormDemo.toLowerCase (FormDemo.toLowerCase s) = FormDemo.toLowerCase s.
Proof.
  induction s as [|c s IH]; [done|]. simpl. by rewrite lowerUnit_idem, IH.
Qed.

Lemma toLowerCase_noWhiteSpace s :
  noWhiteSpace s = true -> noWhiteSpace (FormDemo.toLowerCase s) = true.
Proof.
  induction s as [|c s IH]; [done|]. simpl. intros H.
  apply andb_true_iff in H as [Hc Hs]. apply negb_true_iff in Hc.
  destruct (lowerUnit_nonblank c Hc) as [-> _]. by rewrite IH.
Qed.

(** X19. Title case, as the heading of the document uses it on the name
    with its dashes replaced by spaces.  Every dash of the name starts a
    new word: the heading of [x-y] is the heading of [x], a space and the
    heading of [y], whatever the engine's [toLowerCase] does.  And when
    that [toLowerCase] is unchanged by a second application and brings no
    white space into a string that has none, title case is unchanged by a
    second application too. *)
Theorem toTitleCase_heading (toLowerCase : string -> string) (x y : string) :
  Form.toTitleCase toLowerCase (Form.replaceDashes (x +:+ "-" +:+ y))
  = Form.toTitleCase toLowerCase (Form.replaceDashes x) +:+ " "
    +:+ Form.toTitleCase toLowerCase (Form.replaceDashes y)
  /\ ((forall s, toLowerCase (toLowerCase s) = toLowerCase s) ->
      (forall s, noWhiteSpace s = true ->
                 noWhiteSpace (toLowerCase s) = true) ->
      Form.toTitleCase toLowerCase (Form.toTitleCase toLowerCase x)
      = Form.toTitleCase toLowerCase x).
Proof.
  unfold Form.toTitleCase. split.
  - rewrite !replaceDashes_app.
    change (Form.replaceDashes "-") with " ".
    by apply titleCaseFrom_space.
  - intros Hidem Hnws. by apply titleCaseFrom_idem.
Qed.

Lemma allChars_app test a b :
  allChars test (a +:+ b) = allChars test a && allChars test b.
Proof.
  induction a as [|c a IH]; [done|]. rewrite append_cons. simpl.
  by rewrite IH, andb_assoc.
Qed.

Lemma countChar_app c a b :
  countChar c (a +:+ b) = countChar c a + countChar c b.
Proof.
  induction a as [|d a IH]; [done|]. rewrite append_cons. simpl.
  rewrite IH. lia.
Qed.

Lemma countChar_allChars test c s :
  allChars test s = true -> test c = false -> countChar c s = 0.
Proof.
  intros Hs Hc. induction s as [|d s IH]; [done|]. simpl in *.
  apply andb_true_iff in Hs as [Hd Hs].
  destruct (Ascii.eqb_spec c d) as [->|_]; [congruence|]. by apply IH.
Qed.

Lemma encodeUnit_escaped c : allChars escapedChar (Form.encodeUnit c) = true.
Proof. each_ascii c; vm_compute; reflexivity. Qed.

Lemma encodeURIComponent_escaped s :
  allChars escapedChar (Form.encodeURIComponent s) = true.
Proof.
  induction s as [|c s IH]; [done|]. simpl.
  by rewrite allChars_app, encodeUnit_escaped, IH.
Qed.

(** X20. An escaped component is made of unreserved characters and
    percent signs, so the address built by [submitSkill] has the shape its
    template gives it whatever the form holds: one question mark, the
    three parameters [title], [body] and [labels], and no fragment. *)
Theorem issueUrlOf_shape (title body : string) :
  allChars escapedChar (Form.encodeURIComponent title) = true
  /\ countChar "?" (Form.issueUrlOf title body) = 1
  /\ countChar "&" (Form.issueUrlOf title body) = 2
  /\ countChar "=" (Form.issueUrlOf title body) = 3
  /\ countChar "#" (Form.issueUrlOf title body) = 0
  /\ countChar " " (Form.issueUrlOf title body) = 0.
Proof.
  split; [apply encodeURIComponent_escaped|].
  unfold Form.issueUrlOf.
  assert (forall c, escapedChar c = false ->
            forall s, countChar c (Form.encodeURIComponent s) = 0) as H0.
  { intros c Hc s.
    by apply (countChar_allChars escapedChar), Hc;
      [apply encodeURIComponent_escaped]. }
  repeat split; rewrite !countChar_app, !H0 by done; reflexivity.
Qed.

Section Listener.

Variable toLowerCase : string -> string.
Variable nullError : string -> Error.

(** X21. With a submit button on the form, the listener never throws and
    always puts the button back: enabled, with the text it had.  When the
    form has a [name] entry, one window is opened on the issue address
    for the previewed document, the form is hidden and the success
    message shown, and no error is shown; without a [name] entry no
    window is opened and the error message shows the TypeError. *)
Theorem onSubmit_outcome (p : Form.Page) (btn : Button) :
  Form.submitBtn p = Some btn ->
  let p' := snd (Form.onSubmit toLowerCase nullError p) in
  fst (Form.onSubmit toLowerCase nullError p) = Return tt
  /\ Form.submitBtn p' = Some (mkButton false (textContent btn))
  /\ ((exists theName body,
          Form.get (Form.entries p) "name" = Some theName
          /\ Form.previewText toLowerCase (Form.entries p) = Some body
          /\ let url :=
               Form.issueUrlOf ("[Skill Proposal] " +:+ theName) body in
             Form.opened p' = Form.opened p ++ [url]
             /\ Form.formHidden p' = true
             /\ Form.successHidden p'
                = (fun _ => false) <$> Form.successHidden p
             /\ Form.prLinkHref p' = (fun _ => url) <$> Form.prLinkHref p
             /\ Form.errorHidden p' = Form.errorHidden p
             /\ Form.errorText p' = Form.errorText p)
      \/ (Form.get (Form.entries p) "name" = None
          /\ Form.opened p' = Form.opened p
          /\ Form.formHidden p' = Form.formHidden p
          /\ Form.successHidden p' = Form.successHidden p
          /\ Form.errorHidden p' = (fun _ => false) <$> Form.errorHidden p
          /\ Form.errorText p'
             = (fun _ => nullError "replace") <$> Form.errorText p)).
Proof.
  intros Hbtn p'. subst p'. unfold Form.onSubmit. rewrite Hbtn.
  cbn zeta. unfold Form.submitSkill, Form.previewText.
  cbn [Form.entries Form.withButton].
  set (data := Form.buildSkillData (Form.entries p)).
  assert (Form.name data = Form.get (Form.entries p) "name") as Hname by done.
  unfold Form.generateSkillMarkdown. rewrite Hname.
  destruct (Form.get (Form.entries p) "name") as [theName|].
  - cbn. rewrite Hbtn. cbn. split; [done|]. split; [done|].
    left. eexists _, _. split; [done|]. split; [done|]. done.
  - cbn. rewrite Hbtn. cbn. split; [done|]. split; [done|].
    right. done.
Qed.

End Listener.

(* ===================================================================== *)
(** * The further properties on concrete pages *)
(* ===================================================================== *)

Lemma fetchFileContent_primary_success_witness :
  fetchFileContent Demo.network Demo.urlPathname
    "_skills/analysis/r-econometrics/SKILL.md" Demo.page
  = (Return "site copy of /awesome-econ-ai-stuff/_skills/analysis/r-econometrics/SKILL.md",
     addRequest "/awesome-econ-ai-stuff/_skills/analysis/r-econometrics/SKILL.md"
       Demo.page).
Proof.
  apply (fetchFileContent_primary_success Demo.network Demo.urlPathname
           Demo.page "_skills/analysis/r-econometrics/SKILL.md"
           "/awesome-econ-ai-stuff"
           (mkResponse true "OK"
              (inr "site copy of /awesome-econ-ai-stuff/_skills/analysis/r-econometrics/SKILL.md")));
    reflexivity.
Defined.

Lemma fetchFileContent_github_failure_witness :
  fst (fetchFileContent Demo.network Demo.urlPathname
         "_skills/analysis/stata-regression/SKILL.md" Demo.page)
  = Throw "Failed to fetch _skills/analysis/stata-regression/SKILL.md from GitHub: Not Found".
Proof.
  apply (proj1 (fetchFileContent_github_failure Demo.network Demo.urlPathname
                  Demo.page "_skills/analysis/stata-regression/SKILL.md"
                  "/awesome-econ-ai-stuff" eq_refl (or_introl eq_refl))
           (mkResponse false "Not Found" (inr "404: Not Found")));
    reflexivity.
Defined.

Lemma fetchFileContent_warning_witness :
  console (snd (fetchFileContent Demo.network Demo.urlPathname
                  "_skills/analysis/stata-regression/SKILL.md" Demo.page))
  = []
  /\ console (snd (fetchFileContent Demo.offline Demo.urlPathname
                     "_skills/analysis/stata-regression/SKILL.md" Demo.page))
     = [Warn "Failed to fetch _skills/analysis/stata-regression/SKILL.md directly, trying GitHub raw URL:"
          "TypeError: Failed to fetch"].
Proof.
  split.
  - apply (proj1 (fetchFileContent_warning Demo.network Demo.urlPathname
                    Demo.page "_skills/analysis/stata-regression/SKILL.md"
                    "/awesome-econ-ai-stuff" eq_refl)
             (mkResponse false "Not Found" (inr "404: Not Found")));
      reflexivity.
  - apply (proj2 (fetchFileContent_warning Demo.offline Demo.urlPathname
                    Demo.page "_skills/analysis/stata-regression/SKILL.md"
                    "/awesome-econ-ai-stuff" eq_refl)
             "TypeError: Failed to fetch").
    reflexivity.
Defined.

Lemma getBaseUrl_throws_iff_witness :
  (exists e, fst (getBaseUrl Demo.urlPathname Demo.pageBadBase) = Throw e)
  /\ ~ (exists e, fst (getBaseUrl Demo.urlPathname Demo.page) = Throw e).
Proof.
  split.
  - apply (proj2 (getBaseUrl_throws_iff Demo.urlPathname Demo.pageBadBase)).
    split; [reflexivity|]. exists "//".
    split; [reflexivity|]. split; [discriminate|reflexivity].
  - intros H.
    apply (proj1 (getBaseUrl_throws_iff Demo.urlPathname Demo.page)) in H.
    destruct H as [H _]. discriminate H.
Defined.

Lemma downloadSkillFile_outcome_witness :
  downloads (snd (downloadSkillFile Demo.network Demo.urlPathname Demo.page))
  = [("r-econometrics-SKILL.md",
      TextBlob "site copy of /awesome-econ-ai-stuff/_skills/analysis/r-econometrics/SKILL.md"
        "text/markdown")]
  /\ (downloads (snd (downloadSkillFile Demo.offline Demo.urlPathname
                        Demo.page)) = []
      /\ alerts (snd (downloadSkillFile Demo.offline Demo.urlPathname
                        Demo.page))
         = ["Failed to download SKILL.md file. Please try again."]).
Proof.
  split.
  - destruct (proj2 (downloadSkillFile_outcome Demo.network Demo.urlPathname
                       Demo.page))
      as [(sp & c & n & Hsp & Hc & Hd & _)|(Hd & _)].
    + injection Hsp as <-. injection Hc as <-. reflexivity.
    + discriminate Hd.
  - destruct (proj2 (downloadSkillFile_outcome Demo.offline Demo.urlPathname
                       Demo.page))
      as [(sp & c & n & Hsp & Hc & _)|(Hd & Ha & _)].
    + injection Hsp as <-. discriminate Hc.
    + split; [exact Hd|exact Ha].
Defined.

Lemma downloadAllSkills_without_JSZip_witness :
  let w' := snd (downloadAllSkills Demo.network Demo.urlPathname
                   Demo.generates [] Demo.pageNoZip) in
  requests w' = [] /\ downloads w' = [] /\ zipFiles w' = ∅
  /\ alerts w' = ["Failed to download skills. Please try again."].
Proof.
  apply (downloadAllSkills_without_JSZip Demo.network Demo.urlPathname
           Demo.generates SKILLS_LIST [] Demo.pageNoZip).
  reflexivity.
Defined.

Lemma operations_without_base_witness :
  requests (snd (downloadAllSkills Demo.network Demo.urlPathname
                   Demo.generates [] Demo.pageBadBase)) = []
  /\ alerts (snd (downloadSkillFile Demo.network Demo.urlPathname
                    Demo.pageBadBase))
     = ["Failed to download SKILL.md file. Please try again."].
Proof.
  destruct (operations_without_base Demo.network Demo.urlPathname
              Demo.generates SKILLS_LIST [] Demo.pageBadBase
              "TypeError: Invalid URL" eq_refl)
    as [(Hreq & _) (_ & _ & _ & Hal)].
  split; [exact Hreq|exact Hal].
Defined.

Lemma downloadSkillFile_on_skill_page_witness :
  fst (deriveSkillPath Demo.urlPathname Demo.page)
  = Return "_skills/analysis/r-econometrics/SKILL.md"
  /\ downloads (snd (downloadSkillFile Demo.network Demo.urlPathname
                       Demo.page))
     = [("r-econometrics-SKILL.md",
         TextBlob "site copy of /awesome-econ-ai-stuff/_skills/analysis/r-econometrics/SKILL.md"
           "text/markdown")].
Proof.
  destruct (downloadSkillFile_on_skill_page Demo.network Demo.urlPathname
              Demo.page "/awesome-econ-ai-stuff" "analysis" "r-econometrics"
              eq_refl eq_refl eq_refl ltac:(discriminate)
              (or_intror eq_refl))
    as (Hpath & _ & Hsave).
  split; [exact Hpath|].
  exact (proj1 (Hsave _ eq_refl)).
Defined.

Lemma archive_files_order_independent_witness :
  zfiles (zipFiles (snd (downloadAllSkillsOf Demo.network Demo.urlPathname
                           Demo.generates SKILLS_LIST [3; 1; 4; 1; 5]
                           Demo.page)))
  = zfiles (zipFiles (snd (downloadAllSkillsOf Demo.network Demo.urlPathname
                             Demo.generates SKILLS_LIST [11; 0; 7]
                             Demo.page))).
Proof.
  apply archive_files_order_independent.
  apply (bool_decide_unpack (NoDup (targets SKILLS_LIST))).
  vm_compute. exact I.
Defined.

Lemma saved_archive_sound_witness :
  exists skill folder,
    skill ∈ SKILLS_LIST
    /\ fst (fetchFileContent Demo.network Demo.urlPathname (path skill)
              Demo.page)
       = Return "raw copy of https://raw.githubusercontent.com/meleantonio/awesome-econ-ai-stuff/main/_skills/writing/latex-tables/SKILL.md"
    /\ "skills/writing/latex-tables/SKILL.md"
       = archivePath "skills/" (path skill)
    /\ "skills/writing/latex-tables/SKILL.md" = folder +:+ "SKILL.md".
Proof.
  apply (saved_archive_sound Demo.network Demo.urlPathname Demo.generates
           SKILLS_LIST [3; 1; 4; 1; 5] Demo.page
           (zipFiles (snd (downloadAllSkills Demo.network Demo.urlPathname
                             Demo.generates [3; 1; 4; 1; 5] Demo.page))));
    vm_compute; reflexivity.
Defined.

Lemma saved_archive_complete_witness :
  let w' := snd (downloadAllSkillsOf Demo.network Demo.urlPathname
                   Demo.generates SKILLS_LIST [3; 1; 4; 1; 5] Demo.page) in
  size (zfiles (zipFiles w'))
  + failures Demo.network Demo.urlPathname Demo.page SKILLS_LIST
  = length SKILLS_LIST
  /\ errorLines (console w')
     = errorLines (console Demo.page)
       + failures Demo.network Demo.urlPathname Demo.page SKILLS_LIST.
Proof.
  apply (saved_archive_complete Demo.network Demo.urlPathname Demo.generates
           SKILLS_LIST [3; 1; 4; 1; 5] Demo.page).
  - apply (bool_decide_unpack (NoDup (targets SKILLS_LIST))).
    vm_compute. exact I.
  - vm_compute. reflexivity.
Defined.

Lemma skillCallback_stores_witness :
  zipFiles
    (snd (skillCallback Demo.network Demo.urlPathname
            (JSZip.mkHandle "skills/")
            (mkSkill "_skills/data/api-data-fetcher/SKILL.md" "api-data-fetcher")
            Demo.page))
    !! "skills/data/api-data-fetcher/SKILL.md"
  = Some (ZFile "site copy of /awesome-econ-ai-stuff/_skills/data/api-data-fetcher/SKILL.md").
Proof.
  apply (skillCallback_stores Demo.network Demo.urlPathname Demo.page
           (mkSkill "_skills/data/api-data-fetcher/SKILL.md" "api-data-fetcher")
           "_skills" "data" "api-data-fetcher" "SKILL.md");
    first [reflexivity | discriminate].
Defined.

Lemma skillCallback_swallows_failure_witness :
  fst (skillCallback Demo.network Demo.urlPathname (JSZip.mkHandle "skills/")
         (mkSkill "_skills/analysis/stata-regression/SKILL.md"
            "stata-regression") Demo.page)
  = Return tt.
Proof.
  apply (skillCallback_swallows_failure Demo.network Demo.urlPathname
           (JSZip.mkHandle "skills/") Demo.page
           (mkSkill "_skills/analysis/stata-regression/SKILL.md"
              "stata-regression")
           "Failed to fetch _skills/analysis/stata-regression/SKILL.md from GitHub: Not Found").
  reflexivity.
Defined.

Lemma fetchFileContent_requests_witness :
  requests (snd (fetchFileContent Demo.network Demo.urlPathname
                   "_skills/analysis/stata-regression/SKILL.md" Demo.page))
  = [ "/awesome-econ-ai-stuff/_skills/analysis/stata-regression/SKILL.md";
      "https://raw.githubusercontent.com/meleantonio/awesome-econ-ai-stuff/main/_skills/analysis/stata-regression/SKILL.md" ].
Proof.
  apply (proj2 (proj2 (fetchFileContent_requests Demo.network
                         Demo.urlPathname Demo.page
                         "_skills/analysis/stata-regression/SKILL.md"
                         "/awesome-econ-ai-stuff" eq_refl))).
  intros (r & c & Hn & Hok & _). injection Hn as <-. discriminate Hok.
Defined.

Lemma downloadAllSkills_requests_witness :
  let w' := snd (downloadAllSkills Demo.network Demo.urlPathname
                   Demo.generates [3; 1; 4; 1; 5] Demo.page) in
  12 <= length (requests w') /\ length (requests w') <= 24.
Proof.
  apply (downloadAllSkills_requests Demo.network Demo.urlPathname
           Demo.generates SKILLS_LIST [3; 1; 4; 1; 5] Demo.page
           "/awesome-econ-ai-stuff"); reflexivity.
Defined.

Lemma buildSkillData_tags_roundtrip_witness :
  Form.tags (Form.buildSkillData FormDemo.filled) = ["iv"; "2sls"; "fixest"].
Proof.
  apply buildSkillData_tags_roundtrip; [|reflexivity].
  repeat constructor; discriminate.
Defined.

Lemma buildSkillData_no_tags_witness :
  Form.tags (Form.buildSkillData FormDemo.untagged) = []
  /\ exists front rest,
       Form.generateSkillMarkdown FormDemo.toLowerCase
         (Form.buildSkillData FormDemo.untagged)
       = Some (front +:+ "version: 1.0.0" +:+ Form.nl
               +:+ "tags:" +:+ Form.nl
               +:+ "  - general" +:+ Form.nl
               +:+ "---" +:+ Form.nl
               +:+ rest).
Proof.
  destruct (buildSkillData_no_tags FormDemo.toLowerCase FormDemo.untagged)
    as [Hnone Hdoc].
  - right. exists " , ,". split; reflexivity.
  - split; [exact Hnone|]. apply (Hdoc "iv-regression"). reflexivity.
Defined.

Lemma toTitleCase_heading_witness :
  Form.toTitleCase FormDemo.toLowerCase
    (Form.toTitleCase FormDemo.toLowerCase "panel DATA-methods")
  = Form.toTitleCase FormDemo.toLowerCase "panel DATA-methods".
Proof.
  apply (proj2 (toTitleCase_heading FormDemo.toLowerCase
                  "panel DATA-methods" "")).
  - apply toLowerCase_idem.
  - apply toLowerCase_noWhiteSpace.
Defined.

Lemma onSubmit_outcome_witness :
  Form.submitBtn (snd (Form.onSubmit FormDemo.toLowerCase FormDemo.nullError
                         (FormDemo.pageOf FormDemo.filled)))
  = Some (mkButton false "Submit Skill")
  /\ Form.submitBtn (snd (Form.onSubmit FormDemo.toLowerCase FormDemo.nullError
                            (FormDemo.pageOf FormDemo.nameless)))
     = Some (mkButton false "Submit Skill").
Proof.
  split.
  - apply (onSubmit_outcome FormDemo.toLowerCase FormDemo.nullError
             (FormDemo.pageOf FormDemo.filled) (mkButton false "Submit Skill")).
    reflexivity.
  - apply (onSubmit_outcome FormDemo.toLowerCase FormDemo.nullError
             (FormDemo.pageOf FormDemo.nameless)
             (mkButton false "Submit Skill")).
    reflexivity.
Defined.

Example onSubmit_filled_form :
  let p' := snd (Form.onSubmit FormDemo.toLowerCase FormDemo.nullError
                   (FormDemo.pageOf FormDemo.filled)) in
  Form.formHidden p' = true
  /\ length (Form.opened p') = 1
  /\ Form.errorText p' = Some ""
  /\ Form.toTitleCase FormDemo.toLowerCase
       (Form.replaceDashes "iv-REGRESSION") = "Iv Regression".
Proof. vm_compute. repeat split; reflexivity. Qed.

(** * The debounce utility *)

Section DebounceFacts.

Context {A : Type}.
Variable wait : nat.

Lemma paced_nil : Debounce.paced (A := A) wait [].
Proof.
  intros pre t args post H. by destruct pre.
Qed.

Lemma paced_snoc (entries : list (Debounce.Entry (A := A)))
    (e : Debounce.Entry) :
  Debounce.paced wait entries ->
  (forall t args,
      e = Debounce.Called t args ->
      exists pre' t0,
        entries = pre' ++ [Debounce.Invoked t0 args] /\ t0 + wait <= t) ->
  Debounce.paced wait (entries ++ [e]).
Proof.
  intros Hp He pre t args post H.
  destruct post as [|x post _] using rev_ind.
  - apply app_inj_tail in H as [-> ->]. by apply He.
  - rewrite app_comm_cons, app_assoc in H.
    apply app_inj_tail in H as [-> _]. by apply (Hp pre t args post).
Qed.

Lemma step_settled (l l' : Debounce.Loop (A := A)) (e : Debounce.Event) :
  Debounce.settled wait l ->
  Debounce.paced wait (Debounce.log l) ->
  Debounce.step wait l e = Some l' ->
  Debounce.settled wait l' /\ Debounce.paced wait (Debounce.log l').
Proof.
  intros Hs Hp Hstep.
  assert (Debounce.pending (Debounce.clearTimeout (Debounce.timeout l) l) = [])
    as Hclear.
  { unfold Debounce.settled in Hs.
    destruct (last (Debounce.log l)) as [[t a|t a]|].
    - destruct Hs as (id & -> & Hpend & _). cbn. rewrite Hpend. cbn.
      by rewrite Nat.eqb_refl.
    - unfold Debounce.clearTimeout. destruct (Debounce.timeout l); [|done].
      cbn. by rewrite Hs.
    - destruct Hs as [Hpend ->]. done. }
  destruct e as [args|ms|id]; cbn in Hstep.
  - injection Hstep as <-. split.
    + unfold Debounce.settled, Debounce.executedFunction. cbn.
      rewrite last_snoc. eexists. split; [done|]. split; [|done].
      destruct (Debounce.timeout l) as [i|] eqn:Ht; cbn in *.
      * by rewrite Hclear.
      * by rewrite Hclear.
    + unfold Debounce.executedFunction. cbn.
      apply paced_snoc; [done|]. intros t a [=].
  - injection Hstep as <-. split; [|done].
    unfold Debounce.settled in *. cbn.
    destruct (last (Debounce.log l)) as [[t a|t a]|]; [|done..].
    destruct Hs as (id & ? & ? & ?). exists id. repeat split; [done..|lia].
  - unfold Debounce.fire in Hstep. unfold Debounce.settled in Hs.
    destruct (last (Debounce.log l)) as [[t a|t a]|] eqn:Hlast.
    + destruct Hs as (i & Ht & Hpend & Hle). rewrite Hpend in Hstep.
      cbn in Hstep. destruct (i =? id) eqn:Hid; [|done].
      cbn in Hstep. destruct (t + wait <=? Debounce.clock l) eqn:Hdue; [|done].
      injection Hstep as <-. apply Nat.leb_le in Hdue.
      split.
      * unfold Debounce.settled, Debounce.later. rewrite Ht. cbn.
        by rewrite last_snoc.
      * unfold Debounce.later. rewrite Ht. cbn.
        apply paced_snoc; [done|]. intros t' a' [= <- <-].
        apply last_Some in Hlast as [pre' ->]. by exists pre', t.
    + by rewrite Hs in Hstep.
    + destruct Hs as [Hs _]. by rewrite Hs in Hstep.
Qed.

Lemma run_settled (events : list Debounce.Event)
    (l l' : Debounce.Loop (A := A)) :
  Debounce.settled wait l ->
  Debounce.paced wait (Debounce.log l) ->
  Debounce.run wait l events = Some l' ->
  Debounce.settled wait l' /\ Debounce.paced wait (Debounce.log l').
Proof.
  revert l. induction events as [|e events IH]; intros l Hs Hp Hrun.
  - by injection Hrun as <-.
  - cbn in Hrun. destruct (Debounce.step wait l e) as [l1|] eqn:Hstep; [|done].
    destruct (step_settled l l1 e Hs Hp Hstep) as [Hs1 Hp1].
    by apply (IH l1).
Qed.

(** X24. Every call of the debounced function comes right after the
    invocation that supplied its arguments, and at least [wait]
    milliseconds after it: no call is early, none uses arguments of an
    invocation that a later one has superseded, and no invocation leads
    to two calls. *)
Theorem debounce_paced (time firstId : nat) (events : list Debounce.Event)
    (l : Debounce.Loop (A := A)) (pre post : list Debounce.Entry)
    (t : nat) (args : A) :
  Debounce.run wait (Debounce.start time firstId) events = Some l ->
  Debounce.log l = pre ++ Debounce.Called t args :: post ->
  exists pre' t0,
    pre = pre' ++ [Debounce.Invoked t0 args] /\ t0 + wait <= t.
Proof.
  intros Hrun Hlog.
  destruct (run_settled events (Debounce.start time firstId) l) as [_ Hp];
    [done|apply paced_nil|done|].
  by apply (Hp pre t args post).
Qed.

(** X25. After an invocation that no other has followed, exactly one
    timer is pending, due [wait] milliseconds after that invocation with
    its arguments; the browser cannot run it before, and once [wait]
    milliseconds have passed running it calls the function with those
    arguments and leaves no timer behind. *)
Theorem debounce_trailing_call (time firstId : nat)
    (events : list Debounce.Event) (l : Debounce.Loop (A := A))
    (pre : list Debounce.Entry) (t0 : nat) (args : A) :
  Debounce.run wait (Debounce.start time firstId) events = Some l ->
  Debounce.log l = pre ++ [Debounce.Invoked t0 args] ->
  exists id,
    Debounce.pending l = [Debounce.mkTimer id (t0 + wait) args]
    /\ forall ms,
         (Debounce.clock l + ms < t0 + wait ->
          Debounce.run wait l [Debounce.Sleep ms; Debounce.Fire id] = None)
         /\ (t0 + wait <= Debounce.clock l + ms ->
             exists l',
               Debounce.run wait l [Debounce.Sleep ms; Debounce.Fire id]
               = Some l'
               /\ Debounce.log l'
                  = Debounce.log l
                    ++ [Debounce.Called (Debounce.clock l + ms) args]
               /\ Debounce.pending l' = []).
Proof.
  intros Hrun Hlog.
  destruct (run_settled events (Debounce.start time firstId) l) as [Hs _];
    [done|apply paced_nil|done|].
  unfold Debounce.settled in Hs. rewrite Hlog, last_snoc in Hs.
  destruct Hs as (id & Ht & Hpend & Hle). exists id. split; [done|].
  intros ms. cbn. unfold Debounce.fire. cbn. rewrite Hpend. cbn.
  rewrite Nat.eqb_refl. cbn. split; intros Hms.
  - by apply Nat.leb_gt in Hms as ->.
  - apply Nat.leb_le in Hms as ->. eexists. split; [done|].
    unfold Debounce.later. by rewrite Ht.
Qed.

End DebounceFacts.

Lemma debounce_paced_witness :
  exists pre' t0,
    [Debounce.Invoked 0 "a"; Debounce.Invoked 100 "b"]
    = pre' ++ [Debounce.Invoked t0 "b"]
    /\ t0 + 300 <= 450.
Proof.
  apply (debounce_paced 300 0 1
           [Debounce.Invoke "a"; Debounce.Sleep 100; Debounce.Invoke "b";
            Debounce.Sleep 350; Debounce.Fire 2]
           (Debounce.mkLoop 450 3 [] (Some 2)
              [Debounce.Invoked 0 "a"; Debounce.Invoked 100 "b";
               Debounce.Called 450 "b"])
           _ [] 450 "b");
    reflexivity.
Defined.

Lemma debounce_trailing_call_witness :
  let l :=
    Debounce.mkLoop 100 3 [Debounce.mkTimer 2 400 "b"] (Some 2)
      [Debounce.Invoked 0 "a"; Debounce.Invoked 100 "b"] in
  exists id,
    Debounce.pending l = [Debounce.mkTimer id (100 + 300) "b"]
    /\ forall ms,
         (Debounce.clock l + ms < 100 + 300 ->
          Debounce.run 300 l [Debounce.Sleep ms; Debounce.Fire id] = None)
         /\ (100 + 300 <= Debounce.clock l + ms ->
             exists l',
               Debounce.run 300 l [Debounce.Sleep ms; Debounce.Fire id]
               = Some l'
               /\ Debounce.log l'
                  = Debounce.log l
                    ++ [Debounce.Called (Debounce.clock l + ms) "b"]
               /\ Debounce.pending l' = []).
Proof.
  intros l.
  apply (debounce_trailing_call 300 0 1
           [Debounce.Invoke "a"; Debounce.Sleep 100; Debounce.Invoke "b"]
           l [Debounce.Invoked 0 "a"] 100 "b");
    reflexivity.
Defined.
